(** * Database provisioning orchestrator of the infrastructure stack

    A shallow embedding of

    - [src/stack/infrastructure-stack.ts]: the [InfrastructureStack]
      constructor, restricted to its [props.databases] loop;
    - the [EdgeDbConstruct] constructor (edge-db/edge-db-construct);
    - the [InstanceBaseDatabase] constructor (rds/instance-base-database).

    JavaScript strings are modelled as [string] (one [ascii] per code unit, so
    the model speaks about ASCII text), [number]s that hold ports and sizes as
    [Z], optional properties as [option], and a [throw] as the [Throw] outcome
    of a small state-and-error monad whose state is the list of constructs
    created so far.  Values that the CDK only knows as tokens (endpoint
    address and port, ARNs, group ids, load balancer DNS names) come from a
    [Tokens] record. *)

From Stdlib Require Import String Ascii List ZArith Bool Lia.
From Stdlib Require Import DecimalString.
Import ListNotations.

Local Open Scope string_scope.
Local Open Scope Z_scope.

(** ** JavaScript values *)

Module Js.

(** Code unit ranges, as written inside a regular expression class. *)
Definition between (lo hi c : ascii) : bool :=
  (N_of_ascii lo <=? N_of_ascii c)%N && (N_of_ascii c <=? N_of_ascii hi)%N.

Definition isLower (c : ascii) : bool := between "a" "z" c.
Definition isUpper (c : ascii) : bool := between "A" "Z" c.
Definition isDigit (c : ascii) : bool := between "0" "9" c.
Definition isAlnum (c : ascii) : bool := isLower c || isUpper c || isDigit c.

(** [String.prototype.toUpperCase] and [toLowerCase] on one ASCII code unit. *)
Definition upperChar (c : ascii) : ascii :=
  if isLower c then ascii_of_N (N_of_ascii c - 32) else c.
Definition lowerChar (c : ascii) : ascii :=
  if isUpper c then ascii_of_N (N_of_ascii c + 32) else c.

Fixpoint map_string (f : ascii -> ascii) (s : string) : string :=
  match s with
  | EmptyString => EmptyString
  | String c s' => String (f c) (map_string f s')
  end.

Definition toUpperCase : string -> string := map_string upperChar.
Definition toLowerCase : string -> string := map_string lowerChar.

(** [Number.prototype.toString] and the rendering of an integer number in a
    template literal: decimal digits, a leading minus sign when negative. *)
Definition numberToString (z : Z) : string :=
  NilZero.string_of_int (Z.to_int z).

(** A template literal renders a missing value as the text [undefined]. *)
Definition render (o : option string) : string :=
  match o with Some s => s | None => "undefined" end.

(** [ToBoolean] on an optional number: [undefined] and [0] are falsy. *)
Definition truthyNumber (o : option Z) : bool :=
  match o with
  | None => false
  | Some z => negb (z =? 0)
  end.

(** [ToBoolean] on an optional boolean. *)
Definition truthyBool (o : option bool) : bool :=
  match o with Some b => b | None => false end.

(** [a || d] on an optional number. *)
Definition orElse (o : option Z) (d : Z) : Z :=
  match o with
  | Some z => if z =? 0 then d else z
  | None => d
  end.

(** [a ?? d]. *)
Definition nullish {A : Type} (o : option A) (d : A) : A :=
  match o with Some a => a | None => d end.

(** Outcome of evaluating an expression or running a constructor. *)
Inductive outcome (A : Type) : Type :=
| Return (a : A)
| Throw (message : string).
Arguments Return {A} a.
Arguments Throw {A} message.

(** [s[0].toUpperCase() + s.slice(1)]: indexing the empty string gives
    [undefined], and calling a method on it throws a [TypeError]. *)
Definition upperFirstOrThrow (s : string) : outcome string :=
  match s with
  | EmptyString =>
      Throw "TypeError: Cannot read properties of undefined (reading 'toUpperCase')"
  | String c rest => Return (toUpperCase (String c EmptyString) ++ rest)
  end.

End Js.

(** ** Regular expressions

    The fragment of JavaScript regular expressions that the sources use:
    character classes, literals, sequence, ordered alternation, greedy
    [?], [+] and [*] on a class, look-ahead, [\b] and [$], with backtracking. *)

Module Regex.

Inductive re : Type :=
| Cls (p : ascii -> bool)
| Lit (s : string)
| Seq (a b : re)
| Alt (a b : re)
| Opt (a : re)
| Star (p : ascii -> bool)
| Ahead (a : re)
| NotAhead (a : re)
| Boundary
| Eos.

Definition Plus (p : ascii -> bool) : re := Seq (Cls p) (Star p).

(** A continuation receives the code unit before the current position and
    the rest of the input, and answers with the input left after the whole
    match. *)
Definition cont : Type := option ascii -> string -> option string.

Definition isWordChar (o : option ascii) : bool :=
  match o with
  | Some c => Js.isAlnum c || Ascii.eqb c "_"
  | None => false
  end.

Definition head (s : string) : option ascii :=
  match s with
  | EmptyString => None
  | String c _ => Some c
  end.

Fixpoint lit (l : string) (prev : option ascii) (s : string) (k : cont)
  : option string :=
  match l with
  | EmptyString => k prev s
  | String a l' =>
      match s with
      | String c s' => if Ascii.eqb a c then lit l' (Some c) s' k else None
      | EmptyString => None
      end
  end.

(** Greedy [p*]: take as many as possible, give back one at a time. *)
Fixpoint star (p : ascii -> bool) (prev : option ascii) (s : string) (k : cont)
  : option string :=
  match s with
  | String c s' =>
      if p c then
        match star p (Some c) s' k with
        | Some r => Some r
        | None => k prev s
        end
      else k prev s
  | EmptyString => k prev s
  end.

Fixpoint run (r : re) (prev : option ascii) (s : string) (k : cont)
  : option string :=
  match r with
  | Cls p =>
      match s with
      | String c s' => if p c then k (Some c) s' else None
      | EmptyString => None
      end
  | Lit l => lit l prev s k
  | Seq a b => run a prev s (fun prev' s' => run b prev' s' k)
  | Alt a b =>
      match run a prev s k with
      | Some r => Some r
      | None => run b prev s k
      end
  | Opt a =>
      match run a prev s k with
      | Some r => Some r
      | None => k prev s
      end
  | Star p => star p prev s k
  | Ahead a =>
      match run a prev s (fun _ s' => Some s') with
      | Some _ => k prev s
      | None => None
      end
  | NotAhead a =>
      match run a prev s (fun _ s' => Some s') with
      | Some _ => None
      | None => k prev s
      end
  | Boundary =>
      if xorb (isWordChar prev) (isWordChar (head s)) then k prev s else None
  | Eos =>
      match s with
      | EmptyString => k prev s
      | String _ _ => None
      end
  end.

(** The input left after a match of [r] that starts at the current position. *)
Definition matchAt (r : re) (prev : option ascii) (s : string) : option string :=
  run r prev s (fun _ s' => Some s').

(** [RegExp.prototype.test] without the [g] flag: a match at any position. *)
Fixpoint testFrom (r : re) (prev : option ascii) (s : string) : bool :=
  match matchAt r prev s with
  | Some _ => true
  | None =>
      match s with
      | EmptyString => false
      | String c s' => testFrom r (Some c) s'
      end
  end.

Definition test (r : re) (s : string) : bool := testFrom r None s.

Fixpoint take (n : nat) (s : string) : string :=
  match n, s with
  | S n', String c s' => String c (take n' s')
  | _, _ => EmptyString
  end.

(** [String.prototype.match] with the [g] flag: the successive matches from
    left to right.  [skip] counts the code units of the current match that
    are still to be passed over; after an empty match the search moves on
    by one code unit. *)
Fixpoint matchAllFrom (r : re) (skip : nat) (prev : option ascii) (s : string)
  : list string :=
  match s with
  | EmptyString =>
      match matchAt r prev s with
      | Some _ => [EmptyString]
      | None => []
      end
  | String c s' =>
      match skip with
      | S n => matchAllFrom r n (Some c) s'
      | O =>
          match matchAt r prev s with
          | Some rest =>
              let n := (String.length s - String.length rest)%nat in
              take n s :: matchAllFrom r (Nat.pred n) (Some c) s'
          | None => matchAllFrom r 0 (Some c) s'
          end
      end
  end.

Definition matchAll (r : re) (s : string) : list string :=
  matchAllFrom r 0 None s.

End Regex.

(** ** lodash [camelCase]

    [camelCase] is imported from lodash (4.17).  It is
    [words(deburr(string).replace(/['\u2019]/g, '')).reduce(...)], where [words]
    applies [reAsciiWord] or, when [reHasUnicodeWord] finds a match,
    [reUnicodeWord].  The regular expressions below are lodash's, with their
    character classes cut down to the ASCII range: on ASCII input [deburr] is
    the identity and the Latin-1, dingbat and emoji alternatives never apply. *)

Module Lodash.
Import Regex.

Definition isApos (c : ascii) : bool := Ascii.eqb c "'".

(** [rsBreakRange] on ASCII: [\x00-\x2f\x3a-\x40\x5b-\x60\x7b-\x7f]. *)
Definition isBreak (c : ascii) : bool :=
  Js.between "000" "/" c || Js.between ":" "@" c
  || Js.between "[" "`" c || Js.between "{" "127" c.

(** [rsMisc]: whatever is neither break, digit, [+], lower nor upper. *)
Definition isMisc (c : ascii) : bool :=
  negb (isBreak c || Js.isDigit c || Ascii.eqb c "+"
        || Js.isLower c || Js.isUpper c).

Definition isMiscLower (c : ascii) : bool := Js.isLower c || isMisc c.
Definition isMiscUpper (c : ascii) : bool := Js.isUpper c || isMisc c.

Fixpoint alts (l : list re) : re :=
  match l with
  | [] => NotAhead (Lit EmptyString)
  | [a] => a
  | a :: l' => Alt a (alts l')
  end.

Fixpoint seqs (l : list re) : re :=
  match l with
  | [] => Lit EmptyString
  | [a] => a
  | a :: l' => Seq a (seqs l')
  end.

Definition rsOptContrLower : re :=
  Opt (Seq (Cls isApos)
           (alts [Lit "d"; Lit "ll"; Lit "m"; Lit "re"; Lit "s"; Lit "t"; Lit "ve"])).
Definition rsOptContrUpper : re :=
  Opt (Seq (Cls isApos)
           (alts [Lit "D"; Lit "LL"; Lit "M"; Lit "RE"; Lit "S"; Lit "T"; Lit "VE"])).

Definition is123 (c : ascii) : bool := Js.between "1" "3" c.

(** [\d*(?:1st|2nd|3rd|(?![123])\dth)(?=\b|[A-Z_])] *)
Definition rsOrdLower : re :=
  seqs [Star Js.isDigit;
        alts [Lit "1st"; Lit "2nd"; Lit "3rd";
              seqs [NotAhead (Cls is123); Cls Js.isDigit; Lit "th"]];
        Ahead (Alt Boundary (Cls (fun c => Js.isUpper c || Ascii.eqb c "_")))].

(** [\d*(?:1ST|2ND|3RD|(?![123])\dTH)(?=\b|[a-z_])] *)
Definition rsOrdUpper : re :=
  seqs [Star Js.isDigit;
        alts [Lit "1ST"; Lit "2ND"; Lit "3RD";
              seqs [NotAhead (Cls is123); Cls Js.isDigit; Lit "TH"]];
        Ahead (Alt Boundary (Cls (fun c => Js.isLower c || Ascii.eqb c "_")))].

Definition reUnicodeWord : re :=
  alts
    [ seqs [Opt (Cls Js.isUpper); Plus Js.isLower; rsOptContrLower;
            Ahead (alts [Cls isBreak; Cls Js.isUpper; Eos])];
      seqs [Plus isMiscUpper; rsOptContrUpper;
            Ahead (alts [Cls isBreak; Seq (Cls Js.isUpper) (Cls isMiscLower); Eos])];
      seqs [Opt (Cls Js.isUpper); Plus isMiscLower; rsOptContrLower];
      seqs [Plus Js.isUpper; rsOptContrUpper];
      rsOrdUpper;
      rsOrdLower;
      Plus Js.isDigit ].

(** [/[^\x00-\x2f\x3a-\x40\x5b-\x60\x7b-\x7f]+/g] *)
Definition reAsciiWord : re := Plus (fun c => negb (isBreak c)).

(** [/[a-z][A-Z]|[A-Z]{2}[a-z]|[0-9][a-zA-Z]|[a-zA-Z][0-9]|[^a-zA-Z0-9 ]/] *)
Definition reHasUnicodeWord : re :=
  let letter c := Js.isLower c || Js.isUpper c in
  alts
    [ Seq (Cls Js.isLower) (Cls Js.isUpper);
      seqs [Cls Js.isUpper; Cls Js.isUpper; Cls Js.isLower];
      Seq (Cls Js.isDigit) (Cls letter);
      Seq (Cls letter) (Cls Js.isDigit);
      Cls (fun c => negb (Js.isAlnum c || Ascii.eqb c " ")) ].

Fixpoint removeApos (s : string) : string :=
  match s with
  | EmptyString => EmptyString
  | String c s' => if isApos c then removeApos s' else String c (removeApos s')
  end.

Definition words (s : string) : list string :=
  if test reHasUnicodeWord s then matchAll reUnicodeWord s
  else matchAll reAsciiWord s.

Definition upperFirst (s : string) : string :=
  match s with
  | EmptyString => EmptyString
  | String c rest => String (Js.upperChar c) rest
  end.

Definition capitalize (s : string) : string := upperFirst (Js.toLowerCase s).

(** [arrayReduce(words, callback, '')] with the callback of [camelCase]:
    [word = word.toLowerCase(); result + (index ? capitalize(word) : word)]. *)
Fixpoint compound (ws : list string) (index : nat) (result : string) : string :=
  match ws with
  | [] => result
  | word :: ws' =>
      let word := Js.toLowerCase word in
      compound ws' (S index)
        (result ++ match index with O => word | S _ => capitalize word end)
  end.

Definition camelCase (s : string) : string :=
  compound (words (removeApos s)) 0 "".

End Lodash.

(** ** The construct tree

    Constructs live in a store in creation order; a construct is referred to
    by its position there, so that a later [addIngressRule] changes the group
    that every holder of the reference sees.

    The checks of the CDK library itself are not part of the model: [new]
    below never throws, where the library refuses a second construct of the
    same path and a parameter name outside its letters.  A run of the model
    is the run of the constructor in which the library refuses nothing; when
    the library refuses a construct the constructor throws there, with the
    store as the model has it up to that construct.  A run of the
    constructor that returns is thus a run of the model that returns, with
    the same store. *)

Module Cdk.

Definition ref : Type := nat.

Inductive Peer : Type :=
| AnyIpv4
| GroupPeer (group : ref).

Inductive Port : Type :=
| Tcp (port : Z).

Record IngressRule : Type := { rulePeer : Peer; rulePort : Port }.

Inductive RemovalPolicy : Type := DESTROY | SNAPSHOT.

Inductive SubnetType : Type := PUBLIC | PRIVATE_ISOLATED.

Record SecurityGroupProps : Type :=
  { sgVpc : string;
    allowAllOutbound : bool;
    allowAllIpv6Outbound : bool;
    sgDescription : string }.

(** [secretStringTemplate] holds the object handed to [JSON.stringify]. *)
Record SecretProps : Type :=
  { secretDescription : string;
    secretName : option string;
    excludePunctuation : bool;
    secretStringTemplate : option (list (string * string));
    generateStringKey : option string }.

Record Monitoring : Type :=
  { cloudwatchLogsExports : list string;
    enablePerformanceInsights : bool;
    monitoringInterval : Z }.

Record DatabaseInstanceProps : Type :=
  { databaseName : string;
    removalPolicy : RemovalPolicy;
    engineVersion : string;
    credentials : ref;
    deleteAutomatedBackups : option bool;
    storageEncrypted : bool;
    instanceType : string;
    allocatedStorage : Z;
    maxAllocatedStorage : Z;
    vpc : string;
    securityGroups : list ref;
    vpcSubnets : SubnetType;
    monitoring : option Monitoring }.

Record EdgeDbServiceProps : Type :=
  { baseDbDsn : string;
    baseDbSecurityGroup : string;
    desiredCount : Z;
    cpu : Z;
    memory : Z;
    superUser : string;
    edgeDbVersion : string;
    enableUiFeatureFlag : bool }.

Record EdgeDbLoadBalancerProtocolProps : Type :=
  { tcpPassthroughPort : Z }.

Record EdgeDbLoadBalancerUiProps : Type :=
  { hostedPort : Z;
    hostedPrefix : option string;
    hostedCertificate : option ref;
    hostedZone : option ref }.

(** What the orchestrator hands to either base database class. *)
Record BaseDatabaseProps : Type :=
  { bvpc : string;
    bdatabaseName : string;
    bsecret : ref;
    bsecretPath : string;
    databaseAdminUser : string;
    binstanceType : string;
    destroyOnRemove : option bool;
    makePubliclyReachable : option bool;
    overridePostgresVersion : option string;
    overrideAllocatedStorage : option Z;
    enableMonitoring : option Monitoring }.

Inductive construct : Type :=
| Secret (path : string) (props : SecretProps)
| SecurityGroup (path : string) (props : SecurityGroupProps)
    (ingress : list IngressRule)
| DatabaseInstance (path : string) (props : DatabaseInstanceProps)
| ServerlessBaseDatabase (path : string) (props : BaseDatabaseProps)
| StringParameter (path : string) (parameterName stringValue : string)
| CfnOutput (path : string) (value : string)
| EdgeDbServiceConstruct (path : string) (props : EdgeDbServiceProps)
    (superUserSecret : ref)
| EdgeDbLoadBalancerProtocolConstruct (path : string)
    (props : EdgeDbLoadBalancerProtocolProps) (service : ref)
| EdgeDbLoadBalancerUiConstruct (path : string)
    (props : EdgeDbLoadBalancerUiProps) (service : ref)
| HostedZone (path : string) (domainName : string)
| Certificate (path : string) (domainName : string)
    (subjectAlternativeNames : list string) (validation : ref).

(** The getters of the abstract class [BaseDatabase] that the stack reads. *)
Record BaseDatabase : Type :=
  { dsnWithTokens : string;
    dsnNoPassword : string;
    hostname : string;
    port : Z;
    securityGroupId : string }.

(** Values known to the CDK only as tokens, by construct path, and the
    getters of the classes whose sources are not at hand. *)
Record Tokens : Type :=
  { endpointHostname : string -> string;
    endpointPort : string -> Z;
    secretArn : string -> string;
    secretValueFromJson : string -> string -> string;
    groupId : string -> string;
    dnsName : string -> string;
    zoneName : string -> string;
    hostedZoneId : string -> string;
    certificateArn : string -> string;
    serverlessGetters : string -> BaseDatabase }.

Definition store : Type := list construct.

(** State and error monad of a constructor body. *)
Definition M (A : Type) : Type := store -> Js.outcome A * store.

Definition ret {A : Type} (a : A) : M A := fun st => (Js.Return a, st).

Definition bind {A B : Type} (m : M A) (k : A -> M B) : M B :=
  fun st =>
    match m st with
    | (Js.Return a, st') => k a st'
    | (Js.Throw e, st') => (Js.Throw e, st')
    end.

Definition throw {A : Type} (message : string) : M A :=
  fun st => (Js.Throw message, st).

Definition lift {A : Type} (o : Js.outcome A) : M A := fun st => (o, st).

(** [new C(scope, id, props)]: the construct joins the store. *)
Definition new (c : construct) : M ref :=
  fun st => (Js.Return (List.length st), (st ++ [c])%list).

Fixpoint update (i : nat) (f : construct -> construct) (st : store) : store :=
  match st, i with
  | [], _ => []
  | c :: st', O => f c :: st'
  | c :: st', S i' => c :: update i' f st'
  end.

(** [group.addIngressRule(peer, connection)] *)
Definition addIngressRule (group : ref) (peer : Peer) (connection : Port)
  : M unit :=
  fun st =>
    (Js.Return tt,
     update group
       (fun c =>
          match c with
          | SecurityGroup path props ingress =>
              SecurityGroup path props
                (ingress ++ [{| rulePeer := peer; rulePort := connection |}])%list
          | _ => c
          end) st).

Definition child (scope id : string) : string := scope ++ "/" ++ id.

Definition parameterName_of (c : construct) : option string :=
  match c with
  | StringParameter _ name _ => Some name
  | _ => None
  end.

(** The parameter names published by the constructs of a store. *)
Fixpoint parameterNames (st : store) : list string :=
  match st with
  | [] => []
  | c :: st' =>
      match parameterName_of c with
      | Some name => name :: parameterNames st'
      | None => parameterNames st'
      end
  end.

End Cdk.

Declare Scope cdk_scope.
Delimit Scope cdk_scope with cdk.
Notation "x <- m ;; k" := (Cdk.bind m (fun x => k))
  (at level 61, m at next level, right associativity) : cdk_scope.
Notation "m ;;; k" := (Cdk.bind m (fun _ => k))
  (at level 61, right associativity) : cdk_scope.

Local Open Scope cdk_scope.

(** ** [InstanceBaseDatabase]: a simple Postgres instance *)

Module InstanceBaseDatabase.
Import Cdk.

Record t : Type :=
  { _instance : string;
    _securityGroup : ref;
    _securityGroupPath : string;
    _dsnWithTokens : string;
    _dsnNoPassword : string }.

(** [PostgresEngineVersion.VER_14] *)
Definition VER_14 : string := "14".

Section Constructor.
Variable tokens : Tokens.

Definition securityGroupProps (props : BaseDatabaseProps) : SecurityGroupProps :=
  {| sgVpc := bvpc props;
     allowAllOutbound := false;
     allowAllIpv6Outbound := false;
     sgDescription :=
       "Security group for resources that can communicate to the contained RDS instance" |}.

Definition databaseInstanceProps (props : BaseDatabaseProps) (group : ref)
  : DatabaseInstanceProps :=
  {| databaseName := bdatabaseName props;
     removalPolicy :=
       if Js.truthyBool (destroyOnRemove props) then DESTROY else SNAPSHOT;
     engineVersion := Js.nullish (overridePostgresVersion props) VER_14;
     credentials := bsecret props;
     deleteAutomatedBackups := destroyOnRemove props;
     storageEncrypted := true;
     instanceType := binstanceType props;
     allocatedStorage := Js.nullish (overrideAllocatedStorage props) 20;
     maxAllocatedStorage := 100;
     vpc := bvpc props;
     securityGroups := [group];
     vpcSubnets :=
       if Js.truthyBool (makePubliclyReachable props)
       then PUBLIC else PRIVATE_ISOLATED;
     monitoring := enableMonitoring props |}.

(** The one ingress rule, on the port of the instance endpoint. *)
Definition ingressPeer (props : BaseDatabaseProps) (group : ref) : Peer :=
  if Js.truthyBool (makePubliclyReachable props)
  then AnyIpv4 else GroupPeer group.

Definition dsnWithTokensOf (props : BaseDatabaseProps) (instance : string)
  : string :=
  "postgres://"
  ++ secretValueFromJson tokens (bsecretPath props) "username"
  ++ ":"
  ++ secretValueFromJson tokens (bsecretPath props) "password"
  ++ "@" ++ endpointHostname tokens instance
  ++ ":" ++ Js.numberToString (endpointPort tokens instance)
  ++ "/" ++ bdatabaseName props.

Definition dsnNoPasswordOf (props : BaseDatabaseProps) (instance : string)
  : string :=
  "postgres://"
  ++ databaseAdminUser props ++ "@" ++ endpointHostname tokens instance
  ++ ":" ++ Js.numberToString (endpointPort tokens instance)
  ++ "/" ++ bdatabaseName props.

(** The node of the construct itself, [super(scope, id)], holds no resource
    and is not kept in the store; the two children are created in [scope]. *)
Definition constructor (scope id : string) (props : BaseDatabaseProps) : M t :=
  let groupPath := child scope "DatabaseSecurityGroup" in
  let instance := child scope "DatabaseInstance" in
  group <- new (SecurityGroup groupPath (securityGroupProps props) []) ;;
  _ <- new (DatabaseInstance instance (databaseInstanceProps props group)) ;;
  addIngressRule group (ingressPeer props group)
    (Tcp (endpointPort tokens instance)) ;;;
  ret {| _instance := instance;
         _securityGroup := group;
         _securityGroupPath := groupPath;
         _dsnWithTokens := dsnWithTokensOf props instance;
         _dsnNoPassword := dsnNoPasswordOf props instance |}.

(** The getters. *)
Definition getters (db : t) : BaseDatabase :=
  {| dsnWithTokens := _dsnWithTokens db;
     dsnNoPassword := _dsnNoPassword db;
     hostname := endpointHostname tokens (_instance db);
     port := endpointPort tokens (_instance db);
     securityGroupId := groupId tokens (_securityGroupPath db) |}.

End Constructor.
End InstanceBaseDatabase.

(** ** [EdgeDbConstruct]: EdgeDb as a service in front of an RDS postgres *)

Module EdgeDbConstruct.
Import Cdk.

(** [secretsPrefix] is declared a string; the stack hands over its own
    property as it is, so the field takes what that property holds. *)
Record EdgeDbProps : Type :=
  { secretsPrefix : option string;
    rdsDatabaseDisplayName : string;
    rdsDatabaseCdkIdSafeDbName : string;
    evpc : string;
    edgeDbService : EdgeDbServiceProps;
    edgeDbLoadBalancerProtocol : EdgeDbLoadBalancerProtocolProps;
    edgeDbLoadBalancerUi : option EdgeDbLoadBalancerUiProps }.

Record t : Type :=
  { _dsn : string;
    _edgeDbPasswordSecret : string;
    _edgeDbSecurityGroup : string }.

Definition edgeDbPortString (tcpPassthroughPort : Z) : string :=
  if negb (tcpPassthroughPort =? 5656)
  then ":" ++ Js.numberToString tcpPassthroughPort
  else "".

Definition tlsPortString (hostedPort : Z) : string :=
  if negb (hostedPort =? 443)
  then ":" ++ Js.numberToString hostedPort
  else "".

Section Constructor.
Variable tokens : Tokens.

Definition dsnOf (props : EdgeDbProps) (loadBalancer : string) : string :=
  "edgedb://" ++ superUser (edgeDbService props) ++ "@"
  ++ dnsName tokens loadBalancer
  ++ edgeDbPortString (tcpPassthroughPort (edgeDbLoadBalancerProtocol props)).

Definition uiUrlOf (ui : EdgeDbLoadBalancerUiProps) (loadBalancer : string)
  : string :=
  "https://" ++ dnsName tokens loadBalancer
  ++ tlsPortString (hostedPort ui) ++ "/ui".

Definition secretProps (props : EdgeDbProps) : SecretProps :=
  {| secretDescription :=
       "For database " ++ rdsDatabaseDisplayName props
       ++ " - secret containing EdgeDb super user password";
     secretName :=
       Some (Js.render (secretsPrefix props)
             ++ rdsDatabaseCdkIdSafeDbName props ++ "EdgeDb");
     excludePunctuation := true;
     secretStringTemplate := None;
     generateStringKey := None |}.

Definition constructor (scope id : string) (props : EdgeDbProps) : M t :=
  let this := child scope id in
  let secretPath := child this "EdgeDbSecret" in
  let servicePath := child this "EdgeDbService" in
  let protocolPath := child this "EdgeDbLoadBalancerProtocol" in
  let uiPath := child this "EdgeDbLoadBalancerUi" in
  secret <- new (Secret secretPath (secretProps props)) ;;
  service <- new (EdgeDbServiceConstruct servicePath (edgeDbService props) secret) ;;
  _ <- new (EdgeDbLoadBalancerProtocolConstruct protocolPath
              (edgeDbLoadBalancerProtocol props) service) ;;
  let dsn := dsnOf props protocolPath in
  _ <- new (CfnOutput (child this "EdgeDbDsnNoPasswordOrDatabase") dsn) ;;
  match edgeDbLoadBalancerUi props with
  | Some ui =>
      _ <- new (EdgeDbLoadBalancerUiConstruct uiPath ui service) ;;
      _ <- new (CfnOutput (child this "EdgeDbUiUrl") (uiUrlOf ui uiPath)) ;;
      ret tt
  | None => ret tt
  end ;;;
  ret {| _dsn := dsn;
         _edgeDbPasswordSecret := secretPath;
         _edgeDbSecurityGroup := groupId tokens servicePath |}.

Definition dsnForEnvironmentVariable (e : t) : string := _dsn e.
Definition passwordSecret (e : t) : string := _edgeDbPasswordSecret e.
Definition securityGroup (e : t) : string := _edgeDbSecurityGroup e.

End Constructor.
End EdgeDbConstruct.

(** ** Parameter names of the shared package *)

Module Shared.

(** Modelled from the spec: the functions
    [databaseEdgeDbDsnNoPasswordOrDatabaseParameterName],
    [databaseEdgeDbAdminPasswordSecretArnParameterName] and
    [databaseEdgeDbSecurityGroupIdParameterName] are imported from the
    package elsa-data-aws-infrastructure-shared, whose sources are not at
    hand.  The spec gives every key the form
    [/<stackId>/Database/<dbName>/<fieldName>] and speaks of a parallel
    EdgeDB-specific set of fields; the field names here are those that the
    function names carry. *)
Definition databaseEdgeDbParameterName (field : string)
    (infrastructureStackId databaseName : string) : string :=
  "/" ++ infrastructureStackId ++ "/Database/" ++ databaseName ++ "/" ++ field.

Definition databaseEdgeDbDsnNoPasswordOrDatabaseParameterName
  : string -> string -> string :=
  databaseEdgeDbParameterName "edgeDbDsnNoPasswordOrDatabase".

Definition databaseEdgeDbAdminPasswordSecretArnParameterName
  : string -> string -> string :=
  databaseEdgeDbParameterName "edgeDbAdminPasswordSecretArn".

Definition databaseEdgeDbSecurityGroupIdParameterName
  : string -> string -> string :=
  databaseEdgeDbParameterName "edgeDbSecurityGroupId".

End Shared.

(** ** Database properties of the stack

    The declarations of these properties (infrastructure-stack-database-props)
    are not at hand; the records list the fields that the constructor reads,
    and those that the spread [...dbConfig] hands on to
    [InstanceBaseDatabaseProps]. *)

Module EdgeDbPublic.
Record t : Type :=
  { uiPort : option Z;
    urlPrefix : option string }.
End EdgeDbPublic.

Module EdgeDbCommon.
Record t : Type :=
  { version : string;
    cpu : option Z;
    memoryLimitMiB : option Z;
    dbPort : option Z;
    makePubliclyReachable : option EdgeDbPublic.t }.
End EdgeDbCommon.

Module DatabaseConfig.
Record t : Type :=
  { name : string;
    adminUser : string;
    postgresType : string;
    databaseAdminUser : string;
    instanceType : string;
    destroyOnRemove : option bool;
    makePubliclyReachable : option bool;
    overridePostgresVersion : option string;
    overrideAllocatedStorage : option Z;
    enableMonitoring : option Cdk.Monitoring;
    edgeDb : option EdgeDbCommon.t }.
End DatabaseConfig.

(** ** [InfrastructureStack]: the databases of the stack *)

Module InfrastructureStack.
Import Cdk.

(** [[a-zA-Z0-9_.]] *)
Definition isNameChar (c : ascii) : bool :=
  Js.isLower c || Js.isUpper c || Js.isDigit c
  || Ascii.eqb c "_" || Ascii.eqb c ".".

(** [/[a-zA-Z0-9_.]+/] *)
Definition reDatabaseName : Regex.re := Regex.Plus isNameChar.

Definition nameError (name : string) : string :=
  "The database name " ++ name
  ++ " doesn't meet the limited list of allowed characters (the name is used in SSM etc)".

Definition unknownTypeError (postgresType : string) : string :=
  "Unknown postgres database type " ++ postgresType.

Definition uiError : string :=
  "If the UI is going to be switched on for EdgeDb then a certificate and hosted zone also needs to be specified".

(** [camelCase(dbConfig.name)] with its first character made capital. *)
Definition cdkIdSafeDbName (name : string) : Js.outcome string :=
  Js.upperFirstOrThrow (Lodash.camelCase name).

(** [`/${id}/Database/${dbConfig.name}/<field>`] *)
Definition databaseParameterName (id name field : string) : string :=
  "/" ++ id ++ "/Database/" ++ name ++ "/" ++ field.

(** A string is truthy when it is present and not empty. *)
Definition truthyString (o : option string) : bool :=
  match o with
  | Some EmptyString => false
  | Some _ => true
  | None => false
  end.

Section Constructor.
Variable tokens : Tokens.
(** The stack as a scope, its [id], and two of its properties. *)
Variable this : string.
Variable id : string.
Variable secretsPrefix : option string.
Variable vpc : string.

Definition baseDbSecretProps (dbConfig : DatabaseConfig.t) (safe : string)
  : SecretProps :=
  {| secretDescription :=
       "For database " ++ DatabaseConfig.name dbConfig
       ++ " - secret containing RDS details such as admin username and password";
     secretName :=
       if truthyString secretsPrefix
       then Some (Js.render secretsPrefix ++ safe ++ "Rds")
       else None;
     excludePunctuation := true;
     secretStringTemplate :=
       Some [("username", DatabaseConfig.adminUser dbConfig); ("password", "")];
     generateStringKey := Some "password" |}.

(** [{ vpc, databaseName: dbConfig.name, secret: baseDbSecret, ...dbConfig }] *)
Definition baseDatabaseProps (dbConfig : DatabaseConfig.t)
    (secret : ref) (secretPath : string) : BaseDatabaseProps :=
  {| bvpc := vpc;
     bdatabaseName := DatabaseConfig.name dbConfig;
     bsecret := secret;
     bsecretPath := secretPath;
     Cdk.databaseAdminUser := DatabaseConfig.databaseAdminUser dbConfig;
     binstanceType := DatabaseConfig.instanceType dbConfig;
     Cdk.destroyOnRemove := DatabaseConfig.destroyOnRemove dbConfig;
     Cdk.makePubliclyReachable := DatabaseConfig.makePubliclyReachable dbConfig;
     Cdk.overridePostgresVersion := DatabaseConfig.overridePostgresVersion dbConfig;
     Cdk.overrideAllocatedStorage := DatabaseConfig.overrideAllocatedStorage dbConfig;
     Cdk.enableMonitoring := DatabaseConfig.enableMonitoring dbConfig |}.

(** [switch (dbConfig.postgresType)] *)
Definition newBaseDatabase (dbConfig : DatabaseConfig.t) (safe : string)
    (secret : ref) (secretPath : string) : M BaseDatabase :=
  let props := baseDatabaseProps dbConfig secret secretPath in
  if String.eqb (DatabaseConfig.postgresType dbConfig) "postgres-instance" then
    db <- InstanceBaseDatabase.constructor tokens this safe props ;;
    ret (InstanceBaseDatabase.getters tokens db)
  else if String.eqb (DatabaseConfig.postgresType dbConfig) "postgres-serverless-2" then
    _ <- new (ServerlessBaseDatabase (child this safe) props) ;;
    ret (serverlessGetters tokens (child this safe))
  else
    throw (unknownTypeError (DatabaseConfig.postgresType dbConfig)).

Definition parameter (safe suffix parameterName stringValue : string) : M ref :=
  new (StringParameter (child this (safe ++ suffix)) parameterName stringValue).

Definition publishBaseDatabase (dbConfig : DatabaseConfig.t) (safe : string)
    (baseDb : BaseDatabase) (secretPath : string) : M unit :=
  let key := databaseParameterName id (DatabaseConfig.name dbConfig) in
  parameter safe "DatabaseDsnWithPasswordParameter"
    (key "dsnWithPassword") (dsnWithTokens baseDb) ;;;
  parameter safe "DatabaseDsnNoPasswordParameter"
    (key "dsnNoPassword") (dsnNoPassword baseDb) ;;;
  parameter safe "DatabaseHostnameParameter"
    (key "hostname") (hostname baseDb) ;;;
  parameter safe "DatabasePortParameter"
    (key "port") (Js.numberToString (port baseDb)) ;;;
  parameter safe "DatabaseAdminUserParameter"
    (key "adminUser") (DatabaseConfig.adminUser dbConfig) ;;;
  parameter safe "DatabaseAdminPasswordSecretArnParameter"
    (key "adminPasswordSecretArn") (secretArn tokens secretPath) ;;;
  parameter safe "DatabaseSecurityGroupIdParameter"
    (key "securityGroupId") (securityGroupId baseDb) ;;;
  ret tt.

(** The properties handed to [EdgeDbConstruct]. *)
Definition edgeDbProps (dbConfig : DatabaseConfig.t) (e : EdgeDbCommon.t)
    (safe : string) (baseDb : BaseDatabase) (hz cert : option ref)
  : EdgeDbConstruct.EdgeDbProps :=
  {| EdgeDbConstruct.secretsPrefix := secretsPrefix;
     EdgeDbConstruct.rdsDatabaseDisplayName := DatabaseConfig.name dbConfig;
     EdgeDbConstruct.rdsDatabaseCdkIdSafeDbName := safe;
     EdgeDbConstruct.evpc := vpc;
     EdgeDbConstruct.edgeDbService :=
       {| baseDbDsn := dsnWithTokens baseDb;
          baseDbSecurityGroup := securityGroupId baseDb;
          desiredCount := 1;
          Cdk.cpu := Js.nullish (EdgeDbCommon.cpu e) 1024;
          memory := Js.nullish (EdgeDbCommon.memoryLimitMiB e) 2048;
          superUser := "elsa_superuser";
          edgeDbVersion := EdgeDbCommon.version e;
          enableUiFeatureFlag :=
            match EdgeDbCommon.makePubliclyReachable e with
            | Some _ => true
            | None => false
            end |};
     EdgeDbConstruct.edgeDbLoadBalancerProtocol :=
       {| tcpPassthroughPort := Js.orElse (EdgeDbCommon.dbPort e) 5656 |};
     EdgeDbConstruct.edgeDbLoadBalancerUi :=
       match EdgeDbCommon.makePubliclyReachable e with
       | Some p =>
           Some {| hostedPort := Js.nullish (EdgeDbPublic.uiPort p) 443;
                   hostedPrefix := EdgeDbPublic.urlPrefix p;
                   hostedCertificate := cert;
                   hostedZone := hz |}
       | None => None
       end |}.

(** [if (dbConfig.edgeDb) { ... }] *)
Definition provisionEdgeDb (dbConfig : DatabaseConfig.t) (safe : string)
    (baseDb : BaseDatabase) (hz cert : option ref) : M unit :=
  match DatabaseConfig.edgeDb dbConfig with
  | None => ret tt
  | Some e =>
      match EdgeDbCommon.makePubliclyReachable e, cert, hz with
      | Some _, None, _ | Some _, _, None => throw uiError
      | _, _, _ => ret tt
      end ;;;
      edgeDb <- EdgeDbConstruct.constructor tokens this (safe ++ "EdgeDb")
                  (edgeDbProps dbConfig e safe baseDb hz cert) ;;
      let name := DatabaseConfig.name dbConfig in
      parameter safe "DatabaseEdgeDbDsnNoPasswordOrDatabaseParameter"
        (Shared.databaseEdgeDbDsnNoPasswordOrDatabaseParameterName id name)
        (EdgeDbConstruct.dsnForEnvironmentVariable edgeDb) ;;;
      parameter safe "DatabaseEdgeDbAdminPasswordSecretArnParameter"
        (Shared.databaseEdgeDbAdminPasswordSecretArnParameterName id name)
        (secretArn tokens (EdgeDbConstruct.passwordSecret edgeDb)) ;;;
      parameter safe "DatabaseEdgeDbSecurityGroupIdParameter"
        (Shared.databaseEdgeDbSecurityGroupIdParameterName id name)
        (EdgeDbConstruct.securityGroup edgeDb) ;;;
      ret tt
  end.

(** The body of [for (const dbConfig of props.databases)]. *)
Definition provisionDatabase (hz cert : option ref) (dbConfig : DatabaseConfig.t)
  : M unit :=
  if negb (Regex.test reDatabaseName (DatabaseConfig.name dbConfig)) then
    throw (nameError (DatabaseConfig.name dbConfig))
  else
    safe <- lift (cdkIdSafeDbName (DatabaseConfig.name dbConfig)) ;;
    let secretPath := child this (safe ++ "Secret") in
    baseDbSecret <- new (Secret secretPath (baseDbSecretProps dbConfig safe)) ;;
    baseDb <- newBaseDatabase dbConfig safe baseDbSecret secretPath ;;
    publishBaseDatabase dbConfig safe baseDb secretPath ;;;
    provisionEdgeDb dbConfig safe baseDb hz cert.

Fixpoint forEach (hz cert : option ref) (databases : list DatabaseConfig.t)
  : M unit :=
  match databases with
  | [] => ret tt
  | dbConfig :: rest =>
      provisionDatabase hz cert dbConfig ;;; forEach hz cert rest
  end.

(** [if (props.databases) { for ... }] *)
Definition provisionDatabases (hz cert : option ref)
    (databases : option (list DatabaseConfig.t)) : M unit :=
  match databases with
  | Some l => forEach hz cert l
  | None => ret tt
  end.

(** [if (props.dns) { ... }]: the hosted zone and the certificate. *)
Definition lookupDns (dns : option string) : M (option ref * option ref) :=
  match dns with
  | Some hostedZoneName =>
      let hzPath := child this "HostedZone" in
      let certPath := child this "WildcardCertificate" in
      hz <- new (HostedZone hzPath hostedZoneName) ;;
      cert <- new (Certificate certPath ("*." ++ hostedZoneName)
                     [hostedZoneName] hz) ;;
      new (StringParameter (child this "ZoneNameParameter")
             ("/" ++ id ++ "/HostedZone/zoneName")
             (zoneName tokens hzPath)) ;;;
      new (StringParameter (child this "HostedZoneIdParameter")
             ("/" ++ id ++ "/HostedZone/hostedZoneId")
             (hostedZoneId tokens hzPath)) ;;;
      new (StringParameter (child this "CertificateArnParameter")
             ("/" ++ id ++ "/Certificate/certificateArn")
             (certificateArn tokens certPath)) ;;;
      ret (Some hz, Some cert)
  | None => ret (None, None)
  end.

(** The constructor from the hosted zone on. *)
Definition constructor (dns : option string)
    (databases : option (list DatabaseConfig.t)) : M unit :=
  zc <- lookupDns dns ;;
  provisionDatabases (fst zc) (snd zc) databases.

End Constructor.
End InfrastructureStack.

(** ** Sample inputs *)

Module Samples.
Import Cdk.

Definition tokens : Tokens :=
  {| endpointHostname := fun path => "<" ++ path ++ ".hostname>";
     endpointPort := fun _ => 5432;
     secretArn := fun path => "<" ++ path ++ ".secretArn>";
     secretValueFromJson := fun path key => "<" ++ path ++ "." ++ key ++ ">";
     groupId := fun path => "<" ++ path ++ ".securityGroupId>";
     dnsName := fun path => "<" ++ path ++ ".dnsName>";
     zoneName := fun path => "<" ++ path ++ ".zoneName>";
     hostedZoneId := fun path => "<" ++ path ++ ".hostedZoneId>";
     certificateArn := fun path => "<" ++ path ++ ".certificateArn>";
     serverlessGetters := fun path =>
       {| dsnWithTokens := "<" ++ path ++ ".dsnWithTokens>";
          dsnNoPassword := "<" ++ path ++ ".dsnNoPassword>";
          hostname := "<" ++ path ++ ".hostname>";
          port := 5432;
          securityGroupId := "<" ++ path ++ ".securityGroupId>" |} |}.

Definition database (name postgresType : string) (edgeDb : option EdgeDbCommon.t)
  : DatabaseConfig.t :=
  {| DatabaseConfig.name := name;
     DatabaseConfig.adminUser := "admin";
     DatabaseConfig.postgresType := postgresType;
     DatabaseConfig.databaseAdminUser := "admin";
     DatabaseConfig.instanceType := "t4g.small";
     DatabaseConfig.destroyOnRemove := None;
     DatabaseConfig.makePubliclyReachable := None;
     DatabaseConfig.overridePostgresVersion := None;
     DatabaseConfig.overrideAllocatedStorage := None;
     DatabaseConfig.enableMonitoring := None;
     DatabaseConfig.edgeDb := edgeDb |}.

Definition edge (dbPort : option Z) (public : option EdgeDbPublic.t)
  : EdgeDbCommon.t :=
  {| EdgeDbCommon.version := "3.0";
     EdgeDbCommon.cpu := None;
     EdgeDbCommon.memoryLimitMiB := None;
     EdgeDbCommon.dbPort := dbPort;
     EdgeDbCommon.makePubliclyReachable := public |}.

Definition ui (uiPort : option Z) : EdgeDbPublic.t :=
  {| EdgeDbPublic.uiPort := uiPort; EdgeDbPublic.urlPrefix := None |}.

(** [{name: "analytics", postgresType: "postgres-instance", adminUser: "admin"}] *)
Definition analytics : DatabaseConfig.t :=
  database "analytics" "postgres-instance" None.

Definition reporting : DatabaseConfig.t :=
  database "reporting" "postgres-serverless-2"
    (Some (edge (Some 5656) None)).

Definition withUi : DatabaseConfig.t :=
  database "analytics" "postgres-instance"
    (Some (edge (Some 9999) (Some (ui (Some 8443))))).

Definition instanceProps (destroy public : option bool) (storage : option Z)
  : BaseDatabaseProps :=
  {| bvpc := "VPC";
     bdatabaseName := "analytics";
     bsecret := 0%nat;
     bsecretPath := "Stack/AnalyticsSecret";
     databaseAdminUser := "admin";
     binstanceType := "t4g.small";
     destroyOnRemove := destroy;
     makePubliclyReachable := public;
     overridePostgresVersion := None;
     overrideAllocatedStorage := storage;
     enableMonitoring := None |}.

End Samples.

(** ** Strings *)

Fixpoint anyChar (p : ascii -> bool) (s : string) : bool :=
  match s with
  | EmptyString => false
  | String c s' => p c || anyChar p s'
  end.

Fixpoint allChars (p : ascii -> bool) (s : string) : bool :=
  match s with
  | EmptyString => true
  | String c s' => p c && allChars p s'
  end.

(** The whole of a name is in [[a-zA-Z0-9_.]+]. *)
Definition nameInCharset (name : string) : bool :=
  allChars InfrastructureStack.isNameChar name
  && negb (String.eqb name "").

(** A continuation that never fails. *)
Definition total (k : Regex.cont) : Prop := forall prev s, k prev s <> None.

(** The configuration with another [edgeDb] property. *)
Definition setEdgeDb (dbConfig : DatabaseConfig.t) (edgeDb : option EdgeDbCommon.t)
  : DatabaseConfig.t :=
  {| DatabaseConfig.name := DatabaseConfig.name dbConfig;
     DatabaseConfig.adminUser := DatabaseConfig.adminUser dbConfig;
     DatabaseConfig.postgresType := DatabaseConfig.postgresType dbConfig;
     DatabaseConfig.databaseAdminUser := DatabaseConfig.databaseAdminUser dbConfig;
     DatabaseConfig.instanceType := DatabaseConfig.instanceType dbConfig;
     DatabaseConfig.destroyOnRemove := DatabaseConfig.destroyOnRemove dbConfig;
     DatabaseConfig.makePubliclyReachable :=
       DatabaseConfig.makePubliclyReachable dbConfig;
     DatabaseConfig.overridePostgresVersion :=
       DatabaseConfig.overridePostgresVersion dbConfig;
     DatabaseConfig.overrideAllocatedStorage :=
       DatabaseConfig.overrideAllocatedStorage dbConfig;
     DatabaseConfig.enableMonitoring := DatabaseConfig.enableMonitoring dbConfig;
     DatabaseConfig.edgeDb := edgeDb |}.

(** The fields under which the constructor publishes a base database, in the
    order of publication, and those of its EdgeDb layer. *)
Definition baseFields : list string :=
  ["dsnWithPassword"; "dsnNoPassword"; "hostname"; "port"; "adminUser";
   "adminPasswordSecretArn"; "securityGroupId"].

Definition edgeDbFields : list string :=
  ["edgeDbDsnNoPasswordOrDatabase"; "edgeDbAdminPasswordSecretArn";
   "edgeDbSecurityGroupId"].

Definition fieldsOf (dbConfig : DatabaseConfig.t) : list string :=
  (baseFields
   ++ match DatabaseConfig.edgeDb dbConfig with
      | Some _ => edgeDbFields
      | None => []
      end)%list.

Definition keysOf (id : string) (dbConfig : DatabaseConfig.t) : list string :=
  map (InfrastructureStack.databaseParameterName id (DatabaseConfig.name dbConfig))
    (fieldsOf dbConfig).

(** The six fields that the spec lists for a base database. *)
Definition specFields : list string :=
  ["dsnNoPassword"; "hostname"; "port"; "adminUser"; "adminPasswordSecretArn";
   "securityGroupId"].

Definition isSlash (c : ascii) : bool := Ascii.eqb c "/".

(** The tag of a base database class. *)
Definition knownPostgresType (postgresType : string) : bool :=
  String.eqb postgresType "postgres-instance"
  || String.eqb postgresType "postgres-serverless-2".

(** A regular expression that may match without taking a code unit. *)
Fixpoint nullable (r : Regex.re) : bool :=
  match r with
  | Regex.Cls _ => false
  | Regex.Lit l => String.eqb l ""
  | Regex.Seq a b => nullable a && nullable b
  | Regex.Alt a b => nullable a || nullable b
  | _ => true
  end.

(** The first code unit of a string that is in a class. *)
Fixpoint firstChar (p : ascii -> bool) (s : string) : option ascii :=
  match s with
  | EmptyString => None
  | String c s' => if p c then Some c else firstChar p s'
  end.

(** A regular expression that finds a word wherever a letter or a digit
    stands, and none where a break character stands. *)
Definition findsWords (r : Regex.re) : Prop :=
  nullable r = false
  /\ (forall prev c t,
        Lodash.isBreak c = true -> Regex.matchAt r prev (String c t) = None)
  /\ (forall prev c t,
        Js.isAlnum c = true -> Regex.matchAt r prev (String c t) <> None).

(** ** The checks of the loop body, in the order in which they are made *)

(** [if (dbConfig.edgeDb.makePubliclyReachable) if (!cert || !hz)] *)
Definition publicUiUnavailable (hz cert : option Cdk.ref)
    (edgeDb : option EdgeDbCommon.t) : bool :=
  match edgeDb with
  | Some e =>
      match EdgeDbCommon.makePubliclyReachable e, cert, hz with
      | Some _, Some _, Some _ => false
      | Some _, _, _ => true
      | None, _, _ => false
      end
  | None => false
  end.

(** The message of the first [throw] that the body of the loop reaches for a
    database, if it reaches one. *)
Definition firstFailure (hz cert : option Cdk.ref) (dbConfig : DatabaseConfig.t)
  : option string :=
  let name := DatabaseConfig.name dbConfig in
  if negb (anyChar InfrastructureStack.isNameChar name) then
    Some (InfrastructureStack.nameError name)
  else
    match InfrastructureStack.cdkIdSafeDbName name with
    | Js.Throw message => Some message
    | Js.Return _ =>
        if negb (knownPostgresType (DatabaseConfig.postgresType dbConfig)) then
          Some (InfrastructureStack.unknownTypeError
                  (DatabaseConfig.postgresType dbConfig))
        else if publicUiUnavailable hz cert (DatabaseConfig.edgeDb dbConfig) then
          Some InfrastructureStack.uiError
        else None
    end.

Fixpoint firstFailureIn (hz cert : option Cdk.ref)
    (databases : list DatabaseConfig.t) : option string :=
  match databases with
  | [] => None
  | dbConfig :: rest =>
      match firstFailure hz cert dbConfig with
      | Some message => Some message
      | None => firstFailureIn hz cert rest
      end
  end.

Definition outcomeOf (failure : option string) : Js.outcome unit :=
  match failure with
  | Some message => Js.Throw message
  | None => Js.Return tt
  end.

(** ** Views of a store *)

Definition pathOf (c : Cdk.construct) : string :=
  match c with
  | Cdk.Secret path _
  | Cdk.SecurityGroup path _ _
  | Cdk.DatabaseInstance path _
  | Cdk.ServerlessBaseDatabase path _
  | Cdk.StringParameter path _ _
  | Cdk.CfnOutput path _
  | Cdk.EdgeDbServiceConstruct path _ _
  | Cdk.EdgeDbLoadBalancerProtocolConstruct path _ _
  | Cdk.EdgeDbLoadBalancerUiConstruct path _ _
  | Cdk.HostedZone path _
  | Cdk.Certificate path _ _ _ => path
  end.

(** The outputs of a store, as pairs of path and value. *)
Fixpoint outputsOf (st : Cdk.store) : list (string * string) :=
  match st with
  | [] => []
  | Cdk.CfnOutput path value :: st' => (path, value) :: outputsOf st'
  | _ :: st' => outputsOf st'
  end.

(** The UI load balancers of a store. *)
Fixpoint uiLoadBalancersOf (st : Cdk.store) : list Cdk.EdgeDbLoadBalancerUiProps :=
  match st with
  | [] => []
  | Cdk.EdgeDbLoadBalancerUiConstruct _ props _ :: st' =>
      props :: uiLoadBalancersOf st'
  | _ :: st' => uiLoadBalancersOf st'
  end.

(** ** Paths in the construct tree

    A scope holds one child of each id: [new C(scope, id)] is refused by the
    construct tree when a construct of that path is already there.  The runs
    of the model do not make this check; these two views state it on a
    store. *)

(** A construct of that path is in the store. *)
Definition pathTaken (st : Cdk.store) (path : string) : bool :=
  existsb (fun c => String.eqb (pathOf c) path) st.

(** The constructs that a constructor body asks for on a store, in order. *)
Definition requested {A : Type} (body : Cdk.M A) (st : Cdk.store)
  : list Cdk.construct :=
  skipn (List.length st) (snd (body st)).

(** * Properties *)

Lemma append_assoc (a b c : string) : (a ++ b) ++ c = a ++ (b ++ c).
Proof.
  induction a as [|x a IH]; simpl; [reflexivity|].
  now rewrite IH.
Qed.

Lemma append_inv_head (a b c : string) : a ++ b = a ++ c -> b = c.
Proof.
  induction a as [|x a IH]; simpl; intros H; [assumption|].
  injection H as H. auto.
Qed.

Lemma append_nil_r (a : string) : a ++ "" = a.
Proof.
  induction a as [|x a IH]; simpl; [reflexivity|].
  now rewrite IH.
Qed.

(** ** The regular expression engine on a single class *)

Section RegexFacts.
Import Regex.

Lemma star_total (p : ascii -> bool) (k : cont) :
  total k -> total (fun prev s => star p prev s k).
Proof.
  intros Hk prev s. revert prev.
  induction s as [|c s IH]; intros prev; simpl.
  - apply Hk.
  - destruct (p c); [|apply Hk].
    destruct (star p (Some c) s k) eqn:E; [discriminate|].
    now apply IH in E.
Qed.

Lemma matchAt_Plus (p : ascii -> bool) (prev : option ascii) (s : string) :
  matchAt (Plus p) prev s = None <-> Regex.head s = None \/ exists c t, s = String c t /\ p c = false.
Proof.
  unfold matchAt, Plus. simpl. destruct s as [|c t]; simpl.
  - split; auto.
  - destruct (p c) eqn:E.
    + split.
      * intros H. exfalso. revert H.
        apply (star_total p (fun _ s' => Some s')). intros ? ?; discriminate.
      * intros [H | (c' & t' & H & Hp)]; [discriminate|].
        injection H as -> ->. congruence.
    + split; auto. intros _. right. eauto.
Qed.

(** An unanchored [class+] finds a match as soon as one code unit of the
    input is in the class. *)
Lemma test_Plus (p : ascii -> bool) (s : string) :
  test (Plus p) s = anyChar p s.
Proof.
  unfold test. generalize (@None ascii) as prev.
  induction s as [|c s IH]; intros prev.
  - reflexivity.
  - cbn [testFrom anyChar].
    destruct (matchAt (Plus p) prev (String c s)) eqn:E.
    + destruct (p c) eqn:Hp; [reflexivity|].
      assert (H : matchAt (Plus p) prev (String c s) = None).
      { apply matchAt_Plus. right. eauto. }
      congruence.
    + apply matchAt_Plus in E. destruct E as [E | (c' & t' & E & Hp)].
      * discriminate.
      * injection E as <- <-. rewrite Hp. simpl. apply IH.
Qed.

End RegexFacts.

(** ** lodash, on the examples of its documentation *)

Example camelCase_Foo_Bar : Lodash.camelCase "Foo Bar" = "fooBar".
Proof. reflexivity. Qed.

Example camelCase_foo_bar : Lodash.camelCase "--foo-bar--" = "fooBar".
Proof. reflexivity. Qed.

Example camelCase_FOO_BAR : Lodash.camelCase "__FOO_BAR__" = "fooBar".
Proof. reflexivity. Qed.

Example words_of_a_name :
  Lodash.words "elsa_data.v2" = ["elsa"; "data"; "v"; "2"]
  /\ Lodash.camelCase "elsa_data.v2" = "elsaDataV2".
Proof. split; reflexivity. Qed.

(** ** The name check *)

Lemma name_check_unanchored (name : string) :
  Regex.test InfrastructureStack.reDatabaseName name
  = anyChar InfrastructureStack.isNameChar name.
Proof. apply test_Plus. Qed.

Lemma allChars_anyChar (p : ascii -> bool) (s : string) :
  allChars p s = true -> s <> "" -> anyChar p s = true.
Proof.
  destruct s as [|c s]; simpl; [congruence|].
  intros H _. apply andb_true_iff in H. destruct H as [-> _]. reflexivity.
Qed.

Lemma nameInCharset_passes (name : string) :
  nameInCharset name = true ->
  Regex.test InfrastructureStack.reDatabaseName name = true.
Proof.
  unfold nameInCharset. intros H. apply andb_true_iff in H. destruct H as [Ha Hn].
  rewrite name_check_unanchored. apply allChars_anyChar; [assumption|].
  intros ->. discriminate.
Qed.

(** A name without any character of the class is refused before anything is
    created for its configuration. *)
Lemma provisionDatabase_refuses tokens this id secretsPrefix vpc hz cert dbConfig st :
  anyChar InfrastructureStack.isNameChar (DatabaseConfig.name dbConfig) = false ->
  InfrastructureStack.provisionDatabase tokens this id secretsPrefix vpc hz cert dbConfig st
  = (Js.Throw (InfrastructureStack.nameError (DatabaseConfig.name dbConfig)), st).
Proof.
  intros H. unfold InfrastructureStack.provisionDatabase.
  rewrite name_check_unanchored, H. reflexivity.
Qed.

(** C1 (code evaluated at the failing input): the name [my-db] holds a
    character outside [[a-zA-Z0-9_.]], yet the unanchored test accepts it and
    the constructor goes on to create the secret of that database. *)
Theorem C1_name_check_accepts_foreign_character :
  nameInCharset "my-db" = false /\
  Regex.test InfrastructureStack.reDatabaseName "my-db" = true /\
  exists props more,
    InfrastructureStack.provisionDatabase Samples.tokens "Stack" "stk"
      (Some "Elsa") "VPC" None None
      (Samples.database "my-db" "postgres-instance" None) []
    = (Js.Return tt, Cdk.Secret "Stack/MyDbSecret" props :: more).
Proof.
  split; [reflexivity|]. split; [reflexivity|].
  eexists. eexists. vm_compute. reflexivity.
Qed.

(** ** The constructors, run *)

Lemma update_at_length (f : Cdk.construct -> Cdk.construct)
    (st : Cdk.store) (c : Cdk.construct) (rest : Cdk.store) :
  Cdk.update (List.length st) f (st ++ c :: rest)%list = (st ++ f c :: rest)%list.
Proof.
  induction st as [|x st IH]; simpl; [reflexivity|].
  now rewrite IH.
Qed.

Lemma nth_error_at_length (st : Cdk.store) (c : Cdk.construct) (rest : Cdk.store) :
  nth_error (st ++ c :: rest)%list (List.length st) = Some c.
Proof.
  induction st as [|x st IH]; simpl; [reflexivity|assumption].
Qed.

Lemma instance_constructor_run tokens scope id props st :
  InstanceBaseDatabase.constructor tokens scope id props st
  = (Js.Return
       {| InstanceBaseDatabase._instance := Cdk.child scope "DatabaseInstance";
          InstanceBaseDatabase._securityGroup := List.length st;
          InstanceBaseDatabase._securityGroupPath :=
            Cdk.child scope "DatabaseSecurityGroup";
          InstanceBaseDatabase._dsnWithTokens :=
            InstanceBaseDatabase.dsnWithTokensOf tokens props
              (Cdk.child scope "DatabaseInstance");
          InstanceBaseDatabase._dsnNoPassword :=
            InstanceBaseDatabase.dsnNoPasswordOf tokens props
              (Cdk.child scope "DatabaseInstance") |},
     (st ++
      [Cdk.SecurityGroup (Cdk.child scope "DatabaseSecurityGroup")
         (InstanceBaseDatabase.securityGroupProps props)
         [{| Cdk.rulePeer := InstanceBaseDatabase.ingressPeer props (List.length st);
             Cdk.rulePort :=
               Cdk.Tcp (Cdk.endpointPort tokens (Cdk.child scope "DatabaseInstance")) |}];
       Cdk.DatabaseInstance (Cdk.child scope "DatabaseInstance")
         (InstanceBaseDatabase.databaseInstanceProps props (List.length st))])%list).
Proof.
  unfold InstanceBaseDatabase.constructor, Cdk.bind, Cdk.new, Cdk.addIngressRule, Cdk.ret.
  cbv zeta. f_equal.
  rewrite <- app_assoc. simpl app. rewrite update_at_length. reflexivity.
Qed.

(** C6: the group of a base database has no outbound allowance and exactly
    one ingress rule, on the port of the database; its source is any IPv4
    address when [makePubliclyReachable] is true and the group itself when it
    is false or absent. *)
Theorem C6_database_security_group tokens scope id props st :
  exists db st' path sg rule,
    InstanceBaseDatabase.constructor tokens scope id props st = (Js.Return db, st')
    /\ nth_error st' (InstanceBaseDatabase._securityGroup db)
       = Some (Cdk.SecurityGroup path sg [rule])
    /\ Cdk.allowAllOutbound sg = false
    /\ Cdk.allowAllIpv6Outbound sg = false
    /\ Cdk.rulePort rule
       = Cdk.Tcp (Cdk.port (InstanceBaseDatabase.getters tokens db))
    /\ (Cdk.makePubliclyReachable props = Some true ->
        Cdk.rulePeer rule = Cdk.AnyIpv4)
    /\ (Cdk.makePubliclyReachable props <> Some true ->
        Cdk.rulePeer rule = Cdk.GroupPeer (InstanceBaseDatabase._securityGroup db)).
Proof.
  rewrite instance_constructor_run.
  do 5 eexists. split; [reflexivity|]. split.
  { cbn [InstanceBaseDatabase._securityGroup]. apply nth_error_at_length. }
  cbn. unfold InstanceBaseDatabase.ingressPeer.
  repeat split.
  - intros ->. reflexivity.
  - intros H. destruct (Cdk.makePubliclyReachable props) as [[|]|]; simpl;
      congruence.
Qed.

(** C9: the instance gets [overrideAllocatedStorage] when given and 20 GiB
    otherwise, at most 100 GiB; it is destroyed with its automated backups
    when [destroyOnRemove] is true, and kept as a snapshot otherwise. *)
Theorem C9_instance_storage_and_removal tokens scope id props st :
  exists db st' p,
    InstanceBaseDatabase.constructor tokens scope id props st = (Js.Return db, st')
    /\ nth_error st' (S (List.length st))
       = Some (Cdk.DatabaseInstance (InstanceBaseDatabase._instance db) p)
    /\ Cdk.allocatedStorage p
       = match Cdk.overrideAllocatedStorage props with
         | Some size => size
         | None => 20
         end
    /\ Cdk.maxAllocatedStorage p = 100
    /\ (Cdk.destroyOnRemove props = Some true ->
        Cdk.removalPolicy p = Cdk.DESTROY
        /\ Cdk.deleteAutomatedBackups p = Some true)
    /\ (Cdk.destroyOnRemove props <> Some true ->
        Cdk.removalPolicy p = Cdk.SNAPSHOT
        /\ Cdk.deleteAutomatedBackups p <> Some true).
Proof.
  rewrite instance_constructor_run.
  do 3 eexists. split; [reflexivity|]. split.
  { cbn [InstanceBaseDatabase._instance].
    change (S (List.length st)) with (1 + List.length st)%nat.
    rewrite nth_error_app2 by lia.
    replace (1 + List.length st - List.length st)%nat with 1%nat by lia.
    reflexivity. }
  cbn. split; [destruct (Cdk.overrideAllocatedStorage props); reflexivity|].
  split; [reflexivity|]. split.
  - intros ->. split; reflexivity.
  - intros H. split; [|assumption].
    destruct (Cdk.destroyOnRemove props) as [[|]|]; simpl; congruence.
Qed.

(** ** The body of the loop, run *)

Lemma parameterNames_app (a b : Cdk.store) :
  Cdk.parameterNames (a ++ b)%list
  = (Cdk.parameterNames a ++ Cdk.parameterNames b)%list.
Proof.
  induction a as [|c a IH]; simpl; [reflexivity|].
  destruct (Cdk.parameterName_of c); simpl; now rewrite IH.
Qed.

Section Run.
Variable tokens : Cdk.Tokens.
Variables this id : string.
Variable secretsPrefix : option string.
Variable vpc : string.

Lemma publishBaseDatabase_run dbConfig safe baseDb secretPath st :
  exists published,
    InfrastructureStack.publishBaseDatabase tokens this id dbConfig safe baseDb
      secretPath st
    = (Js.Return tt, (st ++ published)%list)
    /\ Cdk.parameterNames published
       = map (InfrastructureStack.databaseParameterName id (DatabaseConfig.name dbConfig))
           baseFields.
Proof.
  unfold InfrastructureStack.publishBaseDatabase,
    InfrastructureStack.parameter, Cdk.bind, Cdk.new, Cdk.ret.
  cbv zeta. repeat rewrite <- app_assoc. simpl app.
  eexists. split; reflexivity.
Qed.

Lemma newBaseDatabase_run dbConfig safe secret secretPath st :
  knownPostgresType (DatabaseConfig.postgresType dbConfig) = true ->
  exists baseDb created,
    InfrastructureStack.newBaseDatabase tokens this vpc dbConfig safe secret
      secretPath st
    = (Js.Return baseDb, (st ++ created)%list)
    /\ Cdk.parameterNames created = [].
Proof.
  unfold knownPostgresType, InfrastructureStack.newBaseDatabase.
  cbv zeta. intros H.
  destruct (String.eqb (DatabaseConfig.postgresType dbConfig) "postgres-instance").
  - unfold Cdk.bind. rewrite instance_constructor_run. unfold Cdk.ret.
    eexists. eexists. split; reflexivity.
  - simpl in H. rewrite H. unfold Cdk.bind, Cdk.new, Cdk.ret.
    eexists. eexists. split; reflexivity.
Qed.

Lemma newBaseDatabase_unknown dbConfig safe secret secretPath st :
  knownPostgresType (DatabaseConfig.postgresType dbConfig) = false ->
  InfrastructureStack.newBaseDatabase tokens this vpc dbConfig safe secret
    secretPath st
  = (Js.Throw (InfrastructureStack.unknownTypeError (DatabaseConfig.postgresType dbConfig)),
     st).
Proof.
  unfold knownPostgresType, InfrastructureStack.newBaseDatabase.
  cbv zeta. intros H. apply orb_false_iff in H. destruct H as [-> ->].
  reflexivity.
Qed.

Lemma edgeDb_constructor_run scope name props st :
  exists edgeDb created,
    EdgeDbConstruct.constructor tokens scope name props st
    = (Js.Return edgeDb, (st ++ created)%list)
    /\ Cdk.parameterNames created = []
    /\ EdgeDbConstruct._dsn edgeDb
       = EdgeDbConstruct.dsnOf tokens props
           (Cdk.child (Cdk.child scope name) "EdgeDbLoadBalancerProtocol")
    /\ forall ui,
         EdgeDbConstruct.edgeDbLoadBalancerUi props = Some ui ->
         In (Cdk.CfnOutput (Cdk.child (Cdk.child scope name) "EdgeDbUiUrl")
               (EdgeDbConstruct.uiUrlOf tokens ui
                  (Cdk.child (Cdk.child scope name) "EdgeDbLoadBalancerUi")))
            created.
Proof.
  unfold EdgeDbConstruct.constructor, Cdk.bind, Cdk.new, Cdk.ret. cbv zeta.
  destruct (EdgeDbConstruct.edgeDbLoadBalancerUi props) as [ui|];
    repeat rewrite <- app_assoc; simpl app;
    eexists; eexists; (split; [reflexivity|]); (split; [reflexivity|]);
    (split; [reflexivity|]); intros ui' H; [|discriminate].
  injection H as <-. simpl. auto 10.
Qed.

End Run.

Section Loop.
Variable tokens : Cdk.Tokens.
Variables this id : string.
Variable secretsPrefix : option string.
Variable vpc : string.
Variables hz cert : option Cdk.ref.

Lemma newBaseDatabase_setEdgeDb dbConfig edgeDb :
  InfrastructureStack.newBaseDatabase tokens this vpc (setEdgeDb dbConfig edgeDb)
  = InfrastructureStack.newBaseDatabase tokens this vpc dbConfig.
Proof. reflexivity. Qed.

Lemma publishBaseDatabase_setEdgeDb dbConfig edgeDb :
  InfrastructureStack.publishBaseDatabase tokens this id (setEdgeDb dbConfig edgeDb)
  = InfrastructureStack.publishBaseDatabase tokens this id dbConfig.
Proof. reflexivity. Qed.

(** With a name that passes the check, a derived identifier and a known
    class, the body reaches the EdgeDb block after it has created the secret,
    the base database and the seven parameters. *)
Lemma provisionDatabase_base dbConfig safe st :
  Regex.test InfrastructureStack.reDatabaseName (DatabaseConfig.name dbConfig) = true ->
  InfrastructureStack.cdkIdSafeDbName (DatabaseConfig.name dbConfig) = Js.Return safe ->
  knownPostgresType (DatabaseConfig.postgresType dbConfig) = true ->
  exists baseDb created,
    Cdk.parameterNames created
    = map (InfrastructureStack.databaseParameterName id (DatabaseConfig.name dbConfig))
        baseFields
    /\ forall edgeDb,
         InfrastructureStack.provisionDatabase tokens this id secretsPrefix vpc hz cert
           (setEdgeDb dbConfig edgeDb) st
         = InfrastructureStack.provisionEdgeDb tokens this id secretsPrefix vpc
             (setEdgeDb dbConfig edgeDb) safe baseDb hz cert (st ++ created)%list.
Proof.
  intros Htest Hsafe Hknown.
  destruct (newBaseDatabase_run tokens this vpc dbConfig safe (List.length st)
              (Cdk.child this (safe ++ "Secret"))
              (st ++ [Cdk.Secret (Cdk.child this (safe ++ "Secret"))
                        (InfrastructureStack.baseDbSecretProps secretsPrefix dbConfig safe)])%list
              Hknown)
    as (baseDb & dbs & Hnew & Hdbs).
  destruct (publishBaseDatabase_run tokens this id dbConfig safe baseDb
              (Cdk.child this (safe ++ "Secret"))
              ((st ++ [Cdk.Secret (Cdk.child this (safe ++ "Secret"))
                         (InfrastructureStack.baseDbSecretProps secretsPrefix dbConfig safe)])
               ++ dbs)%list)
    as (published & Hpub & Hkeys).
  exists baseDb.
  exists ([Cdk.Secret (Cdk.child this (safe ++ "Secret"))
             (InfrastructureStack.baseDbSecretProps secretsPrefix dbConfig safe)]
          ++ dbs ++ published)%list.
  split.
  - rewrite !parameterNames_app, Hdbs, Hkeys. reflexivity.
  - intros edgeDb.
    unfold InfrastructureStack.provisionDatabase.
    change (DatabaseConfig.name (setEdgeDb dbConfig edgeDb))
      with (DatabaseConfig.name dbConfig).
    rewrite Htest, Hsafe. cbn [negb].
    rewrite newBaseDatabase_setEdgeDb, publishBaseDatabase_setEdgeDb.
    unfold Cdk.bind at 1. unfold Cdk.lift.
    unfold Cdk.bind at 1. unfold Cdk.new at 1.
    unfold Cdk.bind at 1.
    change (InfrastructureStack.baseDbSecretProps secretsPrefix
              (setEdgeDb dbConfig edgeDb) safe)
      with (InfrastructureStack.baseDbSecretProps secretsPrefix dbConfig safe).
    rewrite Hnew.
    unfold Cdk.bind at 1. rewrite Hpub.
    rewrite !app_assoc. reflexivity.
Qed.

Lemma provisionEdgeDb_none dbConfig safe baseDb st :
  DatabaseConfig.edgeDb dbConfig = None ->
  InfrastructureStack.provisionEdgeDb tokens this id secretsPrefix vpc dbConfig safe
    baseDb hz cert st = (Js.Return tt, st).
Proof.
  intros H. unfold InfrastructureStack.provisionEdgeDb.
  rewrite H. reflexivity.
Qed.

Lemma provisionEdgeDb_throws dbConfig e p safe baseDb st :
  DatabaseConfig.edgeDb dbConfig = Some e ->
  EdgeDbCommon.makePubliclyReachable e = Some p ->
  cert = None \/ hz = None ->
  InfrastructureStack.provisionEdgeDb tokens this id secretsPrefix vpc dbConfig safe
    baseDb hz cert st
  = (Js.Throw InfrastructureStack.uiError, st).
Proof.
  intros He Hp H. unfold InfrastructureStack.provisionEdgeDb.
  rewrite He, Hp. destruct cert, hz; destruct H; try discriminate; reflexivity.
Qed.

Lemma provisionEdgeDb_run dbConfig e safe baseDb st :
  DatabaseConfig.edgeDb dbConfig = Some e ->
  EdgeDbCommon.makePubliclyReachable e = None \/ (cert <> None /\ hz <> None) ->
  exists created,
    InfrastructureStack.provisionEdgeDb tokens this id secretsPrefix vpc dbConfig safe
    baseDb hz cert st
    = (Js.Return tt, (st ++ created)%list)
    /\ Cdk.parameterNames created
       = map (InfrastructureStack.databaseParameterName id (DatabaseConfig.name dbConfig))
           edgeDbFields
    /\ forall ui,
         EdgeDbConstruct.edgeDbLoadBalancerUi
           (InfrastructureStack.edgeDbProps secretsPrefix vpc dbConfig e safe baseDb hz cert)
         = Some ui ->
         In (Cdk.CfnOutput
               (Cdk.child (Cdk.child this (safe ++ "EdgeDb")) "EdgeDbUiUrl")
               (EdgeDbConstruct.uiUrlOf tokens ui
                  (Cdk.child (Cdk.child this (safe ++ "EdgeDb")) "EdgeDbLoadBalancerUi")))
            created.
Proof.
  intros He H. unfold InfrastructureStack.provisionEdgeDb.
  rewrite He.
  destruct (edgeDb_constructor_run tokens this (safe ++ "EdgeDb")
              (InfrastructureStack.edgeDbProps secretsPrefix vpc dbConfig e safe baseDb hz cert)
              st)
    as (edgeDb & created & Hrun & Hnames & _ & Hui).
  assert (Hcheck :
    match EdgeDbCommon.makePubliclyReachable e, cert, hz with
    | Some _, None, _ | Some _, _, None => Cdk.throw InfrastructureStack.uiError
    | _, _, _ => Cdk.ret tt
    end = Cdk.ret tt).
  { destruct H as [-> | [Hc Hz]]; [reflexivity|].
    destruct (EdgeDbCommon.makePubliclyReachable e), cert, hz;
      try reflexivity; congruence. }
  rewrite Hcheck.
  unfold Cdk.bind at 1. unfold Cdk.ret at 1.
  unfold Cdk.bind at 1. rewrite Hrun.
  unfold InfrastructureStack.parameter, Cdk.bind, Cdk.new, Cdk.ret.
  repeat rewrite <- app_assoc.
  eexists. split; [reflexivity|]. split.
  - rewrite parameterNames_app, Hnames. reflexivity.
  - intros ui Hsome. apply in_or_app. left. now apply Hui.
Qed.

End Loop.

(** ** Port suffixes and port defaults *)

Lemma edgeDbPortString_spec (port : Z) :
  (port <> 5656 -> EdgeDbConstruct.edgeDbPortString port = ":" ++ Js.numberToString port)
  /\ (EdgeDbConstruct.edgeDbPortString port = "" <-> port = 5656).
Proof.
  unfold EdgeDbConstruct.edgeDbPortString.
  destruct (Z.eqb_spec port 5656) as [->|Hne]; simpl.
  - split; [congruence|]. split; reflexivity.
  - split; [reflexivity|]. split; [discriminate|contradiction].
Qed.

Lemma tlsPortString_spec (port : Z) :
  (port <> 443 -> EdgeDbConstruct.tlsPortString port = ":" ++ Js.numberToString port)
  /\ (EdgeDbConstruct.tlsPortString port = "" <-> port = 443).
Proof.
  unfold EdgeDbConstruct.tlsPortString.
  destruct (Z.eqb_spec port 443) as [->|Hne]; simpl.
  - split; [congruence|]. split; reflexivity.
  - split; [reflexivity|]. split; [discriminate|contradiction].
Qed.

(** C3: both DSNs of a base database always carry the port of the endpoint
    of the instance, after its host name, 5432 included.  The EdgeDb DSN is
    [edgedb://<superUser>@<DNS name of the protocol load balancer>], followed
    by [:<port>] exactly when the pass-through port is not 5656; it is the
    value handed on and the value of the DSN output.  The UI URL is
    [https://<DNS name of the UI load balancer>], followed by [:<port>]
    exactly when the hosted port is not 443, and then by [/ui]. *)
Theorem C3_port_suffix (tokens : Cdk.Tokens) :
  (forall scope id props st,
     exists db st',
       InstanceBaseDatabase.constructor tokens scope id props st = (Js.Return db, st')
       /\ Cdk.hostname (InstanceBaseDatabase.getters tokens db)
          = Cdk.endpointHostname tokens (Cdk.child scope "DatabaseInstance")
       /\ Cdk.port (InstanceBaseDatabase.getters tokens db)
          = Cdk.endpointPort tokens (Cdk.child scope "DatabaseInstance")
       /\ Cdk.dsnWithTokens (InstanceBaseDatabase.getters tokens db)
          = "postgres://"
            ++ Cdk.secretValueFromJson tokens (Cdk.bsecretPath props) "username"
            ++ ":"
            ++ Cdk.secretValueFromJson tokens (Cdk.bsecretPath props) "password"
            ++ "@"
            ++ Cdk.endpointHostname tokens (Cdk.child scope "DatabaseInstance")
            ++ ":"
            ++ Js.numberToString
                 (Cdk.endpointPort tokens (Cdk.child scope "DatabaseInstance"))
            ++ "/" ++ Cdk.bdatabaseName props
       /\ Cdk.dsnNoPassword (InstanceBaseDatabase.getters tokens db)
          = "postgres://" ++ Cdk.databaseAdminUser props ++ "@"
            ++ Cdk.endpointHostname tokens (Cdk.child scope "DatabaseInstance")
            ++ ":"
            ++ Js.numberToString
                 (Cdk.endpointPort tokens (Cdk.child scope "DatabaseInstance"))
            ++ "/" ++ Cdk.bdatabaseName props)
  /\ Js.numberToString 5432 = "5432"
  /\ (forall scope name props st,
        exists edgeDb st',
          EdgeDbConstruct.constructor tokens scope name props st = (Js.Return edgeDb, st')
          /\ EdgeDbConstruct.dsnForEnvironmentVariable edgeDb
             = "edgedb://" ++ Cdk.superUser (EdgeDbConstruct.edgeDbService props)
               ++ "@"
               ++ Cdk.dnsName tokens
                    (Cdk.child (Cdk.child scope name) "EdgeDbLoadBalancerProtocol")
               ++ (if Cdk.tcpPassthroughPort (EdgeDbConstruct.edgeDbLoadBalancerProtocol props)
                      =? 5656
                   then ""
                   else ":" ++ Js.numberToString
                                 (Cdk.tcpPassthroughPort
                                    (EdgeDbConstruct.edgeDbLoadBalancerProtocol props)))
          /\ In (Cdk.CfnOutput
                   (Cdk.child (Cdk.child scope name) "EdgeDbDsnNoPasswordOrDatabase")
                   (EdgeDbConstruct.dsnForEnvironmentVariable edgeDb))
                st'
          /\ forall ui,
               EdgeDbConstruct.edgeDbLoadBalancerUi props = Some ui ->
               In (Cdk.CfnOutput (Cdk.child (Cdk.child scope name) "EdgeDbUiUrl")
                     ("https://"
                      ++ Cdk.dnsName tokens
                           (Cdk.child (Cdk.child scope name) "EdgeDbLoadBalancerUi")
                      ++ (if Cdk.hostedPort ui =? 443
                          then ""
                          else ":" ++ Js.numberToString (Cdk.hostedPort ui))
                      ++ "/ui"))
                  st')
  /\ (forall port,
        (port <> 5656 ->
         EdgeDbConstruct.edgeDbPortString port = ":" ++ Js.numberToString port)
        /\ (EdgeDbConstruct.edgeDbPortString port = "" <-> port = 5656))
  /\ (forall port,
        (port <> 443 ->
         EdgeDbConstruct.tlsPortString port = ":" ++ Js.numberToString port)
        /\ (EdgeDbConstruct.tlsPortString port = "" <-> port = 443)).
Proof.
  split.
  { intros scope id props st. rewrite instance_constructor_run.
    eexists. eexists.
    split; [reflexivity|]. split; [reflexivity|]. split; [reflexivity|].
    split; reflexivity. }
  split; [reflexivity|]. split.
  { intros scope name props st.
    unfold EdgeDbConstruct.constructor, Cdk.bind, Cdk.new, Cdk.ret. cbv zeta.
    destruct (EdgeDbConstruct.edgeDbLoadBalancerUi props) as [ui|];
      repeat rewrite <- app_assoc; simpl app;
      eexists; eexists; (split; [reflexivity|]);
      unfold EdgeDbConstruct.dsnForEnvironmentVariable; cbn [EdgeDbConstruct._dsn];
      unfold EdgeDbConstruct.dsnOf, EdgeDbConstruct.edgeDbPortString.
    - split.
      { destruct (Cdk.tcpPassthroughPort
                    (EdgeDbConstruct.edgeDbLoadBalancerProtocol props) =? 5656);
          reflexivity. }
      split; [apply in_or_app; right; simpl; auto 10|].
      intros ui' H. injection H as <-.
      apply in_or_app. right.
      unfold EdgeDbConstruct.uiUrlOf, EdgeDbConstruct.tlsPortString.
      destruct (Cdk.hostedPort ui =? 443); simpl; auto 10.
    - split.
      { destruct (Cdk.tcpPassthroughPort
                    (EdgeDbConstruct.edgeDbLoadBalancerProtocol props) =? 5656);
          reflexivity. }
      split; [apply in_or_app; right; simpl; auto 10|].
      intros ui' H. discriminate H. }
  split; [apply edgeDbPortString_spec | apply tlsPortString_spec].
Qed.

(** With [edgeDb: {dbPort: 5656}] the DSN has no port suffix. *)
Example edgeDb_dsn_at_default_port :
  EdgeDbConstruct.dsnOf Samples.tokens
    (InfrastructureStack.edgeDbProps (Some "Elsa") "VPC" Samples.reporting
       (Samples.edge (Some 5656) None) "Reporting"
       (Cdk.serverlessGetters Samples.tokens "Stack/Reporting") None None)
    "lb"
  = "edgedb://elsa_superuser@<lb.dnsName>".
Proof. reflexivity. Qed.

(** C10: the pass-through port is [dbPort || 5656], so a missing port and an
    explicit 0 both give 5656; the hosted port is [uiPort ?? 443], so only a
    missing port gives 443 and an explicit 0 is kept. *)
Theorem C10_port_defaults secretsPrefix vpc dbConfig e safe baseDb hz cert :
  let props :=
    InfrastructureStack.edgeDbProps secretsPrefix vpc dbConfig e safe baseDb hz cert in
  let passthrough :=
    Cdk.tcpPassthroughPort (EdgeDbConstruct.edgeDbLoadBalancerProtocol props) in
  (Js.truthyNumber (EdgeDbCommon.dbPort e) = false -> passthrough = 5656)
  /\ (EdgeDbCommon.dbPort e = Some 0 -> passthrough = 5656)
  /\ (forall port,
        EdgeDbCommon.dbPort e = Some port -> port <> 0 -> passthrough = port)
  /\ (forall p,
        EdgeDbCommon.makePubliclyReachable e = Some p ->
        exists ui,
          EdgeDbConstruct.edgeDbLoadBalancerUi props = Some ui
          /\ (EdgeDbPublic.uiPort p = None -> Cdk.hostedPort ui = 443)
          /\ (forall port,
                EdgeDbPublic.uiPort p = Some port -> Cdk.hostedPort ui = port)
          /\ (EdgeDbPublic.uiPort p = Some 0 ->
              EdgeDbConstruct.tlsPortString (Cdk.hostedPort ui) = ":0")).
Proof.
  cbn. repeat split.
  - destruct (EdgeDbCommon.dbPort e) as [port|]; simpl; [|reflexivity].
    destruct (Z.eqb_spec port 0); [reflexivity|discriminate].
  - intros ->. reflexivity.
  - intros port -> Hne. simpl.
    destruct (Z.eqb_spec port 0); [contradiction|reflexivity].
  - intros p ->. eexists. split; [reflexivity|]. cbn.
    split; [intros ->; reflexivity|].
    split; [intros port ->; reflexivity|].
    intros ->. reflexivity.
Qed.

(** ** One database *)

Lemma setEdgeDb_same (dbConfig : DatabaseConfig.t) :
  setEdgeDb dbConfig (DatabaseConfig.edgeDb dbConfig) = dbConfig.
Proof. destruct dbConfig. reflexivity. Qed.

Lemma cdkIdSafeDbName_returns (name : string) :
  Lodash.camelCase name <> "" ->
  exists c rest,
    Lodash.camelCase name = String c rest
    /\ InfrastructureStack.cdkIdSafeDbName name
       = Js.Return (String (Js.upperChar c) rest).
Proof.
  unfold InfrastructureStack.cdkIdSafeDbName.
  destruct (Lodash.camelCase name) as [|c rest]; [congruence|].
  intros _. exists c, rest. split; reflexivity.
Qed.

Lemma provisionDatabase_no_identifier
    tokens this id secretsPrefix vpc hz cert dbConfig message st :
  Regex.test InfrastructureStack.reDatabaseName (DatabaseConfig.name dbConfig) = true ->
  InfrastructureStack.cdkIdSafeDbName (DatabaseConfig.name dbConfig) = Js.Throw message ->
  InfrastructureStack.provisionDatabase tokens this id secretsPrefix vpc hz cert dbConfig st
  = (Js.Throw message, st).
Proof.
  intros Htest Hsafe. unfold InfrastructureStack.provisionDatabase.
  rewrite Htest, Hsafe. reflexivity.
Qed.

Lemma provisionDatabase_unknown
    tokens this id secretsPrefix vpc hz cert dbConfig safe st :
  Regex.test InfrastructureStack.reDatabaseName (DatabaseConfig.name dbConfig) = true ->
  InfrastructureStack.cdkIdSafeDbName (DatabaseConfig.name dbConfig) = Js.Return safe ->
  knownPostgresType (DatabaseConfig.postgresType dbConfig) = false ->
  InfrastructureStack.provisionDatabase tokens this id secretsPrefix vpc hz cert dbConfig st
  = (Js.Throw (InfrastructureStack.unknownTypeError (DatabaseConfig.postgresType dbConfig)),
     (st ++ [Cdk.Secret (Cdk.child this (safe ++ "Secret"))
               (InfrastructureStack.baseDbSecretProps secretsPrefix dbConfig safe)])%list).
Proof.
  intros Htest Hsafe Hknown. unfold InfrastructureStack.provisionDatabase.
  rewrite Htest, Hsafe. cbn [negb].
  unfold Cdk.bind at 1. unfold Cdk.lift.
  unfold Cdk.bind at 1. unfold Cdk.new at 1.
  unfold Cdk.bind at 1.
  rewrite newBaseDatabase_unknown by assumption. reflexivity.
Qed.

(** C4, as stated, fails: the sample database without [edgeDb] is also
    published under [dsnWithPassword], which is none of the six keys. *)
Lemma C4_counterexample :
  DatabaseConfig.edgeDb Samples.analytics = None
  /\ exists st',
       InfrastructureStack.provisionDatabase Samples.tokens "Stack" "stk" (Some "Elsa")
         "VPC" None None Samples.analytics []
       = (Js.Return tt, st')
       /\ In "/stk/Database/analytics/dsnWithPassword" (Cdk.parameterNames st')
       /\ ~ In "/stk/Database/analytics/dsnWithPassword"
            (map (InfrastructureStack.databaseParameterName "stk" "analytics") specFields)
       /\ Cdk.parameterNames st'
          <> map (InfrastructureStack.databaseParameterName "stk" "analytics") specFields.
Proof.
  split; [reflexivity|].
  eexists. split; [vm_compute; reflexivity|].
  split; [simpl; auto|]. split.
  - simpl. intros H. repeat (destruct H as [H|H]; [discriminate|]). exact H.
  - simpl. discriminate.
Qed.

(** C7 (as the code has it): the tags are [postgres-instance] and
    [postgres-serverless-2].  The first builds an [InstanceBaseDatabase], the
    second a [ServerlessBaseDatabase]; any other tag throws an error that
    names it, when the secret of the database is the only construct made for
    it so far. *)
Theorem C7_postgresType_dispatch
    tokens this id secretsPrefix vpc hz cert dbConfig safe st :
  Regex.test InfrastructureStack.reDatabaseName (DatabaseConfig.name dbConfig) = true ->
  InfrastructureStack.cdkIdSafeDbName (DatabaseConfig.name dbConfig) = Js.Return safe ->
  let secretPath := Cdk.child this (safe ++ "Secret") in
  let secret :=
    Cdk.Secret secretPath
      (InfrastructureStack.baseDbSecretProps secretsPrefix dbConfig safe) in
  let props :=
    InfrastructureStack.baseDatabaseProps vpc dbConfig (List.length st) secretPath in
  let st1 := (st ++ [secret])%list in
  (DatabaseConfig.postgresType dbConfig = "postgres-instance" ->
   exists db st2,
     InstanceBaseDatabase.constructor tokens this safe props st1 = (Js.Return db, st2)
     /\ InfrastructureStack.newBaseDatabase tokens this vpc dbConfig safe
          (List.length st) secretPath st1
        = (Js.Return (InstanceBaseDatabase.getters tokens db), st2))
  /\ (DatabaseConfig.postgresType dbConfig = "postgres-serverless-2" ->
      InfrastructureStack.newBaseDatabase tokens this vpc dbConfig safe
        (List.length st) secretPath st1
      = (Js.Return (Cdk.serverlessGetters tokens (Cdk.child this safe)),
         (st1 ++ [Cdk.ServerlessBaseDatabase (Cdk.child this safe) props])%list))
  /\ (DatabaseConfig.postgresType dbConfig <> "postgres-instance" ->
      DatabaseConfig.postgresType dbConfig <> "postgres-serverless-2" ->
      InfrastructureStack.provisionDatabase tokens this id secretsPrefix vpc hz cert
        dbConfig st
      = (Js.Throw
           ("Unknown postgres database type " ++ DatabaseConfig.postgresType dbConfig),
         st1)).
Proof.
  intros Htest Hsafe secretPath secret props st1.
  split; [|split].
  - intros Hty. unfold InfrastructureStack.newBaseDatabase. rewrite Hty.
    cbn [String.eqb Ascii.eqb Bool.eqb andb]. cbv zeta.
    unfold Cdk.bind. fold props.
    destruct (InstanceBaseDatabase.constructor tokens this safe props st1)
      as [[db|message] st2] eqn:E.
    + exists db, st2. split; reflexivity.
    + unfold props in E. rewrite instance_constructor_run in E. discriminate.
  - intros Hty. unfold InfrastructureStack.newBaseDatabase. rewrite Hty.
    reflexivity.
  - intros Hi Hs.
    apply provisionDatabase_unknown; [assumption|assumption|].
    unfold knownPostgresType. apply orb_false_iff.
    split; apply String.eqb_neq; assumption.
Qed.

Lemma C7_postgresType_dispatch_witness :
  (exists db st2,
     InstanceBaseDatabase.constructor Samples.tokens "Stack" "Analytics"
       (InfrastructureStack.baseDatabaseProps "VPC" Samples.analytics 0%nat
          "Stack/AnalyticsSecret")
       [Cdk.Secret "Stack/AnalyticsSecret"
          (InfrastructureStack.baseDbSecretProps (Some "Elsa") Samples.analytics
             "Analytics")]
     = (Js.Return db, st2)
     /\ InfrastructureStack.newBaseDatabase Samples.tokens "Stack" "VPC"
          Samples.analytics "Analytics" 0%nat "Stack/AnalyticsSecret"
          [Cdk.Secret "Stack/AnalyticsSecret"
             (InfrastructureStack.baseDbSecretProps (Some "Elsa") Samples.analytics
                "Analytics")]
        = (Js.Return (InstanceBaseDatabase.getters Samples.tokens db), st2))
  /\ InfrastructureStack.provisionDatabase Samples.tokens "Stack" "stk" (Some "Elsa")
       "VPC" None None (Samples.database "analytics" "mysql" None) []
     = (Js.Throw "Unknown postgres database type mysql",
        [Cdk.Secret "Stack/AnalyticsSecret"
           (InfrastructureStack.baseDbSecretProps (Some "Elsa")
              (Samples.database "analytics" "mysql" None) "Analytics")]).
Proof.
  split.
  - apply (C7_postgresType_dispatch Samples.tokens "Stack" "stk" (Some "Elsa") "VPC"
             None None Samples.analytics "Analytics" []); reflexivity.
  - apply (C7_postgresType_dispatch Samples.tokens "Stack" "stk" (Some "Elsa") "VPC"
             None None (Samples.database "analytics" "mysql" None) "Analytics" []);
      try reflexivity; discriminate.
Defined.

(** C7, as stated, fails: the tags [instance] and [serverless-2] of the claim
    select no class; the constructor refuses both as unknown. *)
Lemma C7_counterexample :
  fst (InfrastructureStack.provisionDatabase Samples.tokens "Stack" "stk" (Some "Elsa")
         "VPC" None None (Samples.database "analytics" "instance" None) [])
  = Js.Throw "Unknown postgres database type instance"
  /\ fst (InfrastructureStack.provisionDatabase Samples.tokens "Stack" "stk" (Some "Elsa")
            "VPC" None None (Samples.database "analytics" "serverless-2" None) [])
     = Js.Throw "Unknown postgres database type serverless-2".
Proof. split; vm_compute; reflexivity. Qed.

(** ** Parameter keys of several databases *)

Lemma slash_splits (n1 n2 f1 f2 : string) :
  anyChar isSlash f1 = false ->
  anyChar isSlash f2 = false ->
  n1 ++ "/" ++ f1 = n2 ++ "/" ++ f2 ->
  n1 = n2 /\ f1 = f2.
Proof.
  intros H1 H2. revert n2.
  induction n1 as [|c n1 IH]; intros [|c' n2] H; simpl in H.
  - injection H as H. auto.
  - injection H as Hc Hf. subst c' f1.
    clear -H1. exfalso.
    induction n2 as [|x n2 IH]; simpl in H1; [discriminate|].
    apply orb_false_iff in H1. destruct H1 as [_ H1]. auto.
  - injection H as Hc Hf. subst c f2.
    clear -H2. exfalso.
    induction n1 as [|x n1 IH]; simpl in H2; [discriminate|].
    apply orb_false_iff in H2. destruct H2 as [_ H2]. auto.
  - injection H as Hc Hf. subst c'.
    destruct (IH _ Hf) as [-> ->]. auto.
Qed.

(** A key determines the database name and the field behind it. *)
Lemma databaseParameterName_injective (id n1 n2 f1 f2 : string) :
  anyChar isSlash f1 = false ->
  anyChar isSlash f2 = false ->
  InfrastructureStack.databaseParameterName id n1 f1
  = InfrastructureStack.databaseParameterName id n2 f2 ->
  n1 = n2 /\ f1 = f2.
Proof.
  intros H1 H2 H. unfold InfrastructureStack.databaseParameterName in H.
  apply (append_inv_head "/") in H. apply append_inv_head in H.
  apply (append_inv_head "/Database/") in H.
  now apply slash_splits.
Qed.

Lemma fieldsOf_slash_free (dbConfig : DatabaseConfig.t) (field : string) :
  In field (fieldsOf dbConfig) -> anyChar isSlash field = false.
Proof.
  unfold fieldsOf. destruct (DatabaseConfig.edgeDb dbConfig); simpl;
    intros H; repeat (destruct H as [<-|H]; [reflexivity|]); contradiction.
Qed.

Lemma fieldsOf_NoDup (dbConfig : DatabaseConfig.t) : NoDup (fieldsOf dbConfig).
Proof.
  unfold fieldsOf. destruct (DatabaseConfig.edgeDb dbConfig); simpl;
    repeat (constructor;
            [simpl; intros H;
             repeat (destruct H as [H|H]; [discriminate|]); exact H|]);
    constructor.
Qed.

Lemma keysOf_NoDup (id : string) (dbConfig : DatabaseConfig.t) :
  NoDup (keysOf id dbConfig).
Proof.
  unfold keysOf. apply NoDup_map_NoDup_ForallPairs; [|apply fieldsOf_NoDup].
  intros f1 f2 H1 H2 H.
  apply databaseParameterName_injective in H;
    [tauto | eapply fieldsOf_slash_free; eassumption
           | eapply fieldsOf_slash_free; eassumption].
Qed.

Lemma keysOf_name (id : string) (a b : DatabaseConfig.t) (key : string) :
  In key (keysOf id a) -> In key (keysOf id b) ->
  DatabaseConfig.name a = DatabaseConfig.name b.
Proof.
  unfold keysOf. intros Ha Hb.
  apply in_map_iff in Ha. destruct Ha as (fa & <- & Hfa).
  apply in_map_iff in Hb. destruct Hb as (fb & Hb & Hfb).
  symmetry in Hb. apply databaseParameterName_injective in Hb;
    [tauto | eapply fieldsOf_slash_free; eassumption
           | eapply fieldsOf_slash_free; eassumption].
Qed.

Lemma all_keys_NoDup (id : string) (databases : list DatabaseConfig.t) :
  NoDup (map DatabaseConfig.name databases) ->
  NoDup (flat_map (keysOf id) databases).
Proof.
  induction databases as [|a rest IH]; intros H; [constructor|].
  cbn [map] in H. cbn [flat_map].
  inversion H as [|? ? Hnotin Hrest]; subst.
  apply NoDup_app; [apply keysOf_NoDup | auto |].
  intros key Ha Hb. apply in_flat_map in Hb. destruct Hb as (b & Hb & Hkey).
  apply Hnotin. rewrite (keysOf_name id a b key Ha Hkey).
  now apply in_map.
Qed.

Section Keys.
Variable tokens : Cdk.Tokens.
Variables this id : string.
Variable secretsPrefix : option string.
Variable vpc : string.
Variables hz cert : option Cdk.ref.

(** Whatever the outcome, the body of the loop publishes the keys of its
    database in order, all of them when it returns. *)
Lemma provisionDatabase_keys dbConfig st :
  exists published pending,
    Cdk.parameterNames
      (snd (InfrastructureStack.provisionDatabase tokens this id secretsPrefix vpc
              hz cert dbConfig st))
    = (Cdk.parameterNames st ++ published)%list
    /\ keysOf id dbConfig = (published ++ pending)%list
    /\ (fst (InfrastructureStack.provisionDatabase tokens this id secretsPrefix vpc
               hz cert dbConfig st) = Js.Return tt ->
        pending = []).
Proof.
  destruct (Regex.test InfrastructureStack.reDatabaseName (DatabaseConfig.name dbConfig))
    eqn:Htest.
  2:{ rewrite name_check_unanchored in Htest.
      rewrite provisionDatabase_refuses by assumption.
      exists [], (keysOf id dbConfig). simpl. rewrite app_nil_r.
      repeat split. discriminate. }
  destruct (InfrastructureStack.cdkIdSafeDbName (DatabaseConfig.name dbConfig))
    as [safe|message] eqn:Hsafe.
  2:{ rewrite (provisionDatabase_no_identifier tokens this id secretsPrefix vpc hz cert
                 dbConfig message st Htest Hsafe).
      exists [], (keysOf id dbConfig). simpl. rewrite app_nil_r.
      repeat split. discriminate. }
  destruct (knownPostgresType (DatabaseConfig.postgresType dbConfig)) eqn:Hknown.
  2:{ rewrite (provisionDatabase_unknown tokens this id secretsPrefix vpc hz cert
                 dbConfig safe st Htest Hsafe Hknown).
      exists [], (keysOf id dbConfig). simpl.
      rewrite parameterNames_app. simpl.
      repeat split. discriminate. }
  destruct (provisionDatabase_base tokens this id secretsPrefix vpc hz cert
              dbConfig safe st Htest Hsafe Hknown)
    as (baseDb & created & Hkeys & Hrun).
  specialize (Hrun (DatabaseConfig.edgeDb dbConfig)).
  rewrite setEdgeDb_same in Hrun. rewrite Hrun.
  unfold keysOf, fieldsOf. rewrite map_app.
  destruct (DatabaseConfig.edgeDb dbConfig) as [e|] eqn:Hedge.
  - assert (Hcase :
      (exists p, EdgeDbCommon.makePubliclyReachable e = Some p
                 /\ (cert = None \/ hz = None))
      \/ (EdgeDbCommon.makePubliclyReachable e = None
          \/ (cert <> None /\ hz <> None))).
    { destruct (EdgeDbCommon.makePubliclyReachable e) as [p|]; [|auto].
      destruct cert, hz; eauto; right; right; split; discriminate. }
    destruct Hcase as [(p & Hp & Hmissing) | Hfine].
    + rewrite (provisionEdgeDb_throws tokens this id secretsPrefix vpc hz cert
                 dbConfig e p safe baseDb (st ++ created)%list Hedge Hp Hmissing).
      exists (map (InfrastructureStack.databaseParameterName id
                     (DatabaseConfig.name dbConfig)) baseFields).
      exists (map (InfrastructureStack.databaseParameterName id
                     (DatabaseConfig.name dbConfig)) edgeDbFields).
      cbn [fst snd]. rewrite parameterNames_app, Hkeys.
      split; [reflexivity|]. split; [reflexivity|discriminate].
    + destruct (provisionEdgeDb_run tokens this id secretsPrefix vpc hz cert
                  dbConfig e safe baseDb (st ++ created)%list Hedge Hfine)
        as (more & Hmore & Hnames & _).
      rewrite Hmore.
      exists (map (InfrastructureStack.databaseParameterName id
                     (DatabaseConfig.name dbConfig)) baseFields
              ++ map (InfrastructureStack.databaseParameterName id
                        (DatabaseConfig.name dbConfig)) edgeDbFields)%list.
      exists []. cbn [fst snd].
      rewrite !parameterNames_app, Hkeys, Hnames, app_nil_r, app_assoc.
      split; [reflexivity|]. split; reflexivity.
  - rewrite provisionEdgeDb_none by assumption.
    exists (map (InfrastructureStack.databaseParameterName id
                   (DatabaseConfig.name dbConfig)) baseFields).
    exists []. cbn [fst snd map]. rewrite parameterNames_app, Hkeys.
    split; [reflexivity|]. split; reflexivity.
Qed.

Lemma forEach_keys databases st :
  exists published pending,
    Cdk.parameterNames
      (snd (InfrastructureStack.forEach tokens this id secretsPrefix vpc hz cert
              databases st))
    = (Cdk.parameterNames st ++ published)%list
    /\ flat_map (keysOf id) databases = (published ++ pending)%list
    /\ (fst (InfrastructureStack.forEach tokens this id secretsPrefix vpc hz cert
               databases st) = Js.Return tt ->
        pending = []).
Proof.
  revert st. induction databases as [|dbConfig rest IH]; intros st.
  - exists [], []. simpl. rewrite app_nil_r. auto.
  - destruct (provisionDatabase_keys dbConfig st)
      as (published & pending & Hnames & Hkeys & Hdone).
    cbn [InfrastructureStack.forEach flat_map]. unfold Cdk.bind.
    destruct (InfrastructureStack.provisionDatabase tokens this id secretsPrefix vpc
                hz cert dbConfig st) as [[[]|message] st1].
    + simpl in Hnames, Hdone. rewrite (Hdone eq_refl), app_nil_r in Hkeys.
      destruct (IH st1) as (published' & pending' & Hnames' & Hkeys' & Hdone').
      exists (published ++ published')%list, pending'.
      split; [|split].
      * rewrite Hnames', Hnames, app_assoc. reflexivity.
      * rewrite <- app_assoc, <- Hkeys'. f_equal. exact Hkeys.
      * exact Hdone'.
    + simpl in Hnames. cbn [fst snd].
      exists published, (pending ++ flat_map (keysOf id) rest)%list.
      split; [assumption|]. split; [|discriminate].
      rewrite app_assoc. f_equal. exact Hkeys.
Qed.

End Keys.

(** C8: in one pass over two or more databases with pairwise distinct names,
    the keys published, base database and EdgeDb keys alike, are pairwise
    distinct; a pass that returns has published the keys of every database. *)
Theorem C8_parameter_keys_unique
    tokens this id secretsPrefix vpc hz cert databases st outcome st' :
  (2 <= List.length databases)%nat ->
  NoDup (map DatabaseConfig.name databases) ->
  InfrastructureStack.forEach tokens this id secretsPrefix vpc hz cert databases st
  = (outcome, st') ->
  exists keys,
    Cdk.parameterNames st' = (Cdk.parameterNames st ++ keys)%list
    /\ NoDup keys
    /\ (outcome = Js.Return tt -> keys = flat_map (keysOf id) databases).
Proof.
  intros _ Hnames Hrun.
  destruct (forEach_keys tokens this id secretsPrefix vpc hz cert databases st)
    as (published & pending & Hpub & Hkeys & Hdone).
  rewrite Hrun in Hpub, Hdone. simpl in Hpub, Hdone.
  exists published. split; [assumption|]. split.
  - apply (NoDup_app_remove_r published pending). rewrite <- Hkeys.
    now apply all_keys_NoDup.
  - intros Hret. rewrite (Hdone Hret), app_nil_r in Hkeys. auto.
Qed.

Lemma C8_parameter_keys_unique_witness :
  exists keys,
    Cdk.parameterNames
      (snd (InfrastructureStack.forEach Samples.tokens "Stack" "stk" (Some "Elsa")
              "VPC" None None [Samples.analytics; Samples.reporting] []))
    = ([] ++ keys)%list
    /\ NoDup keys
    /\ (Js.Return tt = Js.Return tt ->
        keys = flat_map (keysOf "stk") [Samples.analytics; Samples.reporting]).
Proof.
  apply (C8_parameter_keys_unique Samples.tokens "Stack" "stk" (Some "Elsa") "VPC"
           None None [Samples.analytics; Samples.reporting] []).
  - simpl. lia.
  - simpl. repeat constructor; simpl; intuition discriminate.
  - vm_compute. reflexivity.
Defined.

(** C4 (as the code has it): for a database without an [edgeDb] property the
    keys published are, in this order, [/<id>/Database/<name>/<field>] for
    [dsnWithPassword] and then the six fields of the claim: all seven when
    the body of the loop returns, a leading part of them when it throws, and
    never another key. *)
Theorem C4_base_database_parameters
    tokens this id secretsPrefix vpc hz cert dbConfig st outcome st' :
  DatabaseConfig.edgeDb dbConfig = None ->
  InfrastructureStack.provisionDatabase tokens this id secretsPrefix vpc hz cert dbConfig st
  = (outcome, st') ->
  exists published pending,
    Cdk.parameterNames st' = (Cdk.parameterNames st ++ published)%list
    /\ map (InfrastructureStack.databaseParameterName id (DatabaseConfig.name dbConfig))
         ("dsnWithPassword" :: specFields)
       = (published ++ pending)%list
    /\ (outcome = Js.Return tt -> pending = []).
Proof.
  intros Hedge Hrun.
  destruct (provisionDatabase_keys tokens this id secretsPrefix vpc hz cert dbConfig st)
    as (published & pending & Hpub & Hkeys & Hdone).
  rewrite Hrun in Hpub, Hdone. cbn [fst snd] in Hpub, Hdone.
  unfold keysOf, fieldsOf in Hkeys. rewrite Hedge, app_nil_r in Hkeys.
  exists published, pending. auto.
Qed.

Lemma C4_base_database_parameters_witness :
  exists published pending,
    Cdk.parameterNames
      (snd (InfrastructureStack.provisionDatabase Samples.tokens "Stack" "stk"
              (Some "Elsa") "VPC" None None Samples.analytics []))
    = ([] ++ published)%list
    /\ ["/stk/Database/analytics/dsnWithPassword";
        "/stk/Database/analytics/dsnNoPassword";
        "/stk/Database/analytics/hostname";
        "/stk/Database/analytics/port";
        "/stk/Database/analytics/adminUser";
        "/stk/Database/analytics/adminPasswordSecretArn";
        "/stk/Database/analytics/securityGroupId"]
       = (published ++ pending)%list
    /\ (Js.Return tt = Js.Return tt -> pending = []).
Proof.
  apply (C4_base_database_parameters Samples.tokens "Stack" "stk" (Some "Elsa")
           "VPC" None None Samples.analytics []).
  - reflexivity.
  - vm_compute. reflexivity.
Defined.

(** ** The derived identifier *)

Section Matching.
Import Regex.

Lemma lit_shrinks (l : string) (prev : option ascii) (s : string) (k : cont)
    (x : string) :
  lit l prev s k = Some x ->
  exists prev' s',
    k prev' s' = Some x
    /\ (String.length s' + String.length l = String.length s)%nat.
Proof.
  revert prev s. induction l as [|a l IH]; intros prev s H; simpl in H.
  - exists prev, s. split; [assumption|]. simpl. lia.
  - destruct s as [|c s]; [discriminate|].
    destruct (Ascii.eqb a c); [|discriminate].
    destruct (IH _ _ H) as (prev' & s' & Hk & Hlen).
    exists prev', s'. split; [assumption|]. simpl. lia.
Qed.

Lemma star_shrinks (p : ascii -> bool) (prev : option ascii) (s : string)
    (k : cont) (x : string) :
  star p prev s k = Some x ->
  exists prev' s',
    k prev' s' = Some x /\ (String.length s' <= String.length s)%nat.
Proof.
  revert prev. induction s as [|c s IH]; intros prev H; simpl in H.
  - exists prev, "". auto.
  - destruct (p c).
    + destruct (star p (Some c) s k) as [r|] eqn:E.
      * injection H as ->. destruct (IH _ E) as (prev' & s' & Hk & Hlen).
        exists prev', s'. split; [assumption|]. simpl. lia.
      * exists prev, (String c s). auto.
    + exists prev, (String c s). auto.
Qed.

(** A match never gives input back, and takes some when the expression is
    not nullable. *)
Lemma run_shrinks (r : re) :
  forall (prev : option ascii) (s : string) (k : cont) (x : string),
    run r prev s k = Some x ->
    exists prev' s',
      k prev' s' = Some x
      /\ (String.length s' <= String.length s)%nat
      /\ (nullable r = false -> (String.length s' < String.length s)%nat).
Proof.
  induction r as [p|l|a IHa b IHb|a IHa b IHb|a IHa|p|a IHa|a IHa| |];
    intros prev s k x H; simpl in H.
  - destruct s as [|c s]; [discriminate|]. destruct (p c); [|discriminate].
    exists (Some c), s. simpl. repeat split; auto; lia.
  - destruct (lit_shrinks _ _ _ _ _ H) as (prev' & s' & Hk & Hlen).
    exists prev', s'. split; [assumption|]. split; [lia|].
    simpl. destruct l; [discriminate|]. simpl in Hlen. lia.
  - destruct (IHa _ _ _ _ H) as (p1 & s1 & H1 & Hle1 & Hlt1).
    destruct (IHb _ _ _ _ H1) as (p2 & s2 & H2 & Hle2 & Hlt2).
    exists p2, s2. split; [assumption|]. split; [lia|].
    simpl. intros Hn. apply andb_false_iff in Hn.
    destruct Hn as [Hn|Hn]; [specialize (Hlt1 Hn)|specialize (Hlt2 Hn)]; lia.
  - simpl. destruct (run a prev s k) as [y|] eqn:E.
    + injection H as ->. destruct (IHa _ _ _ _ E) as (p1 & s1 & H1 & Hle & Hlt).
      exists p1, s1. repeat split; auto.
      intros Hn. apply orb_false_iff in Hn. tauto.
    + destruct (IHb _ _ _ _ H) as (p1 & s1 & H1 & Hle & Hlt).
      exists p1, s1. repeat split; auto.
      intros Hn. apply orb_false_iff in Hn. tauto.
  - destruct (run a prev s k) as [y|] eqn:E.
    + injection H as ->. destruct (IHa _ _ _ _ E) as (p1 & s1 & H1 & Hle & _).
      exists p1, s1. repeat split; auto. discriminate.
    + exists prev, s. repeat split; auto. discriminate.
  - destruct (star_shrinks _ _ _ _ _ H) as (prev' & s' & Hk & Hlen).
    exists prev', s'. repeat split; auto. discriminate.
  - destruct (run a prev s (fun _ s' => Some s')); [|discriminate].
    exists prev, s. repeat split; auto. discriminate.
  - destruct (run a prev s (fun _ s' => Some s')); [discriminate|].
    exists prev, s. repeat split; auto. discriminate.
  - destruct (xorb (isWordChar prev) (isWordChar (Regex.head s))); [|discriminate].
    exists prev, s. repeat split; auto. discriminate.
  - destruct s; [|discriminate].
    exists prev, "". repeat split; auto. discriminate.
Qed.

Lemma matchAt_shrinks (r : re) (prev : option ascii) (s rest : string) :
  nullable r = false ->
  matchAt r prev s = Some rest ->
  (String.length rest < String.length s)%nat.
Proof.
  intros Hn H. unfold matchAt in H.
  destruct (run_shrinks r _ _ _ _ H) as (prev' & s' & Hk & _ & Hlt).
  injection Hk as ->. auto.
Qed.

Lemma opt_total (a : re) (k : cont) :
  total k -> total (fun prev s => run (Opt a) prev s k).
Proof.
  intros Hk prev s. simpl. destruct (run a prev s k); [discriminate|apply Hk].
Qed.

Lemma alt_left (a b : re) (prev : option ascii) (s : string) (k : cont) :
  run a prev s k <> None -> run (Alt a b) prev s k <> None.
Proof.
  simpl. destruct (run a prev s k); [discriminate|congruence].
Qed.

Lemma alt_right (a b : re) (prev : option ascii) (s : string) (k : cont) :
  run b prev s k <> None -> run (Alt a b) prev s k <> None.
Proof.
  simpl. destruct (run a prev s k); [discriminate|auto].
Qed.

End Matching.

Lemma total_done : total (fun _ s' => Some s').
Proof. intros prev s. discriminate. Qed.

Lemma lower_classes (c : ascii) :
  Js.isLower c = true -> Js.isUpper c = false /\ Lodash.isMiscLower c = true.
Proof.
  destruct c as [[] [] [] [] [] [] [] []]; intros H; try discriminate H;
    split; reflexivity.
Qed.

Lemma name_char_classes (c : ascii) :
  InfrastructureStack.isNameChar c = true ->
  Lodash.isApos c = false
  /\ (Js.isAlnum c = true \/ (Js.isAlnum c = false /\ Lodash.isBreak c = true)).
Proof.
  destruct c as [[] [] [] [] [] [] [] []]; intros H; try discriminate H;
    vm_compute; auto.
Qed.

Lemma reUnicodeWord_finds : findsWords Lodash.reUnicodeWord.
Proof.
  split; [reflexivity|]. split.
  - intros prev c t.
    destruct c as [[] [] [] [] [] [] [] []]; intros H; try discriminate H;
      vm_compute; reflexivity.
  - intros prev c t H. unfold Js.isAlnum in H.
    apply orb_true_iff in H. destruct H as [H|Hdigit].
    apply orb_true_iff in H. destruct H as [Hlower|Hupper].
    + destruct (lower_classes c Hlower) as [Hupper Hmisc].
      unfold Regex.matchAt, Lodash.reUnicodeWord. cbn [Lodash.alts].
      apply alt_right, alt_right, alt_left.
      cbn [Lodash.seqs]. unfold Regex.Plus.
      cbn [Regex.run]. rewrite Hupper, Hmisc.
      apply (star_total Lodash.isMiscLower
               (fun prev' s' => Regex.run Lodash.rsOptContrLower prev' s'
                                  (fun _ s'' => Some s''))).
      apply opt_total, total_done.
    + unfold Regex.matchAt, Lodash.reUnicodeWord. cbn [Lodash.alts].
      apply alt_right, alt_right, alt_right, alt_left.
      cbn [Lodash.seqs]. unfold Regex.Plus.
      cbn [Regex.run]. rewrite Hupper.
      apply (star_total Js.isUpper
               (fun prev' s' => Regex.run Lodash.rsOptContrUpper prev' s'
                                  (fun _ s'' => Some s''))).
      apply opt_total, total_done.
    + unfold Regex.matchAt, Lodash.reUnicodeWord. cbn [Lodash.alts].
      do 6 apply alt_right.
      unfold Regex.Plus. cbn [Regex.run]. rewrite Hdigit.
      apply (star_total Js.isDigit (fun _ s' => Some s')), total_done.
Qed.

Lemma reAsciiWord_finds : findsWords Lodash.reAsciiWord.
Proof.
  split; [reflexivity|]. split.
  - intros prev c t H. apply matchAt_Plus. right. exists c, t.
    rewrite H. auto.
  - intros prev c t H Hnone. apply matchAt_Plus in Hnone.
    destruct Hnone as [Hnone | (c' & t' & Heq & Hbreak)]; [discriminate|].
    injection Heq as <- <-. revert H Hbreak.
    destruct c as [[] [] [] [] [] [] [] []]; intros H; try discriminate H;
      vm_compute; discriminate.
Qed.

(** The first word begins with the first letter or digit of the input. *)
Lemma matchAll_first (r : Regex.re) (s : string) :
  findsWords r ->
  allChars InfrastructureStack.isNameChar s = true ->
  forall prev,
    match firstChar Js.isAlnum s with
    | Some a => exists w ws, Regex.matchAllFrom r 0 prev s = String a w :: ws
    | None => Regex.matchAllFrom r 0 prev s = []
    end.
Proof.
  intros (Hnull & Hbreak & Halnum).
  induction s as [|c t IH]; intros Hall prev.
  - simpl. destruct (Regex.matchAt r prev "") as [rest|] eqn:E; [|reflexivity].
    apply matchAt_shrinks in E; [|assumption]. simpl in E. lia.
  - simpl in Hall. apply andb_true_iff in Hall. destruct Hall as [Hc Hall].
    destruct (name_char_classes c Hc) as [_ [Hyes | [Hno Hbr]]].
    + cbn [firstChar]. rewrite Hyes. cbn [Regex.matchAllFrom].
      destruct (Regex.matchAt r prev (String c t)) as [rest|] eqn:E.
      * pose proof (matchAt_shrinks r prev _ _ Hnull E) as Hlen.
        destruct (String.length (String c t) - String.length rest)%nat
          as [|n] eqn:En; [lia|].
        simpl. eauto.
      * exfalso. exact (Halnum prev c t Hyes E).
    + cbn [firstChar]. rewrite Hno. cbn [Regex.matchAllFrom].
      rewrite (Hbreak prev c t Hbr). apply (IH Hall).
Qed.

Lemma removeApos_name (s : string) :
  allChars InfrastructureStack.isNameChar s = true -> Lodash.removeApos s = s.
Proof.
  induction s as [|c t IH]; simpl; intros H; [reflexivity|].
  apply andb_true_iff in H. destruct H as [Hc Hall].
  destruct (name_char_classes c Hc) as [-> _]. now rewrite IH.
Qed.

Lemma compound_head (ws : list string) (index : nat) (a : ascii) (rest : string) :
  exists rest', Lodash.compound ws index (String a rest) = String a rest'.
Proof.
  revert index rest. induction ws as [|w ws IH]; intros index rest; simpl.
  - eauto.
  - apply IH.
Qed.

Lemma words_first (s : string) :
  allChars InfrastructureStack.isNameChar s = true ->
  match firstChar Js.isAlnum s with
  | Some a => exists w ws, Lodash.words s = String a w :: ws
  | None => Lodash.words s = []
  end.
Proof.
  intros H. unfold Lodash.words, Regex.matchAll.
  destruct (Regex.test Lodash.reHasUnicodeWord s).
  - apply matchAll_first; [apply reUnicodeWord_finds|assumption].
  - apply matchAll_first; [apply reAsciiWord_finds|assumption].
Qed.

(** [camelCase] of a name in the class starts with its first letter or digit,
    in lower case, and is empty when the name has neither. *)
Lemma camelCase_first (name : string) :
  allChars InfrastructureStack.isNameChar name = true ->
  match firstChar Js.isAlnum name with
  | Some a => exists rest, Lodash.camelCase name = String (Js.lowerChar a) rest
  | None => Lodash.camelCase name = ""
  end.
Proof.
  intros H. unfold Lodash.camelCase. rewrite removeApos_name by assumption.
  pose proof (words_first name H) as Hw.
  destruct (firstChar Js.isAlnum name) as [a|].
  - destruct Hw as (w & ws & ->). simpl. apply compound_head.
  - rewrite Hw. reflexivity.
Qed.

Lemma firstChar_some (p : ascii -> bool) (s : string) :
  anyChar p s = true -> exists a, firstChar p s = Some a /\ p a = true.
Proof.
  induction s as [|c t IH]; simpl; [discriminate|].
  destruct (p c) eqn:E; [eauto|]. simpl. exact IH.
Qed.

Lemma upper_of_lower (a : ascii) :
  Js.isAlnum a = true ->
  Js.upperChar (Js.lowerChar a) = Js.upperChar a
  /\ (Js.isDigit a = false -> Js.isUpper (Js.upperChar a) = true)
  /\ (Js.isDigit a = true -> Js.upperChar a = a).
Proof.
  destruct a as [[] [] [] [] [] [] [] []]; intros H; try discriminate H;
    vm_compute; repeat split; congruence.
Qed.

(** C2 (as the code has it): for a name in [[a-zA-Z0-9_.]+] that holds a
    letter or a digit, the identifier is derived without a fault and is not
    empty: [camelCase] of the name begins with the first letter or digit [a]
    of the name in lower case, and the identifier is [camelCase] of the name
    with that first character replaced by [a] in upper case, which is an
    upper-case letter when [a] is a letter and [a] itself when it is a
    digit. *)
Theorem C2_derived_identifier (name : string) :
  nameInCharset name = true ->
  anyChar Js.isAlnum name = true ->
  exists a rest,
    firstChar Js.isAlnum name = Some a
    /\ Lodash.camelCase name = String (Js.lowerChar a) rest
    /\ InfrastructureStack.cdkIdSafeDbName name
       = Js.Return (String (Js.upperChar a) rest)
    /\ (Js.isDigit a = false -> Js.isUpper (Js.upperChar a) = true)
    /\ (Js.isDigit a = true -> Js.upperChar a = a).
Proof.
  intros Hname Hany. unfold nameInCharset in Hname.
  apply andb_true_iff in Hname. destruct Hname as [Hall _].
  destruct (firstChar_some Js.isAlnum name Hany) as (a & Hfirst & Ha).
  pose proof (camelCase_first name Hall) as Hcamel. rewrite Hfirst in Hcamel.
  destruct Hcamel as (rest & Hcamel).
  destruct (upper_of_lower a Ha) as (Hup & Hletter & Hdigit).
  exists a, rest.
  split; [assumption|]. split; [assumption|]. split.
  - unfold InfrastructureStack.cdkIdSafeDbName. rewrite Hcamel.
    cbn. rewrite Hup. reflexivity.
  - split; assumption.
Qed.

Lemma C2_derived_identifier_witness :
  exists a rest,
    firstChar Js.isAlnum "elsa_data.v2" = Some a
    /\ Lodash.camelCase "elsa_data.v2" = String (Js.lowerChar a) rest
    /\ InfrastructureStack.cdkIdSafeDbName "elsa_data.v2"
       = Js.Return (String (Js.upperChar a) rest)
    /\ (Js.isDigit a = false -> Js.isUpper (Js.upperChar a) = true)
    /\ (Js.isDigit a = true -> Js.upperChar a = a).
Proof.
  apply (C2_derived_identifier "elsa_data.v2"); reflexivity.
Defined.

(** C2, as stated, fails: [1db] is in [[a-zA-Z0-9_.]+], and its identifier
    [1Db] does not begin with a letter in upper case. *)
Lemma C2_counterexample :
  nameInCharset "1db" = true
  /\ InfrastructureStack.cdkIdSafeDbName "1db" = Js.Return "1Db"
  /\ ~ (forall name,
          nameInCharset name = true ->
          exists c rest,
            InfrastructureStack.cdkIdSafeDbName name = Js.Return (String c rest)
            /\ Js.isUpper c = true).
Proof.
  split; [reflexivity|]. split; [reflexivity|].
  intros H. destruct (H "1db" eq_refl) as (c & rest & Hid & Hupper).
  vm_compute in Hid. injection Hid as <- _. discriminate Hupper.
Qed.

(** A name of [_] and [.] alone passes the check, yet has an empty
    [camelCase]: taking its first character throws. *)
Lemma cdkIdSafeDbName_throws (name : string) :
  nameInCharset name = true ->
  anyChar Js.isAlnum name = false ->
  Regex.test InfrastructureStack.reDatabaseName name = true
  /\ InfrastructureStack.cdkIdSafeDbName name
     = Js.Throw "TypeError: Cannot read properties of undefined (reading 'toUpperCase')".
Proof.
  intros Hname Hany. split; [now apply nameInCharset_passes|].
  unfold nameInCharset in Hname.
  apply andb_true_iff in Hname. destruct Hname as [Hall _].
  pose proof (camelCase_first name Hall) as Hcamel.
  assert (Hnone : firstChar Js.isAlnum name = None).
  { clear -Hany. induction name as [|c t IH]; simpl in *; [reflexivity|].
    apply orb_false_iff in Hany. destruct Hany as [-> Hany]. auto. }
  rewrite Hnone in Hcamel.
  unfold InfrastructureStack.cdkIdSafeDbName. rewrite Hcamel. reflexivity.
Qed.

(** * Further properties of the constructors *)

(** ** The outcome of the loop *)

Section Outcome.
Variable tokens : Cdk.Tokens.
Variables this id : string.
Variable secretsPrefix : option string.
Variable vpc : string.
Variables hz cert : option Cdk.ref.

Lemma provisionEdgeDb_outcome dbConfig safe baseDb st :
  exists added,
    InfrastructureStack.provisionEdgeDb tokens this id secretsPrefix vpc dbConfig safe
      baseDb hz cert st
    = (outcomeOf
         (if publicUiUnavailable hz cert (DatabaseConfig.edgeDb dbConfig)
          then Some InfrastructureStack.uiError else None),
       (st ++ added)%list).
Proof.
  destruct (DatabaseConfig.edgeDb dbConfig) as [e|] eqn:Hedge.
  - destruct (EdgeDbCommon.makePubliclyReachable e) as [p|] eqn:Hp.
    + destruct cert as [c|] eqn:Hc.
      * destruct hz as [z|] eqn:Hz.
        -- subst. destruct (provisionEdgeDb_run tokens this id secretsPrefix vpc
                      (Some z) (Some c) dbConfig e safe baseDb st Hedge)
             as (created & Hrun & _).
           { right. split; discriminate. }
           exists created. rewrite Hrun. simpl. rewrite Hp. reflexivity.
        -- subst. exists [].
           rewrite (provisionEdgeDb_throws tokens this id secretsPrefix vpc None
                      (Some c) dbConfig e p safe baseDb st Hedge Hp (or_intror eq_refl)).
           simpl. rewrite Hp, app_nil_r. reflexivity.
      * subst. exists [].
        rewrite (provisionEdgeDb_throws tokens this id secretsPrefix vpc hz None
                   dbConfig e p safe baseDb st Hedge Hp (or_introl eq_refl)).
        simpl. rewrite Hp, app_nil_r. reflexivity.
    + destruct (provisionEdgeDb_run tokens this id secretsPrefix vpc hz cert
                  dbConfig e safe baseDb st Hedge (or_introl Hp))
        as (created & Hrun & _).
      exists created. rewrite Hrun. simpl. rewrite Hp. reflexivity.
  - exists []. rewrite provisionEdgeDb_none by assumption.
    simpl. rewrite app_nil_r. reflexivity.
Qed.

(** The body of the loop ends as its first failing check says, and only adds
    to the store; the two checks made on the name alone add nothing. *)
Lemma provisionDatabase_outcome dbConfig st :
  exists added,
    InfrastructureStack.provisionDatabase tokens this id secretsPrefix vpc hz cert
      dbConfig st
    = (outcomeOf (firstFailure hz cert dbConfig), (st ++ added)%list)
    /\ (anyChar InfrastructureStack.isNameChar (DatabaseConfig.name dbConfig) = false
        \/ Lodash.camelCase (DatabaseConfig.name dbConfig) = "" ->
        added = []).
Proof.
  unfold firstFailure. cbv zeta.
  destruct (anyChar InfrastructureStack.isNameChar (DatabaseConfig.name dbConfig))
    eqn:Hany; cbn [negb].
  2:{ exists []. rewrite provisionDatabase_refuses by assumption.
      rewrite app_nil_r. auto. }
  pose proof Hany as Htest. rewrite <- name_check_unanchored in Htest.
  destruct (InfrastructureStack.cdkIdSafeDbName (DatabaseConfig.name dbConfig))
    as [safe|message] eqn:Hsafe.
  2:{ exists [].
      rewrite (provisionDatabase_no_identifier tokens this id secretsPrefix vpc hz
                 cert dbConfig message st Htest Hsafe).
      rewrite app_nil_r. auto. }
  assert (Hcamel : Lodash.camelCase (DatabaseConfig.name dbConfig) <> "").
  { intros H. unfold InfrastructureStack.cdkIdSafeDbName in Hsafe.
    rewrite H in Hsafe. discriminate. }
  destruct (knownPostgresType (DatabaseConfig.postgresType dbConfig)) eqn:Hknown;
    cbn [negb].
  2:{ eexists.
      rewrite (provisionDatabase_unknown tokens this id secretsPrefix vpc hz cert
                 dbConfig safe st Htest Hsafe Hknown).
      split; [reflexivity|]. intros [H|H]; congruence. }
  destruct (provisionDatabase_base tokens this id secretsPrefix vpc hz cert
              dbConfig safe st Htest Hsafe Hknown)
    as (baseDb & created & _ & Hrun).
  specialize (Hrun (DatabaseConfig.edgeDb dbConfig)).
  rewrite setEdgeDb_same in Hrun.
  destruct (provisionEdgeDb_outcome dbConfig safe baseDb (st ++ created)%list)
    as (more & Hedge).
  exists (created ++ more)%list. rewrite Hrun, Hedge, app_assoc.
  split; [|intros [H|H]; congruence].
  destruct (publicUiUnavailable hz cert (DatabaseConfig.edgeDb dbConfig));
    reflexivity.
Qed.

Lemma forEach_outcome databases st :
  exists added,
    InfrastructureStack.forEach tokens this id secretsPrefix vpc hz cert databases st
    = (outcomeOf (firstFailureIn hz cert databases), (st ++ added)%list).
Proof.
  revert st. induction databases as [|dbConfig rest IH]; intros st.
  - exists []. simpl. rewrite app_nil_r. reflexivity.
  - destruct (provisionDatabase_outcome dbConfig st) as (added & Hrun & _).
    cbn [InfrastructureStack.forEach firstFailureIn]. unfold Cdk.bind.
    rewrite Hrun.
    destruct (firstFailure hz cert dbConfig) as [message|]; simpl.
    + exists added. reflexivity.
    + destruct (IH (st ++ added)%list) as (more & Hrest).
      exists (added ++ more)%list. rewrite Hrest, app_assoc. reflexivity.
Qed.

Lemma forEach_app before after st :
  InfrastructureStack.forEach tokens this id secretsPrefix vpc hz cert
    (before ++ after)%list st
  = Cdk.bind
      (InfrastructureStack.forEach tokens this id secretsPrefix vpc hz cert before)
      (fun _ =>
         InfrastructureStack.forEach tokens this id secretsPrefix vpc hz cert after)
      st.
Proof.
  revert st. induction before as [|dbConfig rest IH]; intros st.
  - reflexivity.
  - cbn [app InfrastructureStack.forEach]. unfold Cdk.bind.
    destruct (InfrastructureStack.provisionDatabase tokens this id secretsPrefix
                vpc hz cert dbConfig st) as [[[]|message] st1].
    + rewrite IH. reflexivity.
    + reflexivity.
Qed.

End Outcome.

(** X2: a pass only adds to the store: whether it returns or throws, every
    construct that was there before is still there, unchanged and in place. *)
Theorem X2_pass_only_adds tokens this id secretsPrefix vpc hz cert databases st :
  exists added,
    snd (InfrastructureStack.provisionDatabases tokens this id secretsPrefix vpc hz cert
           databases st)
    = (st ++ added)%list.
Proof.
  destruct databases as [l|].
  - cbn [InfrastructureStack.provisionDatabases].
    destruct (forEach_outcome tokens this id secretsPrefix vpc hz cert l st)
      as (added & ->).
    exists added. reflexivity.
  - exists []. simpl. now rewrite app_nil_r.
Qed.

Lemma nameError_only_from_name_check hz cert dbConfig :
  firstFailure hz cert dbConfig
  = Some (InfrastructureStack.nameError (DatabaseConfig.name dbConfig)) ->
  anyChar InfrastructureStack.isNameChar (DatabaseConfig.name dbConfig) = false.
Proof.
  unfold firstFailure. cbv zeta.
  destruct (anyChar InfrastructureStack.isNameChar (DatabaseConfig.name dbConfig));
    [|reflexivity].
  cbn [negb]. unfold InfrastructureStack.cdkIdSafeDbName, Js.upperFirstOrThrow.
  destruct (Lodash.camelCase (DatabaseConfig.name dbConfig)); [discriminate|].
  destruct (knownPostgresType (DatabaseConfig.postgresType dbConfig));
    cbn [negb]; [|discriminate].
  destruct (publicUiUnavailable hz cert (DatabaseConfig.edgeDb dbConfig));
    discriminate.
Qed.

(** X4: the name check refuses a name exactly when no character of the name is
    in [[a-zA-Z0-9_.]] (the empty name among them), and then nothing has been
    created for the database. *)
Theorem X4_name_check tokens this id secretsPrefix vpc hz cert dbConfig st :
  (fst (InfrastructureStack.provisionDatabase tokens this id secretsPrefix vpc hz cert
          dbConfig st)
   = Js.Throw (InfrastructureStack.nameError (DatabaseConfig.name dbConfig))
   <-> anyChar InfrastructureStack.isNameChar (DatabaseConfig.name dbConfig) = false)
  /\ (anyChar InfrastructureStack.isNameChar (DatabaseConfig.name dbConfig) = false ->
      snd (InfrastructureStack.provisionDatabase tokens this id secretsPrefix vpc hz cert
             dbConfig st)
      = st).
Proof.
  split.
  - split.
    + destruct (provisionDatabase_outcome tokens this id secretsPrefix vpc hz cert
                  dbConfig st) as (added & -> & _).
      cbn [fst]. intros H. apply (nameError_only_from_name_check hz cert).
      destruct (firstFailure hz cert dbConfig); simpl in H; congruence.
    + intros H. rewrite provisionDatabase_refuses by assumption. reflexivity.
  - intros H. rewrite provisionDatabase_refuses by assumption. reflexivity.
Qed.

(** X5: a name made of [_] and [.] alone passes the name check, and the
    constructor then throws a [TypeError] on the empty [camelCase] of the
    name, before it has created anything. *)
Theorem X5_separator_name_throws tokens this id secretsPrefix vpc hz cert dbConfig st :
  nameInCharset (DatabaseConfig.name dbConfig) = true ->
  anyChar Js.isAlnum (DatabaseConfig.name dbConfig) = false ->
  InfrastructureStack.provisionDatabase tokens this id secretsPrefix vpc hz cert
    dbConfig st
  = (Js.Throw "TypeError: Cannot read properties of undefined (reading 'toUpperCase')",
     st).
Proof.
  intros Hname Hany.
  destruct (cdkIdSafeDbName_throws _ Hname Hany) as [Htest Hthrow].
  now apply provisionDatabase_no_identifier.
Qed.

Lemma X5_separator_name_throws_witness :
  InfrastructureStack.provisionDatabase Samples.tokens "Stack" "stk" (Some "Elsa") "VPC"
    None None (Samples.database "_._" "postgres-instance" None) []
  = (Js.Throw "TypeError: Cannot read properties of undefined (reading 'toUpperCase')",
     []).
Proof.
  apply (X5_separator_name_throws Samples.tokens "Stack" "stk" (Some "Elsa") "VPC"
           None None (Samples.database "_._" "postgres-instance" None) []);
    reflexivity.
Defined.

(** ** The constructs of one database *)

Lemma firstFailure_none hz cert dbConfig :
  firstFailure hz cert dbConfig = None ->
  Regex.test InfrastructureStack.reDatabaseName (DatabaseConfig.name dbConfig) = true
  /\ (exists safe,
        InfrastructureStack.cdkIdSafeDbName (DatabaseConfig.name dbConfig)
        = Js.Return safe)
  /\ knownPostgresType (DatabaseConfig.postgresType dbConfig) = true
  /\ publicUiUnavailable hz cert (DatabaseConfig.edgeDb dbConfig) = false.
Proof.
  unfold firstFailure. cbv zeta. rewrite name_check_unanchored.
  destruct (anyChar InfrastructureStack.isNameChar (DatabaseConfig.name dbConfig));
    cbn [negb]; [|discriminate].
  destruct (InfrastructureStack.cdkIdSafeDbName (DatabaseConfig.name dbConfig))
    as [safe|]; [|discriminate].
  destruct (knownPostgresType (DatabaseConfig.postgresType dbConfig));
    cbn [negb]; [|discriminate].
  destruct (publicUiUnavailable hz cert (DatabaseConfig.edgeDb dbConfig));
    [discriminate|].
  intros _. eauto.
Qed.

Lemma firstFailureIn_none hz cert databases :
  firstFailureIn hz cert databases = None ->
  Forall (fun dbConfig => firstFailure hz cert dbConfig = None) databases.
Proof.
  induction databases as [|dbConfig rest IH]; simpl; intros H; [constructor|].
  destruct (firstFailure hz cert dbConfig) eqn:E; [discriminate|].
  constructor; auto.
Qed.

(** A body of the loop that returns has passed every check. *)
Lemma provisionDatabase_returned
    tokens this id secretsPrefix vpc hz cert dbConfig st st' :
  InfrastructureStack.provisionDatabase tokens this id secretsPrefix vpc hz cert dbConfig st
  = (Js.Return tt, st') ->
  firstFailure hz cert dbConfig = None.
Proof.
  intros Hrun.
  destruct (provisionDatabase_outcome tokens this id secretsPrefix vpc hz cert
              dbConfig st) as (added & Hout & _).
  rewrite Hrun in Hout.
  destruct (firstFailure hz cert dbConfig); [discriminate|reflexivity].
Qed.

(** X1: a pass returns only if every database passes the four checks of the
    body of the loop: its name holds a character of [[a-zA-Z0-9_.]], the
    [camelCase] of its name is not empty, its [postgresType] is one of the
    two known classes, and a public UI is asked for only with a certificate
    and a hosted zone at hand. *)
Theorem X1_pass_returns_only_if_checks_pass
    tokens this id secretsPrefix vpc hz cert databases st st' :
  InfrastructureStack.provisionDatabases tokens this id secretsPrefix vpc hz cert
    (Some databases) st
  = (Js.Return tt, st') ->
  Forall
    (fun dbConfig =>
       anyChar InfrastructureStack.isNameChar (DatabaseConfig.name dbConfig) = true
       /\ Lodash.camelCase (DatabaseConfig.name dbConfig) <> ""
       /\ (DatabaseConfig.postgresType dbConfig = "postgres-instance"
           \/ DatabaseConfig.postgresType dbConfig = "postgres-serverless-2")
       /\ forall e p,
            DatabaseConfig.edgeDb dbConfig = Some e ->
            EdgeDbCommon.makePubliclyReachable e = Some p ->
            cert <> None /\ hz <> None)
    databases.
Proof.
  cbn [InfrastructureStack.provisionDatabases]. intros Hrun.
  destruct (forEach_outcome tokens this id secretsPrefix vpc hz cert databases st)
    as (added & Hout).
  rewrite Hrun in Hout.
  assert (Hnone : firstFailureIn hz cert databases = None).
  { destruct (firstFailureIn hz cert databases); [discriminate|reflexivity]. }
  apply firstFailureIn_none in Hnone.
  apply Forall_impl with (2 := Hnone).
  intros dbConfig Hok.
  destruct (firstFailure_none hz cert dbConfig Hok)
    as (Htest & (safe & Hsafe) & Hknown & Hpublic).
  rewrite name_check_unanchored in Htest.
  split; [assumption|]. split.
  - intros H. unfold InfrastructureStack.cdkIdSafeDbName in Hsafe.
    rewrite H in Hsafe. discriminate.
  - split.
    + unfold knownPostgresType in Hknown. apply orb_true_iff in Hknown.
      destruct Hknown as [H|H]; apply String.eqb_eq in H; auto.
    + intros e p He Hp. unfold publicUiUnavailable in Hpublic.
      rewrite He, Hp in Hpublic.
      destruct cert, hz; try discriminate. split; discriminate.
Qed.

Lemma X1_pass_returns_only_if_checks_pass_witness :
  Forall
    (fun dbConfig =>
       anyChar InfrastructureStack.isNameChar (DatabaseConfig.name dbConfig) = true
       /\ Lodash.camelCase (DatabaseConfig.name dbConfig) <> ""
       /\ (DatabaseConfig.postgresType dbConfig = "postgres-instance"
           \/ DatabaseConfig.postgresType dbConfig = "postgres-serverless-2")
       /\ forall e p,
            DatabaseConfig.edgeDb dbConfig = Some e ->
            EdgeDbCommon.makePubliclyReachable e = Some p ->
            Some 1%nat <> None /\ Some 0%nat <> None)
    [Samples.withUi; Samples.reporting].
Proof.
  apply (X1_pass_returns_only_if_checks_pass Samples.tokens "Stack" "stk"
           (Some "Elsa") "VPC" (Some 0%nat) (Some 1%nat)
           [Samples.withUi; Samples.reporting] []
           (snd (InfrastructureStack.provisionDatabases Samples.tokens "Stack" "stk"
                   (Some "Elsa") "VPC" (Some 0%nat) (Some 1%nat)
                   (Some [Samples.withUi; Samples.reporting]) []))).
  vm_compute. reflexivity.
Defined.

(** X3: a database that fails one of the checks of the body ends the pass:
    the pass does not return, and the databases after the failing one are
    never looked at, so that the pass is the pass over the list cut after
    that database. *)
Theorem X3_pass_stops_at_first_failure
    tokens this id secretsPrefix vpc hz cert before dbConfig after message st :
  firstFailure hz cert dbConfig = Some message ->
  InfrastructureStack.forEach tokens this id secretsPrefix vpc hz cert
    (before ++ dbConfig :: after)%list st
  = InfrastructureStack.forEach tokens this id secretsPrefix vpc hz cert
      (before ++ [dbConfig])%list st
  /\ fst (InfrastructureStack.forEach tokens this id secretsPrefix vpc hz cert
            (before ++ dbConfig :: after)%list st)
     <> Js.Return tt.
Proof.
  intros Hfail.
  assert (Hstop : forall rest,
    InfrastructureStack.forEach tokens this id secretsPrefix vpc hz cert
      (before ++ dbConfig :: rest)%list st
    = match InfrastructureStack.forEach tokens this id secretsPrefix vpc hz cert
              before st with
      | (Js.Return _, st1) =>
          InfrastructureStack.provisionDatabase tokens this id secretsPrefix vpc
            hz cert dbConfig st1
      | (Js.Throw e, st1) => (Js.Throw e, st1)
      end).
  { intros rest. rewrite forEach_app. unfold Cdk.bind at 1.
    destruct (InfrastructureStack.forEach tokens this id secretsPrefix vpc hz cert
                before st) as [[[]|e] st1]; [|reflexivity].
    cbn [InfrastructureStack.forEach]. unfold Cdk.bind.
    destruct (provisionDatabase_outcome tokens this id secretsPrefix vpc hz cert
                dbConfig st1) as (more & Hdb & _).
    rewrite Hdb, Hfail. reflexivity. }
  split.
  - rewrite (Hstop after), (Hstop []). reflexivity.
  - rewrite (Hstop after).
    destruct (InfrastructureStack.forEach tokens this id secretsPrefix vpc hz cert
                before st) as [[[]|e] st1]; [|discriminate].
    destruct (provisionDatabase_outcome tokens this id secretsPrefix vpc hz cert
                dbConfig st1) as (more & Hdb & _).
    rewrite Hdb, Hfail. discriminate.
Qed.

Lemma X3_pass_stops_at_first_failure_witness :
  InfrastructureStack.forEach Samples.tokens "Stack" "stk" (Some "Elsa") "VPC" None None
    ([Samples.analytics] ++ Samples.database "" "postgres-instance" None
       :: [Samples.reporting])%list []
  = InfrastructureStack.forEach Samples.tokens "Stack" "stk" (Some "Elsa") "VPC" None None
      ([Samples.analytics] ++ [Samples.database "" "postgres-instance" None])%list []
  /\ fst (InfrastructureStack.forEach Samples.tokens "Stack" "stk" (Some "Elsa") "VPC"
            None None
            ([Samples.analytics] ++ Samples.database "" "postgres-instance" None
               :: [Samples.reporting])%list [])
     <> Js.Return tt.
Proof.
  apply (X3_pass_stops_at_first_failure Samples.tokens "Stack" "stk" (Some "Elsa")
           "VPC" None None [Samples.analytics]
           (Samples.database "" "postgres-instance" None) [Samples.reporting]
           (InfrastructureStack.nameError "") []); reflexivity.
Defined.

Section Stores.
Variable tokens : Cdk.Tokens.
Variables this id : string.
Variable secretsPrefix : option string.
Variable vpc : string.
Variables hz cert : option Cdk.ref.

Lemma publishBaseDatabase_store dbConfig safe baseDb secretPath st :
  InfrastructureStack.publishBaseDatabase tokens this id dbConfig safe baseDb
    secretPath st
  = (Js.Return tt,
     (st ++
      map (fun entry : string * string * string =>
             Cdk.StringParameter
               (Cdk.child this (safe ++ "Database" ++ fst (fst entry) ++ "Parameter"))
               (InfrastructureStack.databaseParameterName id
                  (DatabaseConfig.name dbConfig) (snd (fst entry)))
               (snd entry))
        [("DsnWithPassword", "dsnWithPassword", Cdk.dsnWithTokens baseDb);
         ("DsnNoPassword", "dsnNoPassword", Cdk.dsnNoPassword baseDb);
         ("Hostname", "hostname", Cdk.hostname baseDb);
         ("Port", "port", Js.numberToString (Cdk.port baseDb));
         ("AdminUser", "adminUser", DatabaseConfig.adminUser dbConfig);
         ("AdminPasswordSecretArn", "adminPasswordSecretArn",
          Cdk.secretArn tokens secretPath);
         ("SecurityGroupId", "securityGroupId", Cdk.securityGroupId baseDb)])%list).
Proof.
  unfold InfrastructureStack.publishBaseDatabase, InfrastructureStack.parameter,
    Cdk.bind, Cdk.new, Cdk.ret.
  cbv zeta. repeat rewrite <- app_assoc. reflexivity.
Qed.

(** The store after a database of the instance class, up to its EdgeDb
    layer. *)
Lemma provisionDatabase_instance_store dbConfig safe st :
  Regex.test InfrastructureStack.reDatabaseName (DatabaseConfig.name dbConfig) = true ->
  InfrastructureStack.cdkIdSafeDbName (DatabaseConfig.name dbConfig) = Js.Return safe ->
  DatabaseConfig.postgresType dbConfig = "postgres-instance" ->
  let secretPath := Cdk.child this (safe ++ "Secret") in
  let secret :=
    Cdk.Secret secretPath
      (InfrastructureStack.baseDbSecretProps secretsPrefix dbConfig safe) in
  let props :=
    InfrastructureStack.baseDatabaseProps vpc dbConfig (List.length st) secretPath in
  let group := S (List.length st) in
  let instance := Cdk.child this "DatabaseInstance" in
  let baseDb :=
    {| Cdk.dsnWithTokens := InstanceBaseDatabase.dsnWithTokensOf tokens props instance;
       Cdk.dsnNoPassword := InstanceBaseDatabase.dsnNoPasswordOf tokens props instance;
       Cdk.hostname := Cdk.endpointHostname tokens instance;
       Cdk.port := Cdk.endpointPort tokens instance;
       Cdk.securityGroupId :=
         Cdk.groupId tokens (Cdk.child this "DatabaseSecurityGroup") |} in
  exists published more,
    InfrastructureStack.publishBaseDatabase tokens this id dbConfig safe baseDb
      secretPath [] = (Js.Return tt, published)
    /\ snd (InfrastructureStack.provisionDatabase tokens this id secretsPrefix vpc
              hz cert dbConfig st)
       = (st ++
          secret
          :: Cdk.SecurityGroup (Cdk.child this "DatabaseSecurityGroup")
               (InstanceBaseDatabase.securityGroupProps props)
               [{| Cdk.rulePeer := InstanceBaseDatabase.ingressPeer props group;
                   Cdk.rulePort := Cdk.Tcp (Cdk.endpointPort tokens instance) |}]
          :: Cdk.DatabaseInstance instance
               (InstanceBaseDatabase.databaseInstanceProps props group)
          :: published ++ more)%list.
Proof.
  intros Htest Hsafe Hty secretPath secret props group instance baseDb.
  pose proof (publishBaseDatabase_store dbConfig safe baseDb secretPath []) as Hpub.
  cbn [app] in Hpub.
  match type of Hpub with _ = (_, ?l) => exists l end.
  cut (exists more,
    snd (InfrastructureStack.provisionDatabase tokens this id secretsPrefix vpc
           hz cert dbConfig st)
    = (st ++
       secret
       :: Cdk.SecurityGroup (Cdk.child this "DatabaseSecurityGroup")
            (InstanceBaseDatabase.securityGroupProps props)
            [{| Cdk.rulePeer := InstanceBaseDatabase.ingressPeer props group;
                Cdk.rulePort := Cdk.Tcp (Cdk.endpointPort tokens instance) |}]
       :: Cdk.DatabaseInstance instance
            (InstanceBaseDatabase.databaseInstanceProps props group)
       :: snd (InfrastructureStack.publishBaseDatabase tokens this id dbConfig safe
                 baseDb secretPath [])
          ++ more)%list).
  { intros (more & Hmore). exists more. split; [exact Hpub|].
    rewrite Hmore, Hpub. reflexivity. }
  clear Hpub.
  unfold InfrastructureStack.provisionDatabase.
  rewrite Htest, Hsafe. cbn [negb].
  unfold Cdk.bind at 1. unfold Cdk.lift.
  unfold Cdk.bind at 1. unfold Cdk.new at 1.
  unfold Cdk.bind at 1.
  unfold InfrastructureStack.newBaseDatabase. rewrite Hty.
  cbn [String.eqb Ascii.eqb Bool.eqb andb]. cbv zeta.
  unfold Cdk.bind at 1. rewrite instance_constructor_run.
  unfold Cdk.ret at 1. unfold Cdk.bind at 1.
  rewrite publishBaseDatabase_store.
  match goal with
  | |- context [InfrastructureStack.provisionEdgeDb _ _ _ _ _ ?c ?s ?b _ _ ?st1] =>
      destruct (provisionEdgeDb_outcome tokens this id secretsPrefix vpc hz cert
                  c s b st1) as (more & ->)
  end.
  exists more. rewrite publishBaseDatabase_store.
  cbn [snd]. rewrite last_length. fold secretPath. fold secret. fold props.
  fold group. fold instance.
  repeat rewrite <- app_assoc. cbn [app]. reflexivity.
Qed.

Lemma edgeDb_constructor_store scope name props st :
  let here := Cdk.child scope name in
  EdgeDbConstruct.constructor tokens scope name props st
  = (Js.Return
       {| EdgeDbConstruct._dsn :=
            EdgeDbConstruct.dsnOf tokens props
              (Cdk.child here "EdgeDbLoadBalancerProtocol");
          EdgeDbConstruct._edgeDbPasswordSecret := Cdk.child here "EdgeDbSecret";
          EdgeDbConstruct._edgeDbSecurityGroup :=
            Cdk.groupId tokens (Cdk.child here "EdgeDbService") |},
     (st ++
      Cdk.Secret (Cdk.child here "EdgeDbSecret") (EdgeDbConstruct.secretProps props)
      :: Cdk.EdgeDbServiceConstruct (Cdk.child here "EdgeDbService")
           (EdgeDbConstruct.edgeDbService props) (List.length st)
      :: Cdk.EdgeDbLoadBalancerProtocolConstruct
           (Cdk.child here "EdgeDbLoadBalancerProtocol")
           (EdgeDbConstruct.edgeDbLoadBalancerProtocol props) (S (List.length st))
      :: Cdk.CfnOutput (Cdk.child here "EdgeDbDsnNoPasswordOrDatabase")
           (EdgeDbConstruct.dsnOf tokens props
              (Cdk.child here "EdgeDbLoadBalancerProtocol"))
      :: match EdgeDbConstruct.edgeDbLoadBalancerUi props with
         | Some ui =>
             [Cdk.EdgeDbLoadBalancerUiConstruct
                (Cdk.child here "EdgeDbLoadBalancerUi") ui (S (List.length st));
              Cdk.CfnOutput (Cdk.child here "EdgeDbUiUrl")
                (EdgeDbConstruct.uiUrlOf tokens ui
                   (Cdk.child here "EdgeDbLoadBalancerUi"))]
         | None => []
         end)%list).
Proof.
  unfold EdgeDbConstruct.constructor, Cdk.bind, Cdk.new, Cdk.ret. cbv zeta.
  destruct (EdgeDbConstruct.edgeDbLoadBalancerUi props) as [ui|];
    rewrite ?last_length; repeat rewrite <- app_assoc; reflexivity.
Qed.

(** The store after the EdgeDb block, when its check passes. *)
Lemma provisionEdgeDb_store dbConfig e safe baseDb st :
  DatabaseConfig.edgeDb dbConfig = Some e ->
  publicUiUnavailable hz cert (Some e) = false ->
  let props :=
    InfrastructureStack.edgeDbProps secretsPrefix vpc dbConfig e safe baseDb hz cert in
  let here := Cdk.child this (safe ++ "EdgeDb") in
  InfrastructureStack.provisionEdgeDb tokens this id secretsPrefix vpc dbConfig
    safe baseDb hz cert st
  = (Js.Return tt,
     (snd (EdgeDbConstruct.constructor tokens this (safe ++ "EdgeDb") props st)
      ++
      [Cdk.StringParameter
         (Cdk.child this (safe ++ "DatabaseEdgeDbDsnNoPasswordOrDatabaseParameter"))
         (Shared.databaseEdgeDbDsnNoPasswordOrDatabaseParameterName id
            (DatabaseConfig.name dbConfig))
         (EdgeDbConstruct.dsnOf tokens props
            (Cdk.child here "EdgeDbLoadBalancerProtocol"));
       Cdk.StringParameter
         (Cdk.child this (safe ++ "DatabaseEdgeDbAdminPasswordSecretArnParameter"))
         (Shared.databaseEdgeDbAdminPasswordSecretArnParameterName id
            (DatabaseConfig.name dbConfig))
         (Cdk.secretArn tokens (Cdk.child here "EdgeDbSecret"));
       Cdk.StringParameter
         (Cdk.child this (safe ++ "DatabaseEdgeDbSecurityGroupIdParameter"))
         (Shared.databaseEdgeDbSecurityGroupIdParameterName id
            (DatabaseConfig.name dbConfig))
         (Cdk.groupId tokens (Cdk.child here "EdgeDbService"))])%list).
Proof.
  intros Hedge Hui props here.
  pose proof (edgeDb_constructor_store this (safe ++ "EdgeDb") props st) as Hrun.
  cbv zeta in Hrun. fold here in Hrun.
  unfold InfrastructureStack.provisionEdgeDb. rewrite Hedge.
  assert (Hcheck :
    match EdgeDbCommon.makePubliclyReachable e, cert, hz with
    | Some _, None, _ | Some _, _, None => Cdk.throw InfrastructureStack.uiError
    | _, _, _ => Cdk.ret tt
    end = Cdk.ret tt).
  { unfold publicUiUnavailable in Hui.
    destruct (EdgeDbCommon.makePubliclyReachable e), cert, hz;
      try reflexivity; discriminate. }
  rewrite Hcheck.
  unfold Cdk.bind at 1. unfold Cdk.ret at 1.
  unfold Cdk.bind at 1. fold props. rewrite Hrun.
  unfold InfrastructureStack.parameter, Cdk.bind, Cdk.new, Cdk.ret.
  cbn [EdgeDbConstruct.dsnForEnvironmentVariable EdgeDbConstruct.passwordSecret
       EdgeDbConstruct.securityGroup EdgeDbConstruct._dsn
       EdgeDbConstruct._edgeDbPasswordSecret EdgeDbConstruct._edgeDbSecurityGroup snd].
  repeat rewrite <- app_assoc. reflexivity.
Qed.

End Stores.

Lemma nth_error_after_length (st : Cdk.store) (a b : Cdk.construct)
    (rest : Cdk.store) :
  nth_error (st ++ a :: b :: rest)%list (S (List.length st)) = Some b.
Proof.
  induction st as [|x st IH]; simpl; [reflexivity|assumption].
Qed.

(** X6: for a database of the instance class, the host name and the port
    published as parameters are the ones inside both published DSNs, and the
    port is the one that the ingress rule of the group opens. *)
Theorem X6_published_endpoint
    tokens this id secretsPrefix vpc hz cert dbConfig safe st :
  Regex.test InfrastructureStack.reDatabaseName (DatabaseConfig.name dbConfig) = true ->
  InfrastructureStack.cdkIdSafeDbName (DatabaseConfig.name dbConfig) = Js.Return safe ->
  DatabaseConfig.postgresType dbConfig = "postgres-instance" ->
  let key :=
    InfrastructureStack.databaseParameterName id (DatabaseConfig.name dbConfig) in
  let st' :=
    snd (InfrastructureStack.provisionDatabase tokens this id secretsPrefix vpc hz cert
           dbConfig st) in
  exists host port principal group peer,
    In (Cdk.StringParameter (Cdk.child this (safe ++ "DatabaseHostnameParameter"))
          (key "hostname") host) st'
    /\ In (Cdk.StringParameter (Cdk.child this (safe ++ "DatabasePortParameter"))
             (key "port") (Js.numberToString port)) st'
    /\ In (Cdk.StringParameter
             (Cdk.child this (safe ++ "DatabaseDsnNoPasswordParameter"))
             (key "dsnNoPassword")
             ("postgres://" ++ DatabaseConfig.databaseAdminUser dbConfig ++ "@"
              ++ host ++ ":" ++ Js.numberToString port ++ "/"
              ++ DatabaseConfig.name dbConfig)) st'
    /\ In (Cdk.StringParameter
             (Cdk.child this (safe ++ "DatabaseDsnWithPasswordParameter"))
             (key "dsnWithPassword")
             ("postgres://" ++ principal ++ "@"
              ++ host ++ ":" ++ Js.numberToString port ++ "/"
              ++ DatabaseConfig.name dbConfig)) st'
    /\ In (Cdk.SecurityGroup (Cdk.child this "DatabaseSecurityGroup") group
             [{| Cdk.rulePeer := peer; Cdk.rulePort := Cdk.Tcp port |}]) st'.
Proof.
  intros Htest Hsafe Hty key st'.
  destruct (provisionDatabase_instance_store tokens this id secretsPrefix vpc hz cert
              dbConfig safe st Htest Hsafe Hty)
    as (published & more & Hpub & Hstore).
  rewrite publishBaseDatabase_store in Hpub. injection Hpub as <-.
  unfold st'. rewrite Hstore.
  exists (Cdk.endpointHostname tokens (Cdk.child this "DatabaseInstance")),
         (Cdk.endpointPort tokens (Cdk.child this "DatabaseInstance")),
         (Cdk.secretValueFromJson tokens (Cdk.child this (safe ++ "Secret")) "username"
          ++ ":"
          ++ Cdk.secretValueFromJson tokens (Cdk.child this (safe ++ "Secret")) "password").
  eexists. eexists.
  repeat split; apply in_or_app; right.
  - simpl. auto 10.
  - simpl. auto 10.
  - simpl. auto 10.
  - cbn [map fst snd app In Cdk.dsnWithTokens].
    unfold InstanceBaseDatabase.dsnWithTokensOf. cbn [Cdk.bsecretPath Cdk.bdatabaseName
      InfrastructureStack.baseDatabaseProps].
    rewrite !append_assoc. auto 10.
  - simpl. auto.
Qed.

Lemma X6_published_endpoint_witness :
  let st' :=
    snd (InfrastructureStack.provisionDatabase Samples.tokens "Stack" "stk" (Some "Elsa")
           "VPC" None None Samples.analytics []) in
  exists host port principal group peer,
    In (Cdk.StringParameter "Stack/AnalyticsDatabaseHostnameParameter"
          "/stk/Database/analytics/hostname" host) st'
    /\ In (Cdk.StringParameter "Stack/AnalyticsDatabasePortParameter"
             "/stk/Database/analytics/port" (Js.numberToString port)) st'
    /\ In (Cdk.StringParameter "Stack/AnalyticsDatabaseDsnNoPasswordParameter"
             "/stk/Database/analytics/dsnNoPassword"
             ("postgres://" ++ "admin" ++ "@" ++ host ++ ":" ++ Js.numberToString port
              ++ "/" ++ "analytics")) st'
    /\ In (Cdk.StringParameter "Stack/AnalyticsDatabaseDsnWithPasswordParameter"
             "/stk/Database/analytics/dsnWithPassword"
             ("postgres://" ++ principal ++ "@" ++ host ++ ":" ++ Js.numberToString port
              ++ "/" ++ "analytics")) st'
    /\ In (Cdk.SecurityGroup "Stack/DatabaseSecurityGroup" group
             [{| Cdk.rulePeer := peer; Cdk.rulePort := Cdk.Tcp port |}]) st'.
Proof.
  apply (X6_published_endpoint Samples.tokens "Stack" "stk" (Some "Elsa") "VPC"
           None None Samples.analytics "Analytics" []); reflexivity.
Defined.

(** X7: for a database of the instance class, the secret whose ARN is
    published is the secret just created for it and the one the instance
    takes its credentials from; the only group of the instance is the group
    just created, whose id is published; and the user name put into the
    secret is the published admin user. *)
Theorem X7_instance_wiring
    tokens this id secretsPrefix vpc hz cert dbConfig safe st :
  Regex.test InfrastructureStack.reDatabaseName (DatabaseConfig.name dbConfig) = true ->
  InfrastructureStack.cdkIdSafeDbName (DatabaseConfig.name dbConfig) = Js.Return safe ->
  DatabaseConfig.postgresType dbConfig = "postgres-instance" ->
  let key :=
    InfrastructureStack.databaseParameterName id (DatabaseConfig.name dbConfig) in
  let st' :=
    snd (InfrastructureStack.provisionDatabase tokens this id secretsPrefix vpc hz cert
           dbConfig st) in
  exists secret secretPath secretProps group groupPath groupProps rules instance props,
    nth_error st' secret = Some (Cdk.Secret secretPath secretProps)
    /\ nth_error st' group = Some (Cdk.SecurityGroup groupPath groupProps rules)
    /\ In (Cdk.DatabaseInstance instance props) st'
    /\ Cdk.credentials props = secret
    /\ Cdk.securityGroups props = [group]
    /\ Cdk.secretStringTemplate secretProps
       = Some [("username", DatabaseConfig.adminUser dbConfig); ("password", "")]
    /\ Cdk.generateStringKey secretProps = Some "password"
    /\ In (Cdk.StringParameter
             (Cdk.child this (safe ++ "DatabaseAdminPasswordSecretArnParameter"))
             (key "adminPasswordSecretArn") (Cdk.secretArn tokens secretPath)) st'
    /\ In (Cdk.StringParameter
             (Cdk.child this (safe ++ "DatabaseSecurityGroupIdParameter"))
             (key "securityGroupId") (Cdk.groupId tokens groupPath)) st'
    /\ In (Cdk.StringParameter (Cdk.child this (safe ++ "DatabaseAdminUserParameter"))
             (key "adminUser") (DatabaseConfig.adminUser dbConfig)) st'.
Proof.
  intros Htest Hsafe Hty key st'.
  destruct (provisionDatabase_instance_store tokens this id secretsPrefix vpc hz cert
              dbConfig safe st Htest Hsafe Hty)
    as (published & more & Hpub & Hstore).
  rewrite publishBaseDatabase_store in Hpub. injection Hpub as <-.
  unfold st'. rewrite Hstore.
  exists (List.length st). eexists. eexists.
  exists (S (List.length st)). eexists. eexists. eexists. eexists. eexists.
  split; [apply nth_error_at_length|]. split.
  { apply nth_error_after_length. }
  split; [apply in_or_app; right; simpl; auto|].
  split; [reflexivity|]. split; [reflexivity|].
  split; [reflexivity|]. split; [reflexivity|].
  repeat split; apply in_or_app; right; simpl; auto 12.
Qed.

Lemma X7_instance_wiring_witness :
  let st' :=
    snd (InfrastructureStack.provisionDatabase Samples.tokens "Stack" "stk" (Some "Elsa")
           "VPC" None None Samples.analytics []) in
  exists secret secretPath secretProps group groupPath groupProps rules instance props,
    nth_error st' secret = Some (Cdk.Secret secretPath secretProps)
    /\ nth_error st' group = Some (Cdk.SecurityGroup groupPath groupProps rules)
    /\ In (Cdk.DatabaseInstance instance props) st'
    /\ Cdk.credentials props = secret
    /\ Cdk.securityGroups props = [group]
    /\ Cdk.secretStringTemplate secretProps = Some [("username", "admin"); ("password", "")]
    /\ Cdk.generateStringKey secretProps = Some "password"
    /\ In (Cdk.StringParameter "Stack/AnalyticsDatabaseAdminPasswordSecretArnParameter"
             "/stk/Database/analytics/adminPasswordSecretArn"
             (Cdk.secretArn Samples.tokens secretPath)) st'
    /\ In (Cdk.StringParameter "Stack/AnalyticsDatabaseSecurityGroupIdParameter"
             "/stk/Database/analytics/securityGroupId"
             (Cdk.groupId Samples.tokens groupPath)) st'
    /\ In (Cdk.StringParameter "Stack/AnalyticsDatabaseAdminUserParameter"
             "/stk/Database/analytics/adminUser" "admin") st'.
Proof.
  apply (X7_instance_wiring Samples.tokens "Stack" "stk" (Some "Elsa") "VPC"
           None None Samples.analytics "Analytics" []); reflexivity.
Defined.

(** ** The EdgeDb layer of one database *)

Lemma outputsOf_app (a b : Cdk.store) :
  outputsOf (a ++ b)%list = (outputsOf a ++ outputsOf b)%list.
Proof.
  induction a as [|c a IH]; [reflexivity|].
  destruct c; simpl; rewrite IH; reflexivity.
Qed.

Lemma uiLoadBalancersOf_app (a b : Cdk.store) :
  uiLoadBalancersOf (a ++ b)%list = (uiLoadBalancersOf a ++ uiLoadBalancersOf b)%list.
Proof.
  induction a as [|c a IH]; [reflexivity|].
  destruct c; simpl; rewrite IH; reflexivity.
Qed.

Section Layers.
Variable tokens : Cdk.Tokens.
Variables this id : string.
Variable secretsPrefix : option string.
Variable vpc : string.
Variables hz cert : option Cdk.ref.

Lemma newBaseDatabase_store dbConfig safe secret secretPath st :
  knownPostgresType (DatabaseConfig.postgresType dbConfig) = true ->
  exists baseDb created,
    InfrastructureStack.newBaseDatabase tokens this vpc dbConfig safe secret
      secretPath st
    = (Js.Return baseDb, (st ++ created)%list)
    /\ outputsOf created = []
    /\ uiLoadBalancersOf created = []
    /\ Forall (fun c => match c with
                        | Cdk.SecurityGroup _ _ _ | Cdk.DatabaseInstance _ _
                        | Cdk.ServerlessBaseDatabase _ _ => True
                        | _ => False
                        end) created.
Proof.
  unfold knownPostgresType, InfrastructureStack.newBaseDatabase.
  cbv zeta. intros H.
  destruct (String.eqb (DatabaseConfig.postgresType dbConfig) "postgres-instance").
  - unfold Cdk.bind. rewrite instance_constructor_run. unfold Cdk.ret.
    eexists. eexists. split; [reflexivity|]. repeat split; repeat constructor.
  - simpl in H. rewrite H. unfold Cdk.bind, Cdk.new, Cdk.ret.
    eexists. eexists. split; [reflexivity|]. repeat split; repeat constructor.
Qed.

(** A database that passes every check: its secret, its base database, its
    seven parameters, and then the EdgeDb block. *)
Lemma provisionDatabase_layers dbConfig st :
  firstFailure hz cert dbConfig = None ->
  exists safe baseDb dbs,
    InfrastructureStack.cdkIdSafeDbName (DatabaseConfig.name dbConfig) = Js.Return safe
    /\ outputsOf dbs = []
    /\ uiLoadBalancersOf dbs = []
    /\ InfrastructureStack.provisionDatabase tokens this id secretsPrefix vpc hz cert
         dbConfig st
       = InfrastructureStack.provisionEdgeDb tokens this id secretsPrefix vpc dbConfig
           safe baseDb hz cert
           (st ++
            Cdk.Secret (Cdk.child this (safe ++ "Secret"))
              (InfrastructureStack.baseDbSecretProps secretsPrefix dbConfig safe)
            :: dbs ++
            snd (InfrastructureStack.publishBaseDatabase tokens this id dbConfig safe
                   baseDb (Cdk.child this (safe ++ "Secret")) []))%list.
Proof.
  intros Hok.
  destruct (firstFailure_none hz cert dbConfig Hok)
    as (Htest & (safe & Hsafe) & Hknown & _).
  destruct (newBaseDatabase_store dbConfig safe (List.length st)
              (Cdk.child this (safe ++ "Secret"))
              (st ++ [Cdk.Secret (Cdk.child this (safe ++ "Secret"))
                        (InfrastructureStack.baseDbSecretProps secretsPrefix dbConfig safe)])%list
              Hknown)
    as (baseDb & dbs & Hnew & Hout & Hui & _).
  exists safe, baseDb, dbs. split; [assumption|]. split; [assumption|].
  split; [assumption|].
  unfold InfrastructureStack.provisionDatabase.
  rewrite Htest, Hsafe. cbn [negb].
  unfold Cdk.bind at 1. unfold Cdk.lift.
  unfold Cdk.bind at 1. unfold Cdk.new at 1.
  unfold Cdk.bind at 1. rewrite Hnew.
  unfold Cdk.bind at 1. rewrite !publishBaseDatabase_store.
  cbn [snd]. repeat rewrite <- app_assoc. reflexivity.
Qed.

(** The whole store of a database with an EdgeDb layer that passes every
    check. *)
Lemma provisionDatabase_edge_store dbConfig e st :
  firstFailure hz cert dbConfig = None ->
  DatabaseConfig.edgeDb dbConfig = Some e ->
  exists safe baseDb dbs,
    InfrastructureStack.cdkIdSafeDbName (DatabaseConfig.name dbConfig) = Js.Return safe
    /\ outputsOf dbs = []
    /\ uiLoadBalancersOf dbs = []
    /\ let base :=
         (st ++
          Cdk.Secret (Cdk.child this (safe ++ "Secret"))
            (InfrastructureStack.baseDbSecretProps secretsPrefix dbConfig safe)
          :: dbs ++
          snd (InfrastructureStack.publishBaseDatabase tokens this id dbConfig safe
                 baseDb (Cdk.child this (safe ++ "Secret")) []))%list in
       let props :=
         InfrastructureStack.edgeDbProps secretsPrefix vpc dbConfig e safe baseDb
           hz cert in
       let here := Cdk.child this (safe ++ "EdgeDb") in
       InfrastructureStack.provisionDatabase tokens this id secretsPrefix vpc hz cert
         dbConfig st
       = (Js.Return tt,
          (base ++
           Cdk.Secret (Cdk.child here "EdgeDbSecret") (EdgeDbConstruct.secretProps props)
           :: Cdk.EdgeDbServiceConstruct (Cdk.child here "EdgeDbService")
                (EdgeDbConstruct.edgeDbService props) (List.length base)
           :: Cdk.EdgeDbLoadBalancerProtocolConstruct
                (Cdk.child here "EdgeDbLoadBalancerProtocol")
                (EdgeDbConstruct.edgeDbLoadBalancerProtocol props)
                (S (List.length base))
           :: Cdk.CfnOutput (Cdk.child here "EdgeDbDsnNoPasswordOrDatabase")
                (EdgeDbConstruct.dsnOf tokens props
                   (Cdk.child here "EdgeDbLoadBalancerProtocol"))
           :: match EdgeDbConstruct.edgeDbLoadBalancerUi props with
              | Some ui =>
                  [Cdk.EdgeDbLoadBalancerUiConstruct
                     (Cdk.child here "EdgeDbLoadBalancerUi") ui (S (List.length base));
                   Cdk.CfnOutput (Cdk.child here "EdgeDbUiUrl")
                     (EdgeDbConstruct.uiUrlOf tokens ui
                        (Cdk.child here "EdgeDbLoadBalancerUi"))]
              | None => []
              end ++
           [Cdk.StringParameter
              (Cdk.child this (safe ++ "DatabaseEdgeDbDsnNoPasswordOrDatabaseParameter"))
              (Shared.databaseEdgeDbDsnNoPasswordOrDatabaseParameterName id
                 (DatabaseConfig.name dbConfig))
              (EdgeDbConstruct.dsnOf tokens props
                 (Cdk.child here "EdgeDbLoadBalancerProtocol"));
            Cdk.StringParameter
              (Cdk.child this (safe ++ "DatabaseEdgeDbAdminPasswordSecretArnParameter"))
              (Shared.databaseEdgeDbAdminPasswordSecretArnParameterName id
                 (DatabaseConfig.name dbConfig))
              (Cdk.secretArn tokens (Cdk.child here "EdgeDbSecret"));
            Cdk.StringParameter
              (Cdk.child this (safe ++ "DatabaseEdgeDbSecurityGroupIdParameter"))
              (Shared.databaseEdgeDbSecurityGroupIdParameterName id
                 (DatabaseConfig.name dbConfig))
              (Cdk.groupId tokens (Cdk.child here "EdgeDbService"))])%list).
Proof.
  intros Hok Hedge.
  destruct (provisionDatabase_layers dbConfig st Hok)
    as (safe & baseDb & dbs & Hsafe & Hout & Hui & Hrun).
  destruct (firstFailure_none hz cert dbConfig Hok) as (_ & _ & _ & Hpublic).
  rewrite Hedge in Hpublic.
  exists safe, baseDb, dbs. split; [assumption|]. split; [assumption|].
  split; [assumption|]. cbv zeta.
  rewrite Hrun.
  rewrite (provisionEdgeDb_store tokens this id secretsPrefix vpc hz cert dbConfig e
             safe baseDb _ Hedge Hpublic).
  cbv zeta. rewrite edgeDb_constructor_store. cbv zeta. cbn [snd].
  repeat rewrite <- app_assoc. reflexivity.
Qed.

End Layers.

(** X8: with the secrets prefix a string, as [EdgeDbProps] declares it, the
    EdgeDb secret of a database is always named [<prefix><Id>EdgeDb], while
    the secret of the base database is named [<prefix><Id>Rds] for a prefix
    that is not empty and is left without a name for the empty prefix, where
    the EdgeDb secret is still named, [<Id>EdgeDb]. *)
Theorem X8_secret_names tokens this id prefix vpc hz cert dbConfig e st st' :
  DatabaseConfig.edgeDb dbConfig = Some e ->
  InfrastructureStack.provisionDatabase tokens this id (Some prefix) vpc hz cert
    dbConfig st
  = (Js.Return tt, st') ->
  exists safe rds edge,
    InfrastructureStack.cdkIdSafeDbName (DatabaseConfig.name dbConfig) = Js.Return safe
    /\ In (Cdk.Secret (Cdk.child this (safe ++ "Secret")) rds) st'
    /\ In (Cdk.Secret (Cdk.child (Cdk.child this (safe ++ "EdgeDb")) "EdgeDbSecret")
             edge) st'
    /\ Cdk.secretName edge = Some (prefix ++ safe ++ "EdgeDb")
    /\ (prefix <> "" -> Cdk.secretName rds = Some (prefix ++ safe ++ "Rds"))
    /\ (prefix = "" ->
        Cdk.secretName rds = None /\ Cdk.secretName edge = Some (safe ++ "EdgeDb")).
Proof.
  intros Hedge Hret.
  pose proof (provisionDatabase_returned tokens this id (Some prefix) vpc hz cert
                dbConfig st st' Hret) as Hok.
  destruct (provisionDatabase_edge_store tokens this id (Some prefix) vpc hz cert
              dbConfig e st Hok Hedge)
    as (safe & baseDb & dbs & Hsafe & _ & _ & Hrun).
  cbv zeta in Hrun. apply (f_equal snd) in Hret. rewrite Hrun in Hret. cbn [snd] in Hret.
  subst st'.
  exists safe. eexists. eexists. split; [assumption|].
  split. { apply in_or_app. left. apply in_or_app. right. simpl. auto. }
  split. { apply in_or_app. right. simpl. auto. }
  cbn [Cdk.secretName InfrastructureStack.baseDbSecretProps EdgeDbConstruct.secretProps
       EdgeDbConstruct.secretsPrefix EdgeDbConstruct.rdsDatabaseCdkIdSafeDbName
       InfrastructureStack.edgeDbProps Js.render].
  split; [reflexivity|]. split.
  - intros Hne. destruct prefix; [congruence|]. reflexivity.
  - intros ->. split; reflexivity.
Qed.

Lemma X8_secret_names_witness :
  (exists safe rds edge,
     InfrastructureStack.cdkIdSafeDbName "reporting" = Js.Return safe
     /\ In (Cdk.Secret (Cdk.child "Stack" (safe ++ "Secret")) rds)
          (snd (InfrastructureStack.provisionDatabase Samples.tokens "Stack" "stk"
                  (Some "Elsa") "VPC" None None Samples.reporting []))
     /\ In (Cdk.Secret (Cdk.child (Cdk.child "Stack" (safe ++ "EdgeDb")) "EdgeDbSecret")
              edge)
          (snd (InfrastructureStack.provisionDatabase Samples.tokens "Stack" "stk"
                  (Some "Elsa") "VPC" None None Samples.reporting []))
     /\ Cdk.secretName edge = Some ("Elsa" ++ safe ++ "EdgeDb")
     /\ ("Elsa" <> "" -> Cdk.secretName rds = Some ("Elsa" ++ safe ++ "Rds"))
     /\ ("Elsa" = "" ->
         Cdk.secretName rds = None /\ Cdk.secretName edge = Some (safe ++ "EdgeDb")))
  /\ (exists safe rds edge,
        InfrastructureStack.cdkIdSafeDbName "reporting" = Js.Return safe
        /\ In (Cdk.Secret (Cdk.child "Stack" (safe ++ "Secret")) rds)
             (snd (InfrastructureStack.provisionDatabase Samples.tokens "Stack" "stk"
                     (Some EmptyString) "VPC" None None Samples.reporting []))
        /\ In (Cdk.Secret (Cdk.child (Cdk.child "Stack" (safe ++ "EdgeDb")) "EdgeDbSecret")
                 edge)
             (snd (InfrastructureStack.provisionDatabase Samples.tokens "Stack" "stk"
                     (Some EmptyString) "VPC" None None Samples.reporting []))
        /\ Cdk.secretName edge = Some (EmptyString ++ safe ++ "EdgeDb")
        /\ (EmptyString <> EmptyString ->
            Cdk.secretName rds = Some (EmptyString ++ safe ++ "Rds"))
        /\ (EmptyString = EmptyString ->
            Cdk.secretName rds = None /\ Cdk.secretName edge = Some (safe ++ "EdgeDb"))).
Proof.
  split.
  - apply (X8_secret_names Samples.tokens "Stack" "stk" "Elsa" "VPC" None None
             Samples.reporting (Samples.edge (Some 5656) None) []).
    + reflexivity.
    + vm_compute. reflexivity.
  - apply (X8_secret_names Samples.tokens "Stack" "stk" EmptyString "VPC" None None
             Samples.reporting (Samples.edge (Some 5656) None) []).
    + reflexivity.
    + vm_compute. reflexivity.
Defined.

(** X9: the EdgeDb DSN that is published as a parameter is the one put out by
    the construct, [edgedb://elsa_superuser@<dns of the protocol load
    balancer>] and a port suffix; the load balancer listens on 5656 and the
    suffix is empty when [dbPort] is missing, 0 or 5656, and otherwise the load
    balancer listens on [dbPort] and the suffix is [:<dbPort>]. *)
Theorem X9_edgeDb_dsn tokens this id secretsPrefix vpc hz cert dbConfig e st :
  firstFailure hz cert dbConfig = None ->
  DatabaseConfig.edgeDb dbConfig = Some e ->
  exists safe st' service port suffix,
    InfrastructureStack.cdkIdSafeDbName (DatabaseConfig.name dbConfig) = Js.Return safe
    /\ InfrastructureStack.provisionDatabase tokens this id secretsPrefix vpc hz cert
         dbConfig st
       = (Js.Return tt, st')
    /\ let here := Cdk.child this (safe ++ "EdgeDb") in
       let balancer := Cdk.child here "EdgeDbLoadBalancerProtocol" in
       let dsn := "edgedb://elsa_superuser@" ++ Cdk.dnsName tokens balancer ++ suffix in
       In (Cdk.StringParameter
             (Cdk.child this (safe ++ "DatabaseEdgeDbDsnNoPasswordOrDatabaseParameter"))
             (Shared.databaseEdgeDbDsnNoPasswordOrDatabaseParameterName id
                (DatabaseConfig.name dbConfig))
             dsn) st'
       /\ In (Cdk.CfnOutput (Cdk.child here "EdgeDbDsnNoPasswordOrDatabase") dsn) st'
       /\ In (Cdk.EdgeDbLoadBalancerProtocolConstruct balancer
                {| Cdk.tcpPassthroughPort := port |} service) st'
       /\ (Js.truthyNumber (EdgeDbCommon.dbPort e) = false
           \/ EdgeDbCommon.dbPort e = Some 5656 ->
           port = 5656 /\ suffix = "")
       /\ (forall given,
             EdgeDbCommon.dbPort e = Some given -> given <> 0 -> given <> 5656 ->
             port = given /\ suffix = ":" ++ Js.numberToString given).
Proof.
  intros Hok Hedge.
  destruct (provisionDatabase_edge_store tokens this id secretsPrefix vpc hz cert
              dbConfig e st Hok Hedge)
    as (safe & baseDb & dbs & Hsafe & _ & _ & Hrun).
  cbv zeta in Hrun.
  exists safe. eexists. eexists.
  exists (Js.orElse (EdgeDbCommon.dbPort e) 5656),
         (EdgeDbConstruct.edgeDbPortString (Js.orElse (EdgeDbCommon.dbPort e) 5656)).
  split; [assumption|]. split; [exact Hrun|]. cbv zeta.
  split. { apply in_or_app. right. apply in_cons, in_cons, in_cons, in_cons.
           apply in_or_app. right. simpl. auto. }
  split. { apply in_or_app. right. simpl. auto. }
  split. { apply in_or_app. right. simpl. auto. }
  split.
  - intros [H | H].
    + destruct (EdgeDbCommon.dbPort e) as [given|]; simpl in *; [|auto].
      destruct (Z.eqb_spec given 0); [auto|discriminate].
    + rewrite H. auto.
  - intros given -> H0 H5656. simpl.
    destruct (Z.eqb_spec given 0); [contradiction|].
    split; [reflexivity|]. now apply edgeDbPortString_spec.
Qed.

Lemma X9_edgeDb_dsn_witness :
  exists safe st' service port suffix,
    InfrastructureStack.cdkIdSafeDbName "analytics" = Js.Return safe
    /\ InfrastructureStack.provisionDatabase Samples.tokens "Stack" "stk" (Some "Elsa")
         "VPC" (Some 0%nat) (Some 1%nat) Samples.withUi []
       = (Js.Return tt, st')
    /\ let here := Cdk.child "Stack" (safe ++ "EdgeDb") in
       let balancer := Cdk.child here "EdgeDbLoadBalancerProtocol" in
       let dsn :=
         "edgedb://elsa_superuser@" ++ Cdk.dnsName Samples.tokens balancer ++ suffix in
       In (Cdk.StringParameter
             (Cdk.child "Stack" (safe ++ "DatabaseEdgeDbDsnNoPasswordOrDatabaseParameter"))
             (Shared.databaseEdgeDbDsnNoPasswordOrDatabaseParameterName "stk" "analytics")
             dsn) st'
       /\ In (Cdk.CfnOutput (Cdk.child here "EdgeDbDsnNoPasswordOrDatabase") dsn) st'
       /\ In (Cdk.EdgeDbLoadBalancerProtocolConstruct balancer
                {| Cdk.tcpPassthroughPort := port |} service) st'
       /\ (Js.truthyNumber (Some 9999) = false \/ Some 9999 = Some 5656 ->
           port = 5656 /\ suffix = "")
       /\ (forall given,
             Some 9999 = Some given -> given <> 0 -> given <> 5656 ->
             port = given /\ suffix = ":" ++ Js.numberToString given).
Proof.
  apply (X9_edgeDb_dsn Samples.tokens "Stack" "stk" (Some "Elsa") "VPC"
           (Some 0%nat) (Some 1%nat) Samples.withUi
           (Samples.edge (Some 9999) (Some (Samples.ui (Some 8443)))) []);
    reflexivity.
Defined.

(** X10: the UI load balancer and the UI URL are made exactly on request.
    The first output of a database with an EdgeDb layer is its DSN,
    [edgedb://elsa_superuser@<DNS name of its protocol load balancer>] and
    the port suffix.  Without [makePubliclyReachable] that is its only
    output, it gets no UI load balancer, and the UI feature flag of its
    service is off; with it there is one UI load balancer, which holds the
    certificate and the hosted zone of the stack (never a missing one) and
    the port [uiPort ?? 443], and a second output,
    [https://<DNS name of that UI load balancer>], the port suffix and
    [/ui], and the flag is on. *)
Theorem X10_ui_on_request
    tokens this id secretsPrefix vpc hz cert dbConfig e st st' :
  DatabaseConfig.edgeDb dbConfig = Some e ->
  InfrastructureStack.provisionDatabase tokens this id secretsPrefix vpc hz cert
    dbConfig st
  = (Js.Return tt, st') ->
  exists safe added service secret,
    InfrastructureStack.cdkIdSafeDbName (DatabaseConfig.name dbConfig) = Js.Return safe
    /\ st' = (st ++ added)%list
    /\ let here := Cdk.child this (safe ++ "EdgeDb") in
       let port := Js.orElse (EdgeDbCommon.dbPort e) 5656 in
       let dsn :=
         (Cdk.child here "EdgeDbDsnNoPasswordOrDatabase",
          "edgedb://elsa_superuser@"
          ++ Cdk.dnsName tokens (Cdk.child here "EdgeDbLoadBalancerProtocol")
          ++ (if port =? 5656 then "" else ":" ++ Js.numberToString port)) in
       In (Cdk.EdgeDbServiceConstruct (Cdk.child here "EdgeDbService") service secret)
         added
       /\ (EdgeDbCommon.makePubliclyReachable e = None ->
           uiLoadBalancersOf added = []
           /\ outputsOf added = [dsn]
           /\ Cdk.enableUiFeatureFlag service = false)
       /\ (forall p,
             EdgeDbCommon.makePubliclyReachable e = Some p ->
             let uiPort := Js.nullish (EdgeDbPublic.uiPort p) 443 in
             exists certificate zone,
               cert = Some certificate
               /\ hz = Some zone
               /\ uiLoadBalancersOf added
                  = [{| Cdk.hostedPort := uiPort;
                        Cdk.hostedPrefix := EdgeDbPublic.urlPrefix p;
                        Cdk.hostedCertificate := Some certificate;
                        Cdk.hostedZone := Some zone |}]
               /\ outputsOf added
                  = [dsn;
                     (Cdk.child here "EdgeDbUiUrl",
                      "https://"
                      ++ Cdk.dnsName tokens (Cdk.child here "EdgeDbLoadBalancerUi")
                      ++ (if uiPort =? 443 then "" else ":" ++ Js.numberToString uiPort)
                      ++ "/ui")]
               /\ Cdk.enableUiFeatureFlag service = true).
Proof.
  intros Hedge Hret.
  pose proof (provisionDatabase_returned tokens this id secretsPrefix vpc hz cert
                dbConfig st st' Hret) as Hok.
  destruct (provisionDatabase_edge_store tokens this id secretsPrefix vpc hz cert
              dbConfig e st Hok Hedge)
    as (safe & baseDb & dbs & Hsafe & Hout & Hui & Hrun).
  cbv zeta in Hrun. apply (f_equal snd) in Hret. rewrite Hrun in Hret. cbn [snd] in Hret.
  subst st'.
  rewrite publishBaseDatabase_store. cbn [snd app].
  destruct (firstFailure_none hz cert dbConfig Hok) as (_ & _ & _ & Hpublic).
  rewrite Hedge in Hpublic.
  exists safe. eexists. eexists. eexists.
  split; [assumption|].
  split. { rewrite <- app_assoc. reflexivity. }
  cbv zeta.
  split. { apply in_or_app. right. apply in_cons. simpl. auto. }
  repeat progress
    (cbn [app outputsOf uiLoadBalancersOf map];
     rewrite ?outputsOf_app, ?uiLoadBalancersOf_app, ?Hout, ?Hui).
  unfold EdgeDbConstruct.dsnOf, EdgeDbConstruct.uiUrlOf,
    EdgeDbConstruct.edgeDbPortString, EdgeDbConstruct.tlsPortString.
  cbn [InfrastructureStack.edgeDbProps EdgeDbConstruct.edgeDbLoadBalancerUi
       EdgeDbConstruct.edgeDbService EdgeDbConstruct.edgeDbLoadBalancerProtocol
       Cdk.enableUiFeatureFlag Cdk.superUser Cdk.tcpPassthroughPort].
  split.
  - intros Hnone. rewrite Hnone.
    destruct (Js.orElse (EdgeDbCommon.dbPort e) 5656 =? 5656); simpl; auto.
  - intros p Hsome. rewrite Hsome. unfold publicUiUnavailable in Hpublic.
    rewrite Hsome in Hpublic.
    destruct cert as [certificate|]; [|discriminate].
    destruct hz as [zone|]; [|discriminate].
    exists certificate, zone.
    split; [reflexivity|]. split; [reflexivity|].
    split; [reflexivity|]. cbn [Cdk.hostedPort].
    destruct (Js.orElse (EdgeDbCommon.dbPort e) 5656 =? 5656);
      destruct (Js.nullish (EdgeDbPublic.uiPort p) 443 =? 443);
      split; reflexivity.
Qed.

Lemma X10_ui_on_request_witness :
  exists safe added service secret,
    InfrastructureStack.cdkIdSafeDbName "analytics" = Js.Return safe
    /\ snd (InfrastructureStack.provisionDatabase Samples.tokens "Stack" "stk"
              (Some "Elsa") "VPC" (Some 0%nat) (Some 1%nat) Samples.withUi [])
       = ([] ++ added)%list
    /\ let here := Cdk.child "Stack" (safe ++ "EdgeDb") in
       let port := Js.orElse (Some 9999) 5656 in
       let dsn :=
         (Cdk.child here "EdgeDbDsnNoPasswordOrDatabase",
          "edgedb://elsa_superuser@"
          ++ Cdk.dnsName Samples.tokens (Cdk.child here "EdgeDbLoadBalancerProtocol")
          ++ (if port =? 5656 then "" else ":" ++ Js.numberToString port)) in
       In (Cdk.EdgeDbServiceConstruct (Cdk.child here "EdgeDbService") service secret)
         added
       /\ (Some (Samples.ui (Some 8443)) = None ->
           uiLoadBalancersOf added = []
           /\ outputsOf added = [dsn]
           /\ Cdk.enableUiFeatureFlag service = false)
       /\ (forall p,
             Some (Samples.ui (Some 8443)) = Some p ->
             let uiPort := Js.nullish (EdgeDbPublic.uiPort p) 443 in
             exists certificate zone,
               Some 1%nat = Some certificate
               /\ Some 0%nat = Some zone
               /\ uiLoadBalancersOf added
                  = [{| Cdk.hostedPort := uiPort;
                        Cdk.hostedPrefix := EdgeDbPublic.urlPrefix p;
                        Cdk.hostedCertificate := Some certificate;
                        Cdk.hostedZone := Some zone |}]
               /\ outputsOf added
                  = [dsn;
                     (Cdk.child here "EdgeDbUiUrl",
                      "https://"
                      ++ Cdk.dnsName Samples.tokens (Cdk.child here "EdgeDbLoadBalancerUi")
                      ++ (if uiPort =? 443 then "" else ":" ++ Js.numberToString uiPort)
                      ++ "/ui")]
               /\ Cdk.enableUiFeatureFlag service = true).
Proof.
  apply (X10_ui_on_request Samples.tokens "Stack" "stk" (Some "Elsa") "VPC"
           (Some 0%nat) (Some 1%nat) Samples.withUi
           (Samples.edge (Some 9999) (Some (Samples.ui (Some 8443)))) []).
  - reflexivity.
  - vm_compute. reflexivity.
Defined.

(** X11: in the EdgeDb layer the service holds the secret just created for it
    and is bound to the base database through the values published for that
    database (its DSN with password and its security group id); the protocol
    load balancer fronts that service; and the EdgeDb parameters publish the
    ARN of that secret and the group id of that service.  The service runs
    one task as [elsa_superuser], with [cpu ?? 1024] and
    [memoryLimitMiB ?? 2048]. *)
Theorem X11_edgeDb_wiring tokens this id secretsPrefix vpc hz cert dbConfig e st :
  firstFailure hz cert dbConfig = None ->
  DatabaseConfig.edgeDb dbConfig = Some e ->
  let key :=
    InfrastructureStack.databaseParameterName id (DatabaseConfig.name dbConfig) in
  exists safe st' secret secretPath secretProps service servicePath props balancer port,
    InfrastructureStack.provisionDatabase tokens this id secretsPrefix vpc hz cert
      dbConfig st
    = (Js.Return tt, st')
    /\ nth_error st' secret = Some (Cdk.Secret secretPath secretProps)
    /\ nth_error st' service
       = Some (Cdk.EdgeDbServiceConstruct servicePath props secret)
    /\ In (Cdk.EdgeDbLoadBalancerProtocolConstruct balancer port service) st'
    /\ In (Cdk.StringParameter
             (Cdk.child this (safe ++ "DatabaseEdgeDbAdminPasswordSecretArnParameter"))
             (Shared.databaseEdgeDbAdminPasswordSecretArnParameterName id
                (DatabaseConfig.name dbConfig))
             (Cdk.secretArn tokens secretPath)) st'
    /\ In (Cdk.StringParameter
             (Cdk.child this (safe ++ "DatabaseEdgeDbSecurityGroupIdParameter"))
             (Shared.databaseEdgeDbSecurityGroupIdParameterName id
                (DatabaseConfig.name dbConfig))
             (Cdk.groupId tokens servicePath)) st'
    /\ In (Cdk.StringParameter
             (Cdk.child this (safe ++ "DatabaseDsnWithPasswordParameter"))
             (key "dsnWithPassword") (Cdk.baseDbDsn props)) st'
    /\ In (Cdk.StringParameter
             (Cdk.child this (safe ++ "DatabaseSecurityGroupIdParameter"))
             (key "securityGroupId") (Cdk.baseDbSecurityGroup props)) st'
    /\ Cdk.desiredCount props = 1
    /\ Cdk.superUser props = "elsa_superuser"
    /\ Cdk.cpu props = Js.nullish (EdgeDbCommon.cpu e) 1024
    /\ Cdk.memory props = Js.nullish (EdgeDbCommon.memoryLimitMiB e) 2048
    /\ Cdk.edgeDbVersion props = EdgeDbCommon.version e
    /\ Cdk.excludePunctuation secretProps = true
    /\ Cdk.secretStringTemplate secretProps = None.
Proof.
  intros Hok Hedge key.
  destruct (provisionDatabase_edge_store tokens this id secretsPrefix vpc hz cert
              dbConfig e st Hok Hedge)
    as (safe & baseDb & dbs & Hsafe & _ & _ & Hrun).
  cbv zeta in Hrun.
  exists safe. eexists.
  match type of Hrun with
  | _ = (_, (?base ++ _)%list) =>
      exists (List.length base); eexists; eexists;
      exists (S (List.length base))
  end.
  eexists. eexists. eexists. eexists.
  split; [exact Hrun|].
  split; [apply nth_error_at_length|].
  split; [apply nth_error_after_length|].
  split. { apply in_or_app. right. simpl. auto. }
  split. { apply in_or_app. right. apply in_cons, in_cons, in_cons, in_cons.
           apply in_or_app. right. simpl. auto. }
  split. { apply in_or_app. right. apply in_cons, in_cons, in_cons, in_cons.
           apply in_or_app. right. simpl. auto. }
  rewrite publishBaseDatabase_store. cbn [snd app].
  split. { apply in_or_app. left. apply in_or_app. right. apply in_cons.
           apply in_or_app. right. simpl. auto. }
  split. { apply in_or_app. left. apply in_or_app. right. apply in_cons.
           apply in_or_app. right. simpl. auto 10. }
  repeat split.
Qed.

Lemma X11_edgeDb_wiring_witness :
  exists safe st' secret secretPath secretProps service servicePath props balancer port,
    InfrastructureStack.provisionDatabase Samples.tokens "Stack" "stk" (Some "Elsa")
      "VPC" None None Samples.reporting []
    = (Js.Return tt, st')
    /\ nth_error st' secret = Some (Cdk.Secret secretPath secretProps)
    /\ nth_error st' service
       = Some (Cdk.EdgeDbServiceConstruct servicePath props secret)
    /\ In (Cdk.EdgeDbLoadBalancerProtocolConstruct balancer port service) st'
    /\ In (Cdk.StringParameter
             (Cdk.child "Stack" (safe ++ "DatabaseEdgeDbAdminPasswordSecretArnParameter"))
             (Shared.databaseEdgeDbAdminPasswordSecretArnParameterName "stk" "reporting")
             (Cdk.secretArn Samples.tokens secretPath)) st'
    /\ In (Cdk.StringParameter
             (Cdk.child "Stack" (safe ++ "DatabaseEdgeDbSecurityGroupIdParameter"))
             (Shared.databaseEdgeDbSecurityGroupIdParameterName "stk" "reporting")
             (Cdk.groupId Samples.tokens servicePath)) st'
    /\ In (Cdk.StringParameter
             (Cdk.child "Stack" (safe ++ "DatabaseDsnWithPasswordParameter"))
             "/stk/Database/reporting/dsnWithPassword" (Cdk.baseDbDsn props)) st'
    /\ In (Cdk.StringParameter
             (Cdk.child "Stack" (safe ++ "DatabaseSecurityGroupIdParameter"))
             "/stk/Database/reporting/securityGroupId"
             (Cdk.baseDbSecurityGroup props)) st'
    /\ Cdk.desiredCount props = 1
    /\ Cdk.superUser props = "elsa_superuser"
    /\ Cdk.cpu props = Js.nullish None 1024
    /\ Cdk.memory props = Js.nullish None 2048
    /\ Cdk.edgeDbVersion props = "3.0"
    /\ Cdk.excludePunctuation secretProps = true
    /\ Cdk.secretStringTemplate secretProps = None.
Proof.
  apply (X11_edgeDb_wiring Samples.tokens "Stack" "stk" (Some "Elsa") "VPC" None None
           Samples.reporting (Samples.edge (Some 5656) None) []); reflexivity.
Defined.

(** X13: [InstanceBaseDatabase] adds its group and its instance to the store
    and changes nothing else; the instance is always encrypted at rest, takes
    the given secret, is attached to that group alone, and runs Postgres 14
    unless a version is given; it is placed in public subnets exactly when its
    group is open to any IPv4 address, which is exactly when
    [makePubliclyReachable] is true. *)
Theorem X13_instance_placement tokens scope id props st :
  exists db group rule p,
    InstanceBaseDatabase.constructor tokens scope id props st
    = (Js.Return db,
       (st ++
        [Cdk.SecurityGroup (Cdk.child scope "DatabaseSecurityGroup") group [rule];
         Cdk.DatabaseInstance (Cdk.child scope "DatabaseInstance") p])%list)
    /\ Cdk.storageEncrypted p = true
    /\ Cdk.credentials p = Cdk.bsecret props
    /\ Cdk.securityGroups p = [InstanceBaseDatabase._securityGroup db]
    /\ Cdk.engineVersion p
       = match Cdk.overridePostgresVersion props with
         | Some version => version
         | None => "14"
         end
    /\ (Cdk.vpcSubnets p = Cdk.PUBLIC <-> Cdk.rulePeer rule = Cdk.AnyIpv4)
    /\ (Cdk.vpcSubnets p = Cdk.PUBLIC <-> Cdk.makePubliclyReachable props = Some true)
    /\ (Cdk.vpcSubnets p = Cdk.PRIVATE_ISOLATED
        <-> Cdk.rulePeer rule = Cdk.GroupPeer (InstanceBaseDatabase._securityGroup db)).
Proof.
  rewrite instance_constructor_run.
  eexists. eexists. eexists. eexists.
  split; [reflexivity|]. cbn.
  unfold InstanceBaseDatabase.ingressPeer, InstanceBaseDatabase.VER_14.
  split; [reflexivity|]. split; [reflexivity|]. split; [reflexivity|].
  split; [destruct (Cdk.overridePostgresVersion props); reflexivity|].
  destruct (Cdk.makePubliclyReachable props) as [[|]|]; simpl;
    repeat split; intros; congruence.
Qed.

(** ** The hosted zone, the certificate and the public UI *)

Lemma firstFailure_with_dns zone certificate dbConfig :
  firstFailure (Some zone) (Some certificate) dbConfig
  <> Some InfrastructureStack.uiError.
Proof.
  unfold firstFailure. cbv zeta.
  destruct (anyChar InfrastructureStack.isNameChar (DatabaseConfig.name dbConfig));
    cbn [negb]; [|discriminate].
  unfold InfrastructureStack.cdkIdSafeDbName, Js.upperFirstOrThrow.
  destruct (Lodash.camelCase (DatabaseConfig.name dbConfig)); [discriminate|].
  destruct (knownPostgresType (DatabaseConfig.postgresType dbConfig));
    cbn [negb]; [|discriminate].
  unfold publicUiUnavailable.
  destruct (DatabaseConfig.edgeDb dbConfig) as [e|]; [|discriminate].
  destruct (EdgeDbCommon.makePubliclyReachable e); discriminate.
Qed.

Lemma firstFailureIn_with_dns zone certificate databases :
  firstFailureIn (Some zone) (Some certificate) databases
  <> Some InfrastructureStack.uiError.
Proof.
  induction databases as [|dbConfig rest IH]; simpl; [discriminate|].
  pose proof (firstFailure_with_dns zone certificate dbConfig) as H.
  destruct (firstFailure (Some zone) (Some certificate) dbConfig); congruence.
Qed.

Lemma outcome_with_dns zone certificate databases :
  outcomeOf (firstFailureIn (Some zone) (Some certificate) databases)
  <> Js.Throw InfrastructureStack.uiError.
Proof.
  pose proof (firstFailureIn_with_dns zone certificate databases) as H.
  destruct (firstFailureIn (Some zone) (Some certificate) databases) as [message|];
    cbn [outcomeOf]; [|discriminate].
  intros E. apply H. injection E as E. f_equal. exact E.
Qed.

Lemma lookupDns_run tokens this id dns st :
  InfrastructureStack.lookupDns tokens this id dns st
  = match dns with
    | Some zone =>
        (Js.Return (Some (List.length st), Some (S (List.length st))),
         (st ++
          [Cdk.HostedZone (Cdk.child this "HostedZone") zone;
           Cdk.Certificate (Cdk.child this "WildcardCertificate") ("*." ++ zone)
             [zone] (List.length st);
           Cdk.StringParameter (Cdk.child this "ZoneNameParameter")
             ("/" ++ id ++ "/HostedZone/zoneName")
             (Cdk.zoneName tokens (Cdk.child this "HostedZone"));
           Cdk.StringParameter (Cdk.child this "HostedZoneIdParameter")
             ("/" ++ id ++ "/HostedZone/hostedZoneId")
             (Cdk.hostedZoneId tokens (Cdk.child this "HostedZone"));
           Cdk.StringParameter (Cdk.child this "CertificateArnParameter")
             ("/" ++ id ++ "/Certificate/certificateArn")
             (Cdk.certificateArn tokens (Cdk.child this "WildcardCertificate"))])%list)
    | None => (Js.Return (None, None), st)
    end.
Proof.
  destruct dns as [zone|]; [|reflexivity].
  unfold InfrastructureStack.lookupDns, Cdk.bind, Cdk.new, Cdk.ret. cbv zeta.
  rewrite last_length. repeat rewrite <- app_assoc. reflexivity.
Qed.

(** X12: the check on the public UI turns on [props.dns] alone.  Without it
    no zone and no certificate exist, nothing is created for them, and the
    pass ends as with both missing; with it the hosted zone is looked up, a
    certificate for [*.<zone>] and [<zone>] is validated against that zone,
    both are handed to the pass, and the constructor never throws the UI
    error. *)
Theorem X12_dns_and_public_ui tokens this id secretsPrefix vpc databases st :
  (exists added,
     InfrastructureStack.constructor tokens this id secretsPrefix vpc None databases st
     = (outcomeOf
          (match databases with
           | Some l => firstFailureIn None None l
           | None => None
           end),
        (st ++ added)%list)
     /\ InfrastructureStack.provisionDatabases tokens this id secretsPrefix vpc
          None None databases st
        = (outcomeOf
             (match databases with
              | Some l => firstFailureIn None None l
              | None => None
              end),
           (st ++ added)%list))
  /\ (forall zone,
        exists outcome added zoneRef certificate,
          InfrastructureStack.constructor tokens this id secretsPrefix vpc (Some zone)
            databases st
          = (outcome, (st ++ added)%list)
          /\ outcome <> Js.Throw InfrastructureStack.uiError
          /\ nth_error (st ++ added)%list zoneRef
             = Some (Cdk.HostedZone (Cdk.child this "HostedZone") zone)
          /\ nth_error (st ++ added)%list certificate
             = Some (Cdk.Certificate (Cdk.child this "WildcardCertificate")
                       ("*." ++ zone) [zone] zoneRef)
          /\ fst (InfrastructureStack.provisionDatabases tokens this id secretsPrefix
                    vpc (Some zoneRef) (Some certificate) databases [])
             = outcome).
Proof.
  split.
  - unfold InfrastructureStack.constructor, Cdk.bind.
    rewrite lookupDns_run. cbn [fst snd].
    destruct databases as [l|].
    + cbn [InfrastructureStack.provisionDatabases].
      destruct (forEach_outcome tokens this id secretsPrefix vpc None None l st)
        as (added & ->).
      exists added. split; reflexivity.
    + exists []. simpl. rewrite app_nil_r. split; reflexivity.
  - intros zone.
    unfold InfrastructureStack.constructor, Cdk.bind.
    rewrite lookupDns_run. cbn [fst snd].
    destruct databases as [l|].
    + cbn [InfrastructureStack.provisionDatabases].
      match goal with
      | |- context [InfrastructureStack.forEach _ _ _ _ _ ?z ?c l ?st1] =>
          destruct (forEach_outcome tokens this id secretsPrefix vpc z c l st1)
            as (added & Hrun);
          destruct (forEach_outcome tokens this id secretsPrefix vpc z c l [])
            as (added0 & Hrun0)
      end.
      rewrite Hrun.
      eexists. eexists. exists (List.length st), (S (List.length st)).
      split. { rewrite <- app_assoc. reflexivity. }
      split. { apply outcome_with_dns. }
      split. { cbn [app]. apply nth_error_at_length. }
      split. { cbn [app]. apply nth_error_after_length. }
      rewrite Hrun0. reflexivity.
    + eexists. eexists. exists (List.length st), (S (List.length st)).
      split; [reflexivity|]. split; [discriminate|].
      split; [apply nth_error_at_length|].
      split; [apply nth_error_after_length|]. reflexivity.
Qed.

(** ** Two databases of the instance class *)

Lemma pathTaken_app (a b : Cdk.store) (path : string) :
  pathTaken (a ++ b)%list path = pathTaken a path || pathTaken b path.
Proof. apply existsb_app. Qed.

Lemma pathTaken_cons (c : Cdk.construct) (st : Cdk.store) :
  pathTaken (c :: st) (pathOf c) = true.
Proof. unfold pathTaken. simpl. now rewrite String.eqb_refl. Qed.

Lemma requested_app {A : Type} (body : Cdk.M A) (st created : Cdk.store)
    (outcome : Js.outcome A) :
  body st = (outcome, (st ++ created)%list) -> requested body st = created.
Proof.
  intros H. unfold requested. rewrite H. cbn [snd]. clear H.
  induction st as [|c st IH]; [reflexivity|exact IH].
Qed.

(** X14: [InstanceBaseDatabase] creates its group and its instance in the
    scope it is given, under the fixed ids [DatabaseSecurityGroup] and
    [DatabaseInstance].  Once the pass has processed one database of the
    instance class, these two paths of the stack are taken and stay taken,
    and they are the paths of the two constructs that any further
    [InstanceBaseDatabase] of the stack asks for, whatever its id and its
    properties. *)
Theorem X14_instance_paths_taken
    tokens this id secretsPrefix vpc hz cert first st st1 later name props :
  DatabaseConfig.postgresType first = "postgres-instance" ->
  InfrastructureStack.provisionDatabase tokens this id secretsPrefix vpc hz cert first st
  = (Js.Return tt, st1) ->
  let st2 := (st1 ++ later)%list in
  map pathOf (requested (InstanceBaseDatabase.constructor tokens this name props) st2)
  = [Cdk.child this "DatabaseSecurityGroup"; Cdk.child this "DatabaseInstance"]
  /\ pathTaken st2 (Cdk.child this "DatabaseSecurityGroup") = true
  /\ pathTaken st2 (Cdk.child this "DatabaseInstance") = true.
Proof.
  intros Hty Hret st2.
  pose proof (provisionDatabase_returned tokens this id secretsPrefix vpc hz cert
                first st st1 Hret) as Hok.
  destruct (firstFailure_none hz cert first Hok) as (Htest & (safe & Hsafe) & _ & _).
  destruct (provisionDatabase_instance_store tokens this id secretsPrefix vpc hz cert
              first safe st Htest Hsafe Hty)
    as (published & more & _ & Hstore).
  rewrite Hret in Hstore. cbn [snd] in Hstore.
  split.
  - rewrite (requested_app _ _ _ _ (instance_constructor_run tokens this name props st2)).
    reflexivity.
  - unfold st2. rewrite Hstore.
    split.
    + rewrite !pathTaken_app. cbn [app].
      match goal with
      | |- context [pathTaken (?s :: ?g :: ?rest) _] =>
          change (s :: g :: rest)%list with ([s] ++ g :: rest)%list
      end.
      rewrite pathTaken_app.
      match goal with
      | |- context [pathTaken (?g :: ?rest) ?p] =>
          change (pathTaken (g :: rest) p) with (pathTaken (g :: rest) (pathOf g))
      end.
      rewrite pathTaken_cons. now rewrite !orb_true_r.
    + rewrite !pathTaken_app. cbn [app].
      match goal with
      | |- context [pathTaken (?s :: ?g :: ?i :: ?rest) _] =>
          change (s :: g :: i :: rest)%list with ([s; g] ++ i :: rest)%list
      end.
      rewrite pathTaken_app.
      match goal with
      | |- context [pathTaken (?i :: ?rest) ?p] =>
          change (pathTaken (i :: rest) p) with (pathTaken (i :: rest) (pathOf i))
      end.
      rewrite pathTaken_cons. now rewrite !orb_true_r.
Qed.

Lemma X14_instance_paths_taken_witness :
  let st2 :=
    (snd (InfrastructureStack.provisionDatabase Samples.tokens "Stack" "stk"
            (Some "Elsa") "VPC" None None Samples.analytics [])
     ++ [])%list in
  map pathOf
    (requested
       (InstanceBaseDatabase.constructor Samples.tokens "Stack" "Billing"
          (Samples.instanceProps None None None))
       st2)
  = [Cdk.child "Stack" "DatabaseSecurityGroup"; Cdk.child "Stack" "DatabaseInstance"]
  /\ pathTaken st2 (Cdk.child "Stack" "DatabaseSecurityGroup") = true
  /\ pathTaken st2 (Cdk.child "Stack" "DatabaseInstance") = true.
Proof.
  apply (X14_instance_paths_taken Samples.tokens "Stack" "stk" (Some "Elsa") "VPC"
           None None Samples.analytics []
           (snd (InfrastructureStack.provisionDatabase Samples.tokens "Stack" "stk"
                   (Some "Elsa") "VPC" None None Samples.analytics []))
           [] "Billing" (Samples.instanceProps None None None)).
  - reflexivity.
  - vm_compute. reflexivity.
Defined.

(** ** All parameter keys of the constructor *)

Lemma dns_key_is_no_database_key (id tail name field : string) :
  ("/" ++ id ++ "/HostedZone/" ++ tail
   = InfrastructureStack.databaseParameterName id name field -> False)
  /\ ("/" ++ id ++ "/Certificate/" ++ tail
      = InfrastructureStack.databaseParameterName id name field -> False).
Proof.
  unfold InfrastructureStack.databaseParameterName.
  split; intros H; apply (append_inv_head "/") in H; apply append_inv_head in H;
    discriminate H.
Qed.

Lemma database_key_shape (id : string) (databases : list DatabaseConfig.t)
    (key : string) :
  In key (flat_map (keysOf id) databases) ->
  exists name field, key = InfrastructureStack.databaseParameterName id name field.
Proof.
  intros H. apply in_flat_map in H. destruct H as (dbConfig & _ & H).
  unfold keysOf in H. apply in_map_iff in H. destruct H as (field & <- & _).
  eauto.
Qed.

(** X15: with pairwise distinct database names, all parameter keys that the
    constructor publishes from the hosted zone on, the three keys of the zone
    and the certificate and the keys of every database, are pairwise
    distinct, whether the pass returns or throws. *)
Theorem X15_all_keys_unique tokens this id secretsPrefix vpc dns databases st :
  NoDup (map DatabaseConfig.name databases) ->
  exists keys,
    Cdk.parameterNames
      (snd (InfrastructureStack.constructor tokens this id secretsPrefix vpc dns
              (Some databases) st))
    = (Cdk.parameterNames st ++ keys)%list
    /\ NoDup keys
    /\ (dns <> None ->
        In ("/" ++ id ++ "/HostedZone/zoneName") keys
        /\ In ("/" ++ id ++ "/HostedZone/hostedZoneId") keys
        /\ In ("/" ++ id ++ "/Certificate/certificateArn") keys).
Proof.
  intros Hnames.
  unfold InfrastructureStack.constructor, Cdk.bind.
  rewrite lookupDns_run.
  destruct dns as [zone|]; cbn [fst snd InfrastructureStack.provisionDatabases].
  - match goal with
    | |- context [InfrastructureStack.forEach _ _ _ _ _ ?z ?c _ ?st1] =>
        destruct (forEach_keys tokens this id secretsPrefix vpc z c databases st1)
          as (published & pending & Hpub & Hkeys & _)
    end.
    rewrite Hpub, parameterNames_app. cbn [Cdk.parameterNames Cdk.parameterName_of].
    eexists. split; [rewrite <- app_assoc; reflexivity|].
    assert (Hdb : NoDup published).
    { apply (NoDup_app_remove_r published pending). rewrite <- Hkeys.
      now apply all_keys_NoDup. }
    assert (Hshape : forall key, In key published ->
              exists name field,
                key = InfrastructureStack.databaseParameterName id name field).
    { intros key H. apply (database_key_shape id databases).
      rewrite Hkeys. apply in_or_app. now left. }
    split; [|intros _; simpl; auto 10].
    cbn [app]. constructor; [|constructor; [|constructor; [|exact Hdb]]].
    + intros [H|[H|H]].
      * apply (append_inv_head "/") in H. apply append_inv_head in H. discriminate.
      * apply (append_inv_head "/") in H. apply append_inv_head in H. discriminate.
      * destruct (Hshape _ H) as (name & field & E).
        exact (proj1 (dns_key_is_no_database_key id "zoneName" name field) E).
    + intros [H|H].
      * apply (append_inv_head "/") in H. apply append_inv_head in H. discriminate.
      * destruct (Hshape _ H) as (name & field & E).
        exact (proj1 (dns_key_is_no_database_key id "hostedZoneId" name field) E).
    + intros H. destruct (Hshape _ H) as (name & field & E).
      exact (proj2 (dns_key_is_no_database_key id "certificateArn" name field) E).
  - destruct (forEach_keys tokens this id secretsPrefix vpc None None databases st)
      as (published & pending & Hpub & Hkeys & _).
    exists published. split; [assumption|]. split; [|congruence].
    apply (NoDup_app_remove_r published pending). rewrite <- Hkeys.
    now apply all_keys_NoDup.
Qed.

Lemma X15_all_keys_unique_witness :
  exists keys,
    Cdk.parameterNames
      (snd (InfrastructureStack.constructor Samples.tokens "Stack" "stk" (Some "Elsa")
              "VPC" (Some "example.org")
              (Some [Samples.withUi; Samples.reporting]) []))
    = ([] ++ keys)%list
    /\ NoDup keys
    /\ (Some "example.org" <> None ->
        In ("/" ++ "stk" ++ "/HostedZone/zoneName") keys
        /\ In ("/" ++ "stk" ++ "/HostedZone/hostedZoneId") keys
        /\ In ("/" ++ "stk" ++ "/Certificate/certificateArn") keys).
Proof.
  apply (X15_all_keys_unique Samples.tokens "Stack" "stk" (Some "Elsa") "VPC"
           (Some "example.org") [Samples.withUi; Samples.reporting] []).
  simpl. repeat constructor; simpl; intuition discriminate.
Defined.

(** ** The paths of the EdgeDb constructs *)

(** X16: [EdgeDbConstruct] creates four constructs, or six with a UI, each of
    them under its own path [<scope>/<id>/...] (its secret, its service, its
    protocol load balancer, its DSN output, and with a UI its UI load
    balancer and its URL output), and leaves the rest of the store alone. *)
Theorem X16_edgeDb_constructs tokens scope name props st :
  exists edgeDb created,
    EdgeDbConstruct.constructor tokens scope name props st
    = (Js.Return edgeDb, (st ++ created)%list)
    /\ map pathOf created
       = (map (Cdk.child (Cdk.child scope name))
            (["EdgeDbSecret"; "EdgeDbService"; "EdgeDbLoadBalancerProtocol";
              "EdgeDbDsnNoPasswordOrDatabase"]
             ++ match EdgeDbConstruct.edgeDbLoadBalancerUi props with
                | Some _ => ["EdgeDbLoadBalancerUi"; "EdgeDbUiUrl"]
                | None => []
                end))%list
    /\ EdgeDbConstruct.passwordSecret edgeDb
       = Cdk.child (Cdk.child scope name) "EdgeDbSecret"
    /\ NoDup (map pathOf created).
Proof.
  pose proof (edgeDb_constructor_store tokens scope name props st) as Hrun.
  cbv zeta in Hrun. rewrite Hrun.
  eexists. eexists. split; [reflexivity|].
  assert (Hleaf : forall a b : string,
            Cdk.child (Cdk.child scope name) a = Cdk.child (Cdk.child scope name) b ->
            a = b).
  { intros a b H. unfold Cdk.child in H.
    apply append_inv_head in H. now apply (append_inv_head "/") in H. }
  destruct (EdgeDbConstruct.edgeDbLoadBalancerUi props) as [ui|]; cbn.
  - split; [reflexivity|]. split; [reflexivity|].
    repeat (constructor;
            [simpl; intros H;
             repeat (destruct H as [H|H]; [apply Hleaf in H; discriminate H|]);
             exact H|]).
    constructor.
  - split; [reflexivity|]. split; [reflexivity|].
    repeat (constructor;
            [simpl; intros H;
             repeat (destruct H as [H|H]; [apply Hleaf in H; discriminate H|]);
             exact H|]).
    constructor.
Qed.

(** ** The check on the public UI *)

Section PublicUi.
Variable tokens : Cdk.Tokens.
Variables this id : string.
Variable secretsPrefix : option string.
Variable vpc : string.
Variables hz cert : option Cdk.ref.


End PublicUi.




